(** * asus_touchpad.py: the touchpad-to-numpad translation engine

    A shallow embedding of [src/asus_touchpad.py].  The module-level
    globals of the script become the fields of [state]; the layout
    constants read at start-up become the fields of [config]; what the
    script asks of the outside world during the handling of one event
    (the clock, the host numlock LED, xinput, failures of grab, ungrab,
    the bus command and the virtual device) is a [world] record.  Every
    call that leaves the process is appended to the [out] log of the
    state.

    Floating point values ([time()], the slide ratios, [col_width],
    [row_height]) are embedded as exact rationals.  One reading of the
    clock serves the handling of one event.  Slot indices reported by
    the touchpad are taken non-negative, and the write of the
    configuration file is taken to succeed. *)

From Stdlib Require Import String NArith ZArith QArith Qround List Bool Lia.
Import ListNotations.
Local Open Scope Z_scope.

(** ** Event codes and synthetic events *)

(** The codes the script writes to the virtual device: keys, the scan
    code marker and the synchronisation marker. *)
Inductive EventCode : Type :=
| EV_KEY (c : positive)
| MSC_SCAN
| SYN_REPORT.

Record InputEvent : Type := mkInputEvent { code : EventCode; value : Z }.

(** Key numbers of evdev's [ecodes] (linux/input-event-codes.h). *)
Definition KEY_NUMLOCK : positive := 69.
Definition KEY_CALC : positive := 140.
Definition KEY_LEFTSHIFT : positive := 42.
Definition KEY_LEFTCTRL : positive := 29.
Definition KEY_U : positive := 22.

(** [getattr(ecodess, 'KEY_%s' % hex_digit)] for the sixteen hex digits. *)
Definition KEY_hex (d : N) : positive :=
  match d with
  | 0%N => 11 | 1%N => 2 | 2%N => 3 | 3%N => 4 | 4%N => 5 | 5%N => 6
  | 6%N => 7 | 7%N => 8 | 8%N => 9 | 9%N => 10
  | 10%N => 30 | 11%N => 48 | 12%N => 46 | 13%N => 32 | 14%N => 18
  | _ => 33
  end%positive.

(** A cell of the [keys] grid: an [EV_KEY] code, or a literal string
    (the list of its code points) typed through the compose sequence.
    An empty cell is [None]. *)
Inductive numpad_key : Type :=
| KeyCode (c : positive)
| Unicode (s : list N).

Definition numpad_key_eqb (a b : numpad_key) : bool :=
  match a, b with
  | KeyCode x, KeyCode y => Pos.eqb x y
  | Unicode x, Unicode y => if list_eq_dec N.eq_dec x y then true else false
  | _, _ => false
  end.

Definition option_key_eqb (a b : option numpad_key) : bool :=
  match a, b with
  | None, None => true
  | Some x, Some y => numpad_key_eqb x y
  | _, _ => false
  end.

(** [isEvent]: the value has a [name] that evdev knows.  [None] and
    strings have no [name]. *)
Definition isEvent (k : option numpad_key) : bool :=
  match k with
  | Some (KeyCode _) => true
  | _ => false
  end.

(** Python truthiness of [replaced_by_key]. *)
Definition truthy (k : option numpad_key) : bool :=
  match k with
  | None => false
  | Some (Unicode []) => false
  | Some _ => true
  end.

(** ** The compose sequence of a literal string *)

(** ['%X' % n]: the upper-case hex digits of [n], most significant
    first, no leading zero. *)
Fixpoint hex_digits_aux (fuel : nat) (n : N) (acc : list N) : list N :=
  match fuel with
  | O => acc
  | S f =>
      if (n <? 16)%N then n :: acc
      else hex_digits_aux f (n / 16)%N ((n mod 16)%N :: acc)
  end.

Definition hex_digits (n : N) : list N :=
  hex_digits_aux (S (N.to_nat (N.log2 n))) n [].

(** The number a list of hex digits writes. *)
Definition hex_value (l : list N) : N :=
  fold_left (fun a d => (16 * a + d)%N) l 0%N.

Definition get_compose_key_events_for_unicode_string (v : Z) : list InputEvent :=
  [ mkInputEvent MSC_SCAN (Zpos KEY_LEFTCTRL);
    mkInputEvent (EV_KEY KEY_LEFTCTRL) v;
    mkInputEvent SYN_REPORT 0;
    mkInputEvent MSC_SCAN (Zpos KEY_LEFTSHIFT);
    mkInputEvent (EV_KEY KEY_LEFTSHIFT) v;
    mkInputEvent SYN_REPORT 0;
    mkInputEvent MSC_SCAN (Zpos KEY_U);
    mkInputEvent (EV_KEY KEY_U) v;
    mkInputEvent SYN_REPORT 0 ].

(** The six events appended for one hex digit. *)
Definition hex_digit_events (d : N) : list InputEvent :=
  [ mkInputEvent MSC_SCAN (Zpos (KEY_hex d));
    mkInputEvent (EV_KEY (KEY_hex d)) 1;
    mkInputEvent SYN_REPORT 0;
    mkInputEvent MSC_SCAN (Zpos (KEY_hex d));
    mkInputEvent (EV_KEY (KEY_hex d)) 0;
    mkInputEvent SYN_REPORT 0 ].

(** The inner loop [for hex_digit in '%X' % ord(c)]. *)
Definition key_events_of_char (c : N) : list InputEvent :=
  fold_left (fun key_events d => key_events ++ hex_digit_events d)
            (hex_digits c) [].

(** [get_events_for_unicode_string]: the [return] sits inside the
    [for c in string] loop, so the loop body runs for the first
    character and the function returns there; on the empty string the
    loop body never runs and the function returns Python's [None]. *)
Definition get_events_for_unicode_string (s : list N) : option (list InputEvent) :=
  match s with
  | [] => None
  | c :: _ =>
      Some (get_compose_key_events_for_unicode_string 1
            ++ key_events_of_char c
            ++ get_compose_key_events_for_unicode_string 0)
  end.

(** What the specification describes: one complete sequence per
    character. *)
Definition spec_compose_sequence_of_char (c : N) : list InputEvent :=
  get_compose_key_events_for_unicode_string 1
  ++ flat_map hex_digit_events (hex_digits c)
  ++ get_compose_key_events_for_unicode_string 0.

Definition spec_compose_sequence_of_string (s : list N) : list InputEvent :=
  flat_map spec_compose_sequence_of_char s.

(** ** Effects, the outside world, exceptions *)

(** One entry per call that leaves the process. *)
Inductive effect : Type :=
| send_events (evs : list InputEvent)   (* udev.send_events(events) *)
| grab                                  (* d_t.grab() *)
| ungrab                                (* d_t.ungrab() *)
| i2ctransfer (level : string)          (* subprocess.call("i2ctransfer ... " + level + " 0xad") *)
| config_write (level : string)         (* config.set + config.write *)
| xinput_list_props.                    (* subprocess.check_output(['xinput', ...]) *)

(** What [xinput --list-props] gave: a "Device Enabled" line ending in
    1, such a line ending otherwise, no such line, or an exception. *)
Inductive xinput_outcome : Type :=
| XEnabled | XDisabled | XNoLine | XFailed.

(** The answers of the outside world while one event (or one monitor
    poll) is handled. *)
Record world : Type := mkWorld {
  time : Q;
  system_numlock : option bool;   (* get_system_numlock(): None without keyboard *)
  grab_raises : bool;
  ungrab_raises : bool;
  call_raises : bool;             (* subprocess.call raises OSError *)
  send_raises : bool;             (* udev.send_events raises OSError *)
  xinput : xinput_outcome
}.

(** Exceptions no handler of the script catches. *)
Inductive exn : Type :=
| IndexError | TypeError | ArithmeticError.

Inductive result (A : Type) : Type :=
| Ok (a : A)
| Raised (e : exn).
Arguments Ok {A} a.
Arguments Raised {A} e.

Definition bind {A B : Type} (r : result A) (k : A -> result B) : result B :=
  match r with
  | Ok a => k a
  | Raised e => Raised e
  end.

Notation "x <- r ;; k" := (bind r (fun x => k))
  (at level 61, r at next level, right associativity).

(** ** Configuration and state *)

Record config : Type := mkConfig {
  top_right_icon_is_on_top_left : bool;
  touchpad_physical_buttons_are_inside_numpad : bool;
  disable_due_inactivity_time : Q;
  touchpad_disables_numpad : bool;
  key_repetitions : bool;
  multitouch : bool;
  one_touch_key_rotation : bool;
  top_right_icon_width : Z;
  top_right_icon_height : Z;
  top_right_icon_activation_time : Q;
  sys_numlock_enables_numpad : bool;
  keys : list (list (option numpad_key));
  backlight_levels : list string;
  default_backlight_level : string;
  top_left_icon_width : Z;
  top_left_icon_height : Z;
  top_left_icon_activation_time : Q;
  top_left_icon_brightness_func_disabled : bool;   (* "is True" *)
  top_left_icon_slide_func_activate_numpad : bool;
  top_left_icon_slide_func_deactivate_numpad : bool;
  top_left_icon_slide_func_activation_x_ratio : Q;
  top_left_icon_slide_func_activation_y_ratio : Q;
  top_right_icon_slide_func_activation_x_ratio : Q;
  top_right_icon_slide_func_activation_y_ratio : Q;
  top_left_icon_slide_func_keys : list InputEvent;
  minx : Z; maxx : Z; miny : Z; maxy : Z;
  left_offset : Z; right_offset : Z; top_offset : Z; bottom_offset : Z
}.

Record state : Type := mkState {
  numlock : bool;
  abs_mt_slot_value : nat;
  abs_mt_slot : list Z;
  abs_mt_slot_numpad_key : list (option numpad_key);
  abs_mt_slot_x_values : list Z;
  abs_mt_slot_y_values : list Z;
  unsupported_abs_mt_slot : bool;
  top_right_icon_touch_start_time : Q;
  top_left_icon_touch_start_time : Q;
  last_event_time : Q;
  brightness : Z;
  getting_device_status_failure_count : Z;
  out : list effect
}.

(** The module-level initial values. *)
Definition initial_state : state :=
  mkState false 0 [-1; -1; -1; -1; -1] [None; None; None; None; None]
          [-1; -1; -1; -1; -1] [-1; -1; -1; -1; -1] false 0%Q 0%Q 0%Q 0 0 [].

Definition set_numlock (b : bool) (s : state) : state :=
  mkState b (abs_mt_slot_value s) (abs_mt_slot s) (abs_mt_slot_numpad_key s)
    (abs_mt_slot_x_values s) (abs_mt_slot_y_values s) (unsupported_abs_mt_slot s)
    (top_right_icon_touch_start_time s) (top_left_icon_touch_start_time s)
    (last_event_time s) (brightness s) (getting_device_status_failure_count s) (out s).

Definition set_abs_mt_slot_value (n : nat) (s : state) : state :=
  mkState (numlock s) n (abs_mt_slot s) (abs_mt_slot_numpad_key s)
    (abs_mt_slot_x_values s) (abs_mt_slot_y_values s) (unsupported_abs_mt_slot s)
    (top_right_icon_touch_start_time s) (top_left_icon_touch_start_time s)
    (last_event_time s) (brightness s) (getting_device_status_failure_count s) (out s).

Definition set_abs_mt_slot (l : list Z) (s : state) : state :=
  mkState (numlock s) (abs_mt_slot_value s) l (abs_mt_slot_numpad_key s)
    (abs_mt_slot_x_values s) (abs_mt_slot_y_values s) (unsupported_abs_mt_slot s)
    (top_right_icon_touch_start_time s) (top_left_icon_touch_start_time s)
    (last_event_time s) (brightness s) (getting_device_status_failure_count s) (out s).

Definition set_abs_mt_slot_numpad_key (l : list (option numpad_key)) (s : state) : state :=
  mkState (numlock s) (abs_mt_slot_value s) (abs_mt_slot s) l
    (abs_mt_slot_x_values s) (abs_mt_slot_y_values s) (unsupported_abs_mt_slot s)
    (top_right_icon_touch_start_time s) (top_left_icon_touch_start_time s)
    (last_event_time s) (brightness s) (getting_device_status_failure_count s) (out s).

Definition set_abs_mt_slot_x_values (l : list Z) (s : state) : state :=
  mkState (numlock s) (abs_mt_slot_value s) (abs_mt_slot s) (abs_mt_slot_numpad_key s)
    l (abs_mt_slot_y_values s) (unsupported_abs_mt_slot s)
    (top_right_icon_touch_start_time s) (top_left_icon_touch_start_time s)
    (last_event_time s) (brightness s) (getting_device_status_failure_count s) (out s).

Definition set_abs_mt_slot_y_values (l : list Z) (s : state) : state :=
  mkState (numlock s) (abs_mt_slot_value s) (abs_mt_slot s) (abs_mt_slot_numpad_key s)
    (abs_mt_slot_x_values s) l (unsupported_abs_mt_slot s)
    (top_right_icon_touch_start_time s) (top_left_icon_touch_start_time s)
    (last_event_time s) (brightness s) (getting_device_status_failure_count s) (out s).

Definition set_unsupported_abs_mt_slot (b : bool) (s : state) : state :=
  mkState (numlock s) (abs_mt_slot_value s) (abs_mt_slot s) (abs_mt_slot_numpad_key s)
    (abs_mt_slot_x_values s) (abs_mt_slot_y_values s) b
    (top_right_icon_touch_start_time s) (top_left_icon_touch_start_time s)
    (last_event_time s) (brightness s) (getting_device_status_failure_count s) (out s).

Definition set_top_right_icon_touch_start_time (t : Q) (s : state) : state :=
  mkState (numlock s) (abs_mt_slot_value s) (abs_mt_slot s) (abs_mt_slot_numpad_key s)
    (abs_mt_slot_x_values s) (abs_mt_slot_y_values s) (unsupported_abs_mt_slot s)
    t (top_left_icon_touch_start_time s)
    (last_event_time s) (brightness s) (getting_device_status_failure_count s) (out s).

Definition set_top_left_icon_touch_start_time (t : Q) (s : state) : state :=
  mkState (numlock s) (abs_mt_slot_value s) (abs_mt_slot s) (abs_mt_slot_numpad_key s)
    (abs_mt_slot_x_values s) (abs_mt_slot_y_values s) (unsupported_abs_mt_slot s)
    (top_right_icon_touch_start_time s) t
    (last_event_time s) (brightness s) (getting_device_status_failure_count s) (out s).

Definition set_last_event_time (t : Q) (s : state) : state :=
  mkState (numlock s) (abs_mt_slot_value s) (abs_mt_slot s) (abs_mt_slot_numpad_key s)
    (abs_mt_slot_x_values s) (abs_mt_slot_y_values s) (unsupported_abs_mt_slot s)
    (top_right_icon_touch_start_time s) (top_left_icon_touch_start_time s)
    t (brightness s) (getting_device_status_failure_count s) (out s).

Definition set_brightness (b : Z) (s : state) : state :=
  mkState (numlock s) (abs_mt_slot_value s) (abs_mt_slot s) (abs_mt_slot_numpad_key s)
    (abs_mt_slot_x_values s) (abs_mt_slot_y_values s) (unsupported_abs_mt_slot s)
    (top_right_icon_touch_start_time s) (top_left_icon_touch_start_time s)
    (last_event_time s) b (getting_device_status_failure_count s) (out s).

Definition set_getting_device_status_failure_count (n : Z) (s : state) : state :=
  mkState (numlock s) (abs_mt_slot_value s) (abs_mt_slot s) (abs_mt_slot_numpad_key s)
    (abs_mt_slot_x_values s) (abs_mt_slot_y_values s) (unsupported_abs_mt_slot s)
    (top_right_icon_touch_start_time s) (top_left_icon_touch_start_time s)
    (last_event_time s) (brightness s) n (out s).

(** Append one call to the log. *)
Definition emit (e : effect) (s : state) : state :=
  mkState (numlock s) (abs_mt_slot_value s) (abs_mt_slot s) (abs_mt_slot_numpad_key s)
    (abs_mt_slot_x_values s) (abs_mt_slot_y_values s) (unsupported_abs_mt_slot s)
    (top_right_icon_touch_start_time s) (top_left_icon_touch_start_time s)
    (last_event_time s) (brightness s) (getting_device_status_failure_count s)
    (out s ++ [e]).

Definition emit_all (es : list effect) (s : state) : state :=
  fold_left (fun s e => emit e s) es s.

(** [a[i] = v] on a fixed-size array; the cursor [abs_mt_slot_value]
    stays below the array size (see [wf]), out of range nothing is
    written. *)
Fixpoint list_set {A : Type} (i : nat) (v : A) (l : list A) : list A :=
  match l, i with
  | [], _ => []
  | _ :: t, O => v :: t
  | h :: t, S j => h :: list_set j v t
  end.

(** The slot arrays have their five cells and the cursor addresses one
    of them. *)
Definition wf (s : state) : Prop :=
  (abs_mt_slot_value s < 5)%nat /\
  length (abs_mt_slot s) = 5%nat /\
  length (abs_mt_slot_numpad_key s) = 5%nat /\
  length (abs_mt_slot_x_values s) = 5%nat /\
  length (abs_mt_slot_y_values s) = 5%nat.

(** The current slot's cells. *)
Definition cur_key (s : state) : option numpad_key :=
  nth (abs_mt_slot_value s) (abs_mt_slot_numpad_key s) None.
Definition cur_x (s : state) : Z := nth (abs_mt_slot_value s) (abs_mt_slot_x_values s) 0.
Definition cur_y (s : state) : Z := nth (abs_mt_slot_value s) (abs_mt_slot_y_values s) 0.

Definition set_cur_key (k : option numpad_key) (s : state) : state :=
  set_abs_mt_slot_numpad_key (list_set (abs_mt_slot_value s) k (abs_mt_slot_numpad_key s)) s.
Definition set_cur_x (v : Z) (s : state) : state :=
  set_abs_mt_slot_x_values (list_set (abs_mt_slot_value s) v (abs_mt_slot_x_values s)) s.
Definition set_cur_y (v : Z) (s : state) : state :=
  set_abs_mt_slot_y_values (list_set (abs_mt_slot_value s) v (abs_mt_slot_y_values s)) s.

(** [udev.send_events(events)] under [try ... except OSError]: a failed
    write emits nothing and is only logged by the script. *)
Definition udev_send (w : world) (evs : list InputEvent) (s : state) : state :=
  if send_raises w then s else emit (send_events evs) s.

(** Rational comparisons. *)
Definition Qltb (a b : Q) : bool := negb (Qle_bool b a).
Definition Qis0 (a : Q) : bool := Qeq_bool a 0.

(** Python's [l[i]] with negative indices counted from the end. *)
Definition py_index {A : Type} (l : list A) (i : Z) : option A :=
  if 0 <=? i then nth_error l (Z.to_nat i)
  else if 0 <=? Z.of_nat (length l) + i
       then nth_error l (Z.to_nat (Z.of_nat (length l) + i))
       else None.

(** [l.index(v)], or [None] on ValueError. *)
Fixpoint list_index (v : string) (l : list string) : option Z :=
  match l with
  | [] => None
  | h :: t =>
      if String.eqb h v then Some 0
      else match list_index v t with
           | Some i => Some (i + 1)
           | None => None
           end
  end.

(** ** Raw touchpad events *)

Inductive raw_code : Type :=
| BTN_LEFT | BTN_RIGHT | BTN_MIDDLE
| ABS_MT_SLOT | MSC_TIMESTAMP
| ABS_MT_POSITION_X | ABS_MT_POSITION_Y | ABS_MT_TRACKING_ID
| BTN_TOOL_FINGER | BTN_TOOL_DOUBLETAP | BTN_TOOL_TRIPLETAP
| BTN_TOOL_QUADTAP | BTN_TOOL_QUINTTAP
| OTHER_CODE.

Record raw_event : Type := mkRaw { ev_code : raw_code; ev_value : Z }.

Definition raw_code_eqb (a b : raw_code) : bool :=
  match a, b with
  | BTN_LEFT, BTN_LEFT | BTN_RIGHT, BTN_RIGHT | BTN_MIDDLE, BTN_MIDDLE
  | ABS_MT_SLOT, ABS_MT_SLOT | MSC_TIMESTAMP, MSC_TIMESTAMP
  | ABS_MT_POSITION_X, ABS_MT_POSITION_X | ABS_MT_POSITION_Y, ABS_MT_POSITION_Y
  | ABS_MT_TRACKING_ID, ABS_MT_TRACKING_ID
  | BTN_TOOL_FINGER, BTN_TOOL_FINGER | BTN_TOOL_DOUBLETAP, BTN_TOOL_DOUBLETAP
  | BTN_TOOL_TRIPLETAP, BTN_TOOL_TRIPLETAP | BTN_TOOL_QUADTAP, BTN_TOOL_QUADTAP
  | BTN_TOOL_QUINTTAP, BTN_TOOL_QUINTTAP | OTHER_CODE, OTHER_CODE => true
  | _, _ => false
  end.

(** [e.matches(code)] *)
Definition matches (e : raw_event) (c : raw_code) : bool := raw_code_eqb (ev_code e) c.

(** Control flow of one pass through the body of the event loop. *)
Inductive flow : Type :=
| Next (s : state)       (* fall through to the next statement *)
| Continue (s : state).  (* [continue] *)

Section Driver.

Variable cfg : config.

Definition minx_numpad : Z := minx cfg + left_offset cfg.
Definition maxx_numpad : Z := maxx cfg - right_offset cfg.
Definition miny_numpad : Z := miny cfg + top_offset cfg.
Definition maxy_numpad : Z := maxy cfg - bottom_offset cfg.

(** [len(max(keys, key=len))] and [len(keys)] *)
Definition col_count : nat := fold_right (fun r m => Nat.max (length r) m) 0%nat (keys cfg).
Definition row_count : nat := length (keys cfg).
Definition col_width : Q := inject_Z (maxx_numpad - minx_numpad) / inject_Z (Z.of_nat col_count).
Definition row_height : Q := inject_Z (maxy_numpad - miny_numpad) / inject_Z (Z.of_nat row_count).

Definition support_for_maximum_abs_mt_slots : Z := if multitouch cfg then 5 else 1.

(** *** Icon rectangles *)

Definition is_pressed_touchpad_top_right_icon (s : state) : bool :=
  if negb (top_right_icon_is_on_top_left cfg)
  then (maxx cfg - top_right_icon_width cfg <=? cur_x s) && (cur_y s <=? top_right_icon_height cfg)
  else (cur_x s <=? top_right_icon_width cfg) && (cur_y s <=? top_right_icon_height cfg).

Definition is_pressed_touchpad_top_left_icon (s : state) : bool :=
  if negb (0 <? top_left_icon_width cfg) || negb (0 <? top_left_icon_height cfg)
  then false
  else (cur_x s <=? top_left_icon_width cfg) && (cur_y s <=? top_left_icon_height cfg).

Definition set_none_to_current_mt_slot (s : state) : state :=
  set_cur_y 0 (set_cur_x 0 (set_cur_key None s)).

Definition pressed_touchpad_top_left_icon (w : world) (v : Z) (s : state) : state :=
  if v =? 1
  then set_cur_key (Some (KeyCode KEY_CALC)) (set_top_left_icon_touch_start_time (time w) s)
  else set_none_to_current_mt_slot s.

Definition pressed_touchpad_top_right_icon (w : world) (v : Z) (s : state) : state :=
  if v =? 1
  then set_cur_key (Some (KeyCode KEY_NUMLOCK)) (set_top_right_icon_touch_start_time (time w) s)
  else s.

(** *** Backlight and activation *)

(** [subprocess.call(...)] under a handler that swallows the failure. *)
Definition subprocess_call (w : world) (level : string) (s : state) : state :=
  if call_raises w then s else emit (i2ctransfer level) s.

Definition increase_brightness (w : world) (s : state) : result state :=
  let b := if Z.of_nat (length (backlight_levels cfg)) <=? brightness s + 1
           then 0 else brightness s + 1 in
  let s1 := set_brightness b s in
  match py_index (backlight_levels cfg) b with
  | None => Raised IndexError
  | Some level => Ok (subprocess_call w level (emit (config_write level) s1))
  end.

(** One [try] covers the grab, both bus commands and the brightness
    index: the first failure skips the rest. *)
Definition activate_numpad (w : world) (s : state) : state :=
  if grab_raises w then s else
  let s1 := emit grab s in
  if call_raises w then s1 else
  let s2 := emit (i2ctransfer "0x01") s1 in
  let s3 := if String.eqb (default_backlight_level cfg) "0x01" then s2
            else emit (i2ctransfer (default_backlight_level cfg)) s2 in
  match list_index (default_backlight_level cfg) (backlight_levels cfg) with
  | Some i => set_brightness i s3
  | None => set_brightness (-1) s3
  end.

Definition deactivate_numpad (w : world) (s : state) : state :=
  if ungrab_raises w then s else
  let s1 := emit ungrab s in
  if call_raises w then s1 else
  set_brightness 0 (emit (i2ctransfer "0x00") s1).

Definition send_numlock_key (w : world) (v : Z) (s : state) : state :=
  udev_send w [ mkInputEvent MSC_SCAN 70053;
                mkInputEvent (EV_KEY KEY_NUMLOCK) v;
                mkInputEvent SYN_REPORT 0 ] s.

(** Truthiness of [get_system_numlock()]. *)
Definition sys_numlock (w : world) : bool :=
  match system_numlock w with Some true => true | _ => false end.

Definition local_numlock_pressed (w : world) (s : state) : state :=
  let s' :=
    if negb (numlock s) then
      let s1 := set_numlock true s in
      let s2 := if negb (sys_numlock w)
                then send_numlock_key w 0 (send_numlock_key w 1 s1) else s1 in
      activate_numpad w s2
    else
      let s1 := set_numlock false s in
      let s2 := if sys_numlock w
                then send_numlock_key w 0 (send_numlock_key w 1 s1) else s1 in
      deactivate_numpad w s2 in
  set_none_to_current_mt_slot s'.

(** *** The monitors: one poll each *)

Definition check_system_numlock_vs_local (w : world) (s : state) : state :=
  if negb (sys_numlock w) && numlock s then
    deactivate_numpad w (set_numlock false s)
  else if sys_numlock w && sys_numlock_enables_numpad cfg && negb (numlock s) then
    activate_numpad w (set_numlock true s)
  else s.

(** The counter is zeroed first thing inside the [try]. *)
Definition is_device_enabled (w : world) (s : state) : bool * state :=
  let s0 := emit xinput_list_props (set_getting_device_status_failure_count 0 s) in
  match xinput w with
  | XEnabled => (true, s0)
  | XDisabled => (false, s0)
  | XNoLine =>
      (false, set_getting_device_status_failure_count
                (getting_device_status_failure_count s0 + 1) s0)
  | XFailed =>
      (true, set_getting_device_status_failure_count
               (getting_device_status_failure_count s0 + 1) s0)
  end.

Definition check_touchpad_status (w : world) (s : state) : state :=
  let (is_touchpad_enabled, s1) := is_device_enabled w s in
  if negb is_touchpad_enabled && touchpad_disables_numpad cfg && numlock s1
  then deactivate_numpad w (set_numlock false s1)
  else s1.

(** [while True and getting_device_status_failure_count < 9]: one
    world per poll; [true] when the loop has exited, [false] when it
    is still polling after the given polls. *)
Fixpoint check_touchpad_status_endless_cycle (polls : list world) (s : state)
  : bool * state :=
  match polls with
  | [] => (negb (getting_device_status_failure_count s <? 9), s)
  | w :: polls' =>
      if getting_device_status_failure_count s <? 9
      then check_touchpad_status_endless_cycle polls' (check_touchpad_status w s)
      else (true, s)
  end.

(** One pass of [check_numpad_automatical_disable_due_inactivity]. *)
Definition check_numpad_automatical_disable_due_inactivity
           (w : world) (s : state) : state :=
  if numlock s && negb (Qis0 (last_event_time s))
     && Qltb (disable_due_inactivity_time cfg + last_event_time s) (time w)
  then
    let s1 := if sys_numlock w
              then send_numlock_key w 0 (send_numlock_key w 1 s) else s in
    deactivate_numpad w (set_numlock false s1)
  else s.

(** *** Key emission *)

(** A string goes through the compose sequence; [None] or the empty
    string end in a TypeError nobody catches. *)
Definition pressed_numpad_key (w : world) (s : state) : result state :=
  match cur_key s with
  | Some (KeyCode c) =>
      Ok (udev_send w [ mkInputEvent (EV_KEY c) 1; mkInputEvent SYN_REPORT 0 ] s)
  | Some (Unicode unicode_string) =>
      match get_events_for_unicode_string unicode_string with
      | Some events => Ok (udev_send w events s)
      | None => Raised TypeError
      end
  | None => Raised TypeError
  end.

Definition unpressed_numpad_key (w : world) (replaced_by_key : option numpad_key)
           (s : state) : state :=
  let s1 := match cur_key s with
            | Some (KeyCode c) =>
                udev_send w [ mkInputEvent (EV_KEY c) 0; mkInputEvent SYN_REPORT 0 ] s
            | _ => s
            end in
  if truthy replaced_by_key
  then set_cur_key replaced_by_key s1
  else set_none_to_current_mt_slot s1.

Definition replaced_numpad_key (w : world) (touched_key_now : numpad_key)
           (s : state) : result state :=
  pressed_numpad_key w (unpressed_numpad_key w (Some touched_key_now) s).

(** *** Geometry *)

(** [math.floor(d / width)]; a zero width is an arithmetic error that
    the [except IndexError] of the callers does not catch. *)
Definition floor_div (d : Z) (width : Q) : result Z :=
  if Qis0 width then Raised ArithmeticError
  else Ok (Qfloor (inject_Z d / width)).

(** [keys[row][col]] for [row, col >= 0]; [None] stands for IndexError. *)
Definition keys_at (row col : Z) : option (option numpad_key) :=
  match nth_error (keys cfg) (Z.to_nat row) with
  | None => None
  | Some r => nth_error r (Z.to_nat col)
  end.

Definition get_touched_key (s : state) : result (option numpad_key) :=
  col <- floor_div (cur_x s - minx_numpad) col_width ;;
  row <- floor_div (cur_y s - miny_numpad) row_height ;;
  if (row <? 0) || (col <? 0) then Ok None
  else match keys_at row col with
       | Some cell => Ok cell
       | None => Ok None
       end.

Definition is_not_finger_moved_to_another_key (w : world) (s : state) : result state :=
  match cur_key s with
  | None => Ok s
  | Some touched_key_when_pressed =>
      if numpad_key_eqb touched_key_when_pressed (KeyCode KEY_CALC) then Ok s
      else if numpad_key_eqb touched_key_when_pressed (KeyCode KEY_NUMLOCK) then Ok s
      else if numlock s then
        touched_key_now <- get_touched_key s ;;
        if negb (option_key_eqb touched_key_now (Some touched_key_when_pressed)) then
          match touched_key_now with
          | Some k =>
              if one_touch_key_rotation cfg
              then replaced_numpad_key w k s
              else Ok (unpressed_numpad_key w None s)
          | None => Ok (unpressed_numpad_key w None s)
          end
        else Ok s
      else Ok s
  end.

(** *** Icon gestures *)

Definition is_slided_from_top_right_icon (v : Z) (s : state) : bool * state :=
  if negb (v =? 0) then (false, s)
  else if Qis0 (top_right_icon_touch_start_time s) then (false, s)
  else if option_key_eqb (cur_key s) (Some (KeyCode KEY_NUMLOCK))
          && Qltb (inject_Z (cur_x s))
                  (inject_Z (maxx cfg)
                   - top_right_icon_slide_func_activation_x_ratio cfg * inject_Z (maxx cfg))
          && Qltb (inject_Z (cur_y s))
                  (inject_Z (maxy cfg)
                   - top_right_icon_slide_func_activation_y_ratio cfg * inject_Z (maxy cfg))
  then (true, set_top_right_icon_touch_start_time 0 s)
  else (false, s).

Definition is_slided_from_top_left_icon (v : Z) (s : state) : bool * state :=
  if negb (v =? 0) then (false, s)
  else if Qis0 (top_left_icon_touch_start_time s) then (false, s)
  else if option_key_eqb (cur_key s) (Some (KeyCode KEY_CALC))
          && Qltb (top_left_icon_slide_func_activation_x_ratio cfg * inject_Z (maxx cfg))
                  (inject_Z (cur_x s))
          && Qltb (top_left_icon_slide_func_activation_y_ratio cfg * inject_Z (maxy cfg))
                  (inject_Z (cur_y s))
  then (true, set_none_to_current_mt_slot (set_top_left_icon_touch_start_time 0 s))
  else (false, set_none_to_current_mt_slot (set_top_left_icon_touch_start_time 0 s)).

Definition takes_top_left_icon_touch_longer_then_set_up_activation_time
           (w : world) (s : state) : bool * state :=
  if Qis0 (top_left_icon_touch_start_time s) then (false, s)
  else
    let press_duration := (time w - top_left_icon_touch_start_time s)%Q in
    if option_key_eqb (cur_key s) (Some (KeyCode KEY_CALC))
       && Qltb (top_left_icon_activation_time cfg) press_duration
    then (true, set_top_left_icon_touch_start_time (time w) s)
    else (false, s).

Definition takes_top_right_icon_touch_longer_then_set_up_activation_time
           (w : world) (s : state) : bool * state :=
  if Qis0 (top_right_icon_touch_start_time s) then (false, s)
  else
    let press_duration := (time w - top_right_icon_touch_start_time s)%Q in
    if option_key_eqb (cur_key s) (Some (KeyCode KEY_NUMLOCK))
       && Qltb (top_right_icon_activation_time cfg) press_duration
    then (true, set_top_right_icon_touch_start_time 0 s)
    else (false, s).

Definition use_slide_func_for_top_right_icon (w : world) (s : state) : state :=
  local_numlock_pressed w s.

(** The [try] covers the write and the toggle: a failed write skips
    the toggle. *)
Definition use_bindings_for_touchpad_left_icon_slide_function
           (w : world) (s : state) : state :=
  if send_raises w then s else
  let s1 := emit (send_events (top_left_icon_slide_func_keys cfg)) s in
  if top_left_icon_slide_func_activate_numpad cfg && negb (numlock s1)
  then local_numlock_pressed w s1
  else if top_left_icon_slide_func_deactivate_numpad cfg && numlock s1
  then local_numlock_pressed w s1
  else s1.

(** *** The event loop *)

Definition set_tracking_id (v : Z) (s : state) : state :=
  set_abs_mt_slot (list_set (abs_mt_slot_value s) v (abs_mt_slot s)) s.

(** The brightness half of the [MSC_TIMESTAMP] block. *)
Definition on_timestamp_top_left (w : world) (s : state) : result flow :=
  if numlock s && is_pressed_touchpad_top_left_icon s then
    let (longer, s1) := takes_top_left_icon_touch_longer_then_set_up_activation_time w s in
    if longer && (0 <? Z.of_nat (length (backlight_levels cfg)))
       && negb (top_left_icon_brightness_func_disabled cfg)
    then s2 <- increase_brightness w s1 ;; Ok (Continue s2)
    else Ok (Next s1)
  else Ok (Next s).

(** The [MSC_TIMESTAMP] block. *)
Definition on_timestamp (w : world) (s : state) : result flow :=
  if is_pressed_touchpad_top_right_icon s then
    let (longer, s1) := takes_top_right_icon_touch_longer_then_set_up_activation_time w s in
    if longer then
      let (is_touchpad_enabled, s2) := is_device_enabled w s1 in
      if (is_touchpad_enabled && touchpad_disables_numpad cfg)
         || negb (touchpad_disables_numpad cfg)
      then Ok (Continue (local_numlock_pressed w s2))
      else Ok (Continue s2)
    else on_timestamp_top_left w s1
  else on_timestamp_top_left w s.

(** The grid part of the [BTN_TOOL_*] block, from "Numpad is not
    activated" on. *)
Definition on_btn_tool_grid (w : world) (v : Z) (s : state) : result state :=
  if negb (numlock s) then Ok s
  else if (cur_x s <? minx_numpad) || (maxx_numpad <? cur_x s)
          || (cur_y s <? miny_numpad) || (maxy_numpad <? cur_y s)
  then Ok s
  else
    col <- floor_div (cur_x s - minx_numpad) col_width ;;
    row <- floor_div (cur_y s - miny_numpad) row_height ;;
    if (row <? 0) || (col <? 0) then Ok s
    else if option_key_eqb (cur_key s) None && (v =? 0) then Ok s
    else match keys_at row col with
         | None => Ok s                       (* IndexError, logged *)
         | Some None => Ok s                  (* key is None *)
         | Some (Some key) =>
             let s1 := set_cur_key (Some key) s in
             if v =? 1 then
               if key_repetitions cfg then pressed_numpad_key w s1
               else s2 <- pressed_numpad_key w s1 ;; Ok (unpressed_numpad_key w None s2)
             else Ok (unpressed_numpad_key w None s1)
         end.

(** The [BTN_TOOL_*] block. *)
Definition on_btn_tool (w : world) (v : Z) (s : state) : result state :=
  if is_pressed_touchpad_top_right_icon s then Ok (pressed_touchpad_top_right_icon w v s)
  else if is_pressed_touchpad_top_left_icon s then Ok (pressed_touchpad_top_left_icon w v s)
  else
    let (slided_left, s1) := is_slided_from_top_left_icon v s in
    if slided_left then Ok (use_bindings_for_touchpad_left_icon_slide_function w s1)
    else
      let (slided_right, s2) := is_slided_from_top_right_icon v s1 in
      if slided_right then Ok (use_slide_func_for_top_right_icon w s2)
      else on_btn_tool_grid w v s2.

Definition is_btn_tool (e : raw_event) : bool :=
  matches e BTN_TOOL_FINGER || matches e BTN_TOOL_DOUBLETAP
  || matches e BTN_TOOL_TRIPLETAP || matches e BTN_TOOL_QUADTAP
  || matches e BTN_TOOL_QUINTTAP.

(** The body of [for e in d_t.events()] for one event. *)
Definition listen_touchpad_events (w : world) (e : raw_event) (s : state) : result state :=
  let s := set_last_event_time (time w) s in
  if numlock s && touchpad_physical_buttons_are_inside_numpad cfg
     && (matches e BTN_LEFT || matches e BTN_RIGHT || matches e BTN_MIDDLE)
  then Ok s
  else
    let s := if matches e ABS_MT_SLOT then
               if ev_value e <? support_for_maximum_abs_mt_slots
               then set_unsupported_abs_mt_slot false
                      (set_abs_mt_slot_value (Z.to_nat (ev_value e)) s)
               else set_unsupported_abs_mt_slot true s
             else s in
    if unsupported_abs_mt_slot s then Ok s
    else
      f <- (if matches e MSC_TIMESTAMP then on_timestamp w s else Ok (Next s)) ;;
      match f with
      | Continue s => Ok s
      | Next s =>
          s <- (if matches e ABS_MT_POSITION_X
                then is_not_finger_moved_to_another_key w (set_cur_x (ev_value e) s)
                else Ok s) ;;
          s <- (if matches e ABS_MT_POSITION_Y
                then is_not_finger_moved_to_another_key w (set_cur_y (ev_value e) s)
                else Ok s) ;;
          let s := if matches e ABS_MT_TRACKING_ID then set_tracking_id (ev_value e) s else s in
          if is_btn_tool e then on_btn_tool w (ev_value e) s else Ok s
      end.

(** The loop over a stream of events, each with the answers of the
    world while it is handled. *)
Fixpoint run (evs : list (world * raw_event)) (s : state) : result state :=
  match evs with
  | [] => Ok s
  | (w, e) :: evs' => s' <- listen_touchpad_events w e s ;; run evs' s'
  end.

End Driver.

(** ** A sample layout

    Touchpad 0..300 by 0..400; the top 100 units are margin and hold
    the two 50 by 50 icons; below, a 3 by 3 grid of keypad keys
    (KEY_KP7 = 71 ... KEY_KP3 = 81) in cells of 100 by 100. *)

Definition sample_keys : list (list (option numpad_key)) :=
  [ [Some (KeyCode 71); Some (KeyCode 72); Some (KeyCode 73)];
    [Some (KeyCode 75); Some (KeyCode 76); Some (KeyCode 77)];
    [Some (KeyCode 79); Some (KeyCode 80); Some (KeyCode 81)] ].

Definition sample_layout (repetitions rotation : bool) : config :=
  {| top_right_icon_is_on_top_left := false;
     touchpad_physical_buttons_are_inside_numpad := true;
     disable_due_inactivity_time := 60;
     touchpad_disables_numpad := true;
     key_repetitions := repetitions;
     multitouch := false;
     one_touch_key_rotation := rotation;
     top_right_icon_width := 50;
     top_right_icon_height := 50;
     top_right_icon_activation_time := 1;
     sys_numlock_enables_numpad := true;
     keys := sample_keys;
     backlight_levels := ["0x01"; "0x02"]%string;
     default_backlight_level := "0x01";
     top_left_icon_width := 50;
     top_left_icon_height := 50;
     top_left_icon_activation_time := 1;
     top_left_icon_brightness_func_disabled := false;
     top_left_icon_slide_func_activate_numpad := true;
     top_left_icon_slide_func_deactivate_numpad := true;
     top_left_icon_slide_func_activation_x_ratio := 5 # 100;
     top_left_icon_slide_func_activation_y_ratio := 5 # 100;
     top_right_icon_slide_func_activation_x_ratio := 5 # 100;
     top_right_icon_slide_func_activation_y_ratio := 5 # 100;
     top_left_icon_slide_func_keys :=
       [ mkInputEvent (EV_KEY KEY_CALC) 1; mkInputEvent SYN_REPORT 0;
         mkInputEvent (EV_KEY KEY_CALC) 0; mkInputEvent SYN_REPORT 0 ];
     minx := 0; maxx := 300; miny := 0; maxy := 400;
     left_offset := 0; right_offset := 0; top_offset := 100; bottom_offset := 0 |}.

(** A world at clock [t] in which nothing fails, the host numlock LED
    is [led] and xinput reports the touchpad enabled. *)
Definition calm (t : Q) (led : bool) : world :=
  mkWorld t (Some led) false false false false XEnabled.

Definition ev (c : raw_code) (v : Z) : raw_event := mkRaw c v.

(** A world whose xinput query raises. *)
Definition xinput_down (t : Q) : world :=
  mkWorld t (Some true) false false false false XFailed.

(** ** Auxiliary notions *)

(** Same cursor and same array sizes. *)
Definition same_shape (s s' : state) : Prop :=
  abs_mt_slot_value s' = abs_mt_slot_value s /\
  length (abs_mt_slot s') = length (abs_mt_slot s) /\
  length (abs_mt_slot_numpad_key s') = length (abs_mt_slot_numpad_key s) /\
  length (abs_mt_slot_x_values s') = length (abs_mt_slot_x_values s) /\
  length (abs_mt_slot_y_values s') = length (abs_mt_slot_y_values s).

(** The toggle before its final [set_none_to_current_mt_slot()]. *)
Definition toggled (cfg : config) (w : world) (s : state) : state :=
  if negb (numlock s) then
    activate_numpad cfg w
      (if negb (sys_numlock w)
       then send_numlock_key w 0 (send_numlock_key w 1 (set_numlock true s))
       else set_numlock true s)
  else
    deactivate_numpad w
      (if sys_numlock w
       then send_numlock_key w 0 (send_numlock_key w 1 (set_numlock false s))
       else set_numlock false s).

(** ** Reading the log *)

(** The synthetic events written to the virtual device, in order. *)
Definition emitted (l : list effect) : list InputEvent :=
  flat_map (fun e => match e with send_events evs => evs | _ => [] end) l.

(** How many times the bus command with the given level was issued. *)
Definition count_i2ctransfer (level : string) (l : list effect) : nat :=
  length (filter (fun e => match e with
                           | i2ctransfer lv => String.eqb lv level
                           | _ => false
                           end) l).

(** How many times the persisted brightness was written. *)
Definition count_config_write (l : list effect) : nat :=
  length (filter (fun e => match e with config_write _ => true | _ => false end) l).

Definition is_key_event (k : positive) (v : Z) (e : InputEvent) : bool :=
  match code e with
  | EV_KEY c => Pos.eqb c k && (value e =? v)
  | _ => false
  end.

(** Key-down and key-up events of key [k] among synthetic events. *)
Definition count_down (k : positive) (evs : list InputEvent) : nat :=
  length (filter (is_key_event k 1) evs).
Definition count_up (k : positive) (evs : list InputEvent) : nat :=
  length (filter (is_key_event k 0) evs).

(** ** A run that ends with a key held

    In the sample layout with key repetition: the finger holds the
    numlock icon until the numpad is switched on, lifts, then comes
    down on the middle cell of the grid (KEY_KP5 = 76) and stays. *)
Definition switch_on_then_hold_key : list (world * raw_event) :=
  [ (calm 10 false, ev ABS_MT_POSITION_X 280);
    (calm 10 false, ev ABS_MT_POSITION_Y 20);
    (calm 10 false, ev BTN_TOOL_FINGER 1);
    (calm 12 false, ev MSC_TIMESTAMP 0);
    (calm 13 true, ev BTN_TOOL_FINGER 0);
    (calm 14 true, ev ABS_MT_POSITION_X 150);
    (calm 14 true, ev ABS_MT_POSITION_Y 250);
    (calm 14 true, ev BTN_TOOL_FINGER 1) ].

Definition state_of (r : result state) : state :=
  match r with Ok s => s | Raised _ => initial_state end.

Definition holding_a_key : state :=
  state_of (run (sample_layout true false) switch_on_then_hold_key initial_state).

(** The numpad on, KEY_KP7 assigned to slot 0 (under the cursor) and
    KEY_KP5 to slot 1. *)
Definition two_keys_assigned : state :=
  set_abs_mt_slot_numpad_key
    [Some (KeyCode 71); Some (KeyCode 76); None; None; None]
    (set_numlock true initial_state).

(** The brightness index unset, as [activate_numpad] leaves it when the
    default level is not one of the configured levels. *)
Definition brightness_unset : state := set_brightness (-1) initial_state.

(** ** The geometry mapping as the specification words it *)

(** The usable rectangle has a positive span on both axes and the grid
    has a row and a column (the start-up check on [keys]). *)
Definition valid_layout (cfg : config) : Prop :=
  minx_numpad cfg < maxx_numpad cfg /\
  miny_numpad cfg < maxy_numpad cfg /\
  (0 < row_count cfg)%nat /\ (0 < col_count cfg)%nat.

Definition inside_usable_rectangle (cfg : config) (x y : Z) : bool :=
  (minx_numpad cfg <=? x) && (x <=? maxx_numpad cfg)
  && (miny_numpad cfg <=? y) && (y <=? maxy_numpad cfg).

(** row = floor((y - min_y) / row_height), col = floor((x - min_x) / col_width) *)
Definition cell_row (cfg : config) (y : Z) : Z :=
  Qfloor (inject_Z (y - miny_numpad cfg) / row_height cfg).
Definition cell_col (cfg : config) (x : Z) : Z :=
  Qfloor (inject_Z (x - minx_numpad cfg) / col_width cfg).

(** The configured key of a cell; [None] for an empty cell, for a cell
    beyond the end of its ragged row and for a row beyond the grid. *)
Definition configured_key (cfg : config) (row col : Z) : option numpad_key :=
  match nth_error (keys cfg) (Z.to_nat row) with
  | Some r => match nth_error r (Z.to_nat col) with
              | Some (Some k) => Some k
              | _ => None
              end
  | None => None
  end.

Definition spec_map (cfg : config) (x y : Z) : option numpad_key :=
  if inside_usable_rectangle cfg x y
  then configured_key cfg (cell_row cfg y) (cell_col cfg x)
  else None.

(** A state whose current slot is at the given position. *)
Definition at_position (x y : Z) (s : state) : state := set_cur_y y (set_cur_x x s).

(** ** Which keys are down

    Replaying synthetic events over the list of keys that are down. *)
Definition replay_event (e : InputEvent) (held : list positive) : list positive :=
  match code e with
  | EV_KEY c =>
      if value e =? 1 then c :: held
      else if value e =? 0 then filter (fun k => negb (Pos.eqb k c)) held
      else held
  | _ => held
  end.

Definition both_down (a b : positive) (held : list positive) : bool :=
  existsb (Pos.eqb a) held && existsb (Pos.eqb b) held.

(** Neither before nor after any of the events are [a] and [b] both down. *)
Fixpoint never_both_down (a b : positive) (held : list positive)
         (evs : list InputEvent) : bool :=
  negb (both_down a b held)
  && match evs with
     | [] => true
     | e :: evs' => never_both_down a b (replay_event e held) evs'
     end.

(** The finger holds the numlock icon of the sample layout since
    clock 10. *)
Definition holding_numlock_icon : state :=
  state_of (run (sample_layout false false)
              [ (calm 10 false, ev ABS_MT_POSITION_X 280);
                (calm 10 false, ev ABS_MT_POSITION_Y 20);
                (calm 10 false, ev BTN_TOOL_FINGER 1) ] initial_state).

(** A world in which xinput reports the touchpad disabled. *)
Definition touchpad_off (t : Q) : world :=
  mkWorld t (Some false) false false false false XDisabled.

(** ** A contact that started inside an icon *)

(** Nothing assigned, or one of the two icon pseudo-keys. *)
Definition pseudo_or_none (k : option numpad_key) : Prop :=
  k = None \/ k = Some (KeyCode KEY_NUMLOCK) \/ k = Some (KeyCode KEY_CALC).

(** An effect that is not a grid key event: any call other than a write
    to the virtual device, or the write of the host numlock key made by
    [send_numlock_key]. *)
Definition only_host_numlock (e : effect) : Prop :=
  match e with
  | send_events evs =>
      exists v, evs = [ mkInputEvent MSC_SCAN 70053;
                        mkInputEvent (EV_KEY KEY_NUMLOCK) v;
                        mkInputEvent SYN_REPORT 0 ]
  | _ => True
  end.

(** Contact transitions and slot selection. *)
Definition contact_or_slot_event (e : raw_event) : bool :=
  is_btn_tool e || matches e ABS_MT_SLOT.

(** A step that keeps the shape of the state, the slot cursor usable,
    the brightness index at least -1, the current slot free of grid
    keys, and writes only host numlock keys. *)
Definition quiet (s s' : state) : Prop :=
  same_shape s s' /\
  unsupported_abs_mt_slot s' = unsupported_abs_mt_slot s /\
  (-1 <= brightness s -> -1 <= brightness s') /\
  (wf s -> pseudo_or_none (cur_key s) -> pseudo_or_none (cur_key s')) /\
  exists new, out s' = out s ++ new /\ Forall only_host_numlock new.

(** The state a pass through the loop body ends with. *)
Definition flow_state (f : flow) : state :=
  match f with Next s => s | Continue s => s end.

(** ** Taps on the grid *)

(** A tap: the position is reported, the finger comes down and lifts. *)
Record tap : Type := mkTap { tap_x : Z; tap_y : Z; tap_world : world }.

Definition tap_events (t : tap) : list (world * raw_event) :=
  [ (tap_world t, ev ABS_MT_POSITION_X (tap_x t));
    (tap_world t, ev ABS_MT_POSITION_Y (tap_y t));
    (tap_world t, ev BTN_TOOL_FINGER 1);
    (tap_world t, ev BTN_TOOL_FINGER 0) ].

(** The tap lands inside the usable rectangle, outside both icons, on a
    cell that holds the key code [k], and the virtual device accepts
    the writes. *)
Definition tap_on_key (cfg : config) (t : tap) (k : positive) : Prop :=
  send_raises (tap_world t) = false /\
  is_pressed_touchpad_top_right_icon cfg
    (at_position (tap_x t) (tap_y t) initial_state) = false /\
  is_pressed_touchpad_top_left_icon cfg
    (at_position (tap_x t) (tap_y t) initial_state) = false /\
  inside_usable_rectangle cfg (tap_x t) (tap_y t) = true /\
  get_touched_key cfg (at_position (tap_x t) (tap_y t) initial_state)
  = Ok (Some (KeyCode k)).

(** The numpad is active, the current slot is supported and has no key
    assigned, and no icon gesture is pending. *)
Definition idle (s : state) : Prop :=
  wf s /\ unsupported_abs_mt_slot s = false /\ numlock s = true /\
  cur_key s = None /\
  Qis0 (top_left_icon_touch_start_time s) = true /\
  Qis0 (top_right_icon_touch_start_time s) = true.

(** The same with key [k] assigned to the current slot. *)
Definition holding (k : positive) (s : state) : Prop :=
  wf s /\ unsupported_abs_mt_slot s = false /\ numlock s = true /\
  cur_key s = Some (KeyCode k) /\
  Qis0 (top_left_icon_touch_start_time s) = true /\
  Qis0 (top_right_icon_touch_start_time s) = true.

Definition key_down (k : positive) : effect :=
  send_events [mkInputEvent (EV_KEY k) 1; mkInputEvent SYN_REPORT 0].
Definition key_up (k : positive) : effect :=
  send_events [mkInputEvent (EV_KEY k) 0; mkInputEvent SYN_REPORT 0].

(** The numpad of the sample layout just switched on through the
    numlock icon, the finger lifted. *)
Definition numpad_switched_on : state :=
  state_of (run (sample_layout false false)
              [ (calm 10 false, ev ABS_MT_POSITION_X 280);
                (calm 10 false, ev ABS_MT_POSITION_Y 20);
                (calm 10 false, ev BTN_TOOL_FINGER 1);
                (calm 12 false, ev MSC_TIMESTAMP 0);
                (calm 13 true, ev BTN_TOOL_FINGER 0) ] initial_state).

(** [switch_on_then_hold_key] up to, and without, its last event, the
    contact-down on KEY_KP5. *)
Definition about_to_touch_a_key : state :=
  state_of (run (sample_layout true false)
              (removelast switch_on_then_hold_key) initial_state).

(** Two taps: the middle cell (KEY_KP5 = 76), the first cell
    (KEY_KP7 = 71). *)
Definition two_taps : list tap :=
  [ mkTap 150 250 (calm 14 true); mkTap 10 110 (calm 15 true) ].

(** A tap on the brightness icon, then a tap on the middle cell. *)
Definition brightness_tap_then_key_tap : list (world * raw_event) :=
  [ (calm 20 true, ev ABS_MT_POSITION_X 20);
    (calm 20 true, ev ABS_MT_POSITION_Y 20);
    (calm 20 true, ev BTN_TOOL_FINGER 1);
    (calm 20 true, ev BTN_TOOL_FINGER 0);
    (calm 21 true, ev ABS_MT_POSITION_X 150);
    (calm 21 true, ev ABS_MT_POSITION_Y 250);
    (calm 21 true, ev BTN_TOOL_FINGER 1);
    (calm 22 true, ev BTN_TOOL_FINGER 0) ].

(** The finger comes down on the numlock icon, slides straight down
    onto the right column of the grid and lifts there. *)
Definition numlock_icon_then_lift_on_grid : list (world * raw_event) :=
  [ (calm 20 true, ev ABS_MT_POSITION_X 290);
    (calm 20 true, ev ABS_MT_POSITION_Y 20);
    (calm 20 true, ev BTN_TOOL_FINGER 1);
    (calm 20 true, ev ABS_MT_POSITION_Y 150);
    (calm 20 true, ev BTN_TOOL_FINGER 0) ].

(** ** Reading a compose sequence back *)

(** The inverse of [KEY_hex] on the sixteen hex keys. *)
Definition hex_of_key (c : positive) : option N :=
  match c with
  | 11%positive => Some 0%N | 2%positive => Some 1%N | 3%positive => Some 2%N
  | 4%positive => Some 3%N | 5%positive => Some 4%N | 6%positive => Some 5%N
  | 7%positive => Some 6%N | 8%positive => Some 7%N | 9%positive => Some 8%N
  | 10%positive => Some 9%N
  | 30%positive => Some 10%N | 48%positive => Some 11%N | 46%positive => Some 12%N
  | 32%positive => Some 13%N | 18%positive => Some 14%N | 33%positive => Some 15%N
  | _ => None
  end.

(** The hex digits a receiver sees typed: the presses of hex keys, in
    order. *)
Definition typed_hex_digits (evs : list InputEvent) : list N :=
  flat_map (fun e => match code e with
                     | EV_KEY c =>
                         if value e =? 1
                         then match hex_of_key c with Some d => [d] | None => [] end
                         else []
                     | _ => []
                     end) evs.

(** ** More sample worlds and states *)

(** The two writes of [send_numlock_key(1)] and [send_numlock_key(0)]. *)
Definition numlock_key_press_release : list InputEvent :=
  [ mkInputEvent MSC_SCAN 70053; mkInputEvent (EV_KEY KEY_NUMLOCK) 1;
    mkInputEvent SYN_REPORT 0;
    mkInputEvent MSC_SCAN 70053; mkInputEvent (EV_KEY KEY_NUMLOCK) 0;
    mkInputEvent SYN_REPORT 0 ].

(** A world in which the grab and the ungrab of the touchpad raise. *)
Definition grab_refused (t : Q) (led : bool) : world :=
  mkWorld t (Some led) true true false false XEnabled.

(** A world in which xinput lists no "Device Enabled" line. *)
Definition xinput_no_line (t : Q) : world :=
  mkWorld t (Some true) false false false false XNoLine.

(** The sample layout with a default backlight level that is not one
    of the configured levels. *)
Definition sample_layout_default_level (level : string) : config :=
  {| top_right_icon_is_on_top_left := false;
     touchpad_physical_buttons_are_inside_numpad := true;
     disable_due_inactivity_time := 60;
     touchpad_disables_numpad := true;
     key_repetitions := false;
     multitouch := false;
     one_touch_key_rotation := false;
     top_right_icon_width := 50;
     top_right_icon_height := 50;
     top_right_icon_activation_time := 1;
     sys_numlock_enables_numpad := true;
     keys := sample_keys;
     backlight_levels := ["0x41"; "0x42"]%string;
     default_backlight_level := level;
     top_left_icon_width := 50;
     top_left_icon_height := 50;
     top_left_icon_activation_time := 1;
     top_left_icon_brightness_func_disabled := false;
     top_left_icon_slide_func_activate_numpad := true;
     top_left_icon_slide_func_deactivate_numpad := true;
     top_left_icon_slide_func_activation_x_ratio := 5 # 100;
     top_left_icon_slide_func_activation_y_ratio := 5 # 100;
     top_right_icon_slide_func_activation_x_ratio := 5 # 100;
     top_right_icon_slide_func_activation_y_ratio := 5 # 100;
     top_left_icon_slide_func_keys :=
       [ mkInputEvent (EV_KEY KEY_CALC) 1; mkInputEvent SYN_REPORT 0;
         mkInputEvent (EV_KEY KEY_CALC) 0; mkInputEvent SYN_REPORT 0 ];
     minx := 0; maxx := 300; miny := 0; maxy := 400;
     left_offset := 0; right_offset := 0; top_offset := 100; bottom_offset := 0 |}.

(** The numpad on, the last event seen at clock 100. *)
Definition active_since_100 : state :=
  set_last_event_time 100 (set_numlock true initial_state).

(** ** A state the loop can go on from *)

(** Not the empty literal. *)
Definition key_ok (k : option numpad_key) : Prop := k <> Some (Unicode []).

(** No cell of the grid holds the empty literal. *)
Definition grid_ok (cfg : config) : Prop :=
  forall r, In r (keys cfg) -> Forall key_ok r.

(** The slot arrays are well-formed, the brightness index is -1 or an
    index of the level list (0 when the list is empty), and no slot has
    the empty literal assigned. *)
Definition sane (cfg : config) (s : state) : Prop :=
  wf s /\
  -1 <= brightness s < Z.max 1 (Z.of_nat (length (backlight_levels cfg))) /\
  Forall key_ok (abs_mt_slot_numpad_key s).

(** ** Writes bound to the icons *)

(** An effect that is no grid key event: a call other than a write to
    the virtual device, the host numlock key of the toggle, or the keys
    bound to the slide from the brightness icon. *)
Definition icon_write (cfg : config) (e : effect) : Prop :=
  match e with
  | send_events evs =>
      evs = top_left_icon_slide_func_keys cfg
      \/ exists v, evs = [ mkInputEvent MSC_SCAN 70053;
                           mkInputEvent (EV_KEY KEY_NUMLOCK) v;
                           mkInputEvent SYN_REPORT 0 ]
  | _ => True
  end.

(** The log grows by icon writes only. *)
Definition writes_icons_only (cfg : config) (s s' : state) : Prop :=
  exists new, out s' = out s ++ new /\ Forall (icon_write cfg) new.

(** The finger has come down on the numlock icon of the sample layout
    at clock 20, with the numpad on, and has slid to (150, 250). *)
Definition slid_from_numlock_icon : state :=
  state_of (run (sample_layout false false)
              [ (calm 20 true, ev ABS_MT_POSITION_X 290);
                (calm 20 true, ev ABS_MT_POSITION_Y 20);
                (calm 20 true, ev BTN_TOOL_FINGER 1);
                (calm 20 true, ev ABS_MT_POSITION_X 150);
                (calm 20 true, ev ABS_MT_POSITION_Y 250) ] numpad_switched_on).

(** The same from the brightness icon. *)
Definition slid_from_brightness_icon : state :=
  state_of (run (sample_layout false false)
              [ (calm 20 true, ev ABS_MT_POSITION_X 20);
                (calm 20 true, ev ABS_MT_POSITION_Y 20);
                (calm 20 true, ev BTN_TOOL_FINGER 1);
                (calm 20 true, ev ABS_MT_POSITION_X 150);
                (calm 20 true, ev ABS_MT_POSITION_Y 250) ] numpad_switched_on).

(** The finger rests on the brightness icon since clock 20, the numpad
    on. *)
Definition holding_brightness_icon : state :=
  state_of (run (sample_layout false false)
              [ (calm 20 true, ev ABS_MT_POSITION_X 20);
                (calm 20 true, ev ABS_MT_POSITION_Y 20);
                (calm 20 true, ev BTN_TOOL_FINGER 1) ] numpad_switched_on).

(** The tap lands inside the usable rectangle, outside both icons, on a
    cell that holds the literal whose first character is [c]. *)
Definition tap_on_literal (cfg : config) (t : tap) (c : N) (rest : list N) : Prop :=
  send_raises (tap_world t) = false /\
  is_pressed_touchpad_top_right_icon cfg
    (at_position (tap_x t) (tap_y t) initial_state) = false /\
  is_pressed_touchpad_top_left_icon cfg
    (at_position (tap_x t) (tap_y t) initial_state) = false /\
  inside_usable_rectangle cfg (tap_x t) (tap_y t) = true /\
  get_touched_key cfg (at_position (tap_x t) (tap_y t) initial_state)
  = Ok (Some (Unicode (c :: rest))).

(** The sample layout with the percent sign in its middle cell. *)
Definition percent_layout (repetitions : bool) : config :=
  {| top_right_icon_is_on_top_left := false;
     touchpad_physical_buttons_are_inside_numpad := true;
     disable_due_inactivity_time := 60;
     touchpad_disables_numpad := true;
     key_repetitions := repetitions;
     multitouch := false;
     one_touch_key_rotation := false;
     top_right_icon_width := 50;
     top_right_icon_height := 50;
     top_right_icon_activation_time := 1;
     sys_numlock_enables_numpad := true;
     keys := [ [Some (KeyCode 71); Some (KeyCode 72); Some (KeyCode 73)];
               [Some (KeyCode 75); Some (Unicode [37%N]); Some (KeyCode 77)];
               [Some (KeyCode 79); Some (KeyCode 80); Some (KeyCode 81)] ];
     backlight_levels := ["0x01"; "0x02"]%string;
     default_backlight_level := "0x01";
     top_left_icon_width := 50;
     top_left_icon_height := 50;
     top_left_icon_activation_time := 1;
     top_left_icon_brightness_func_disabled := false;
     top_left_icon_slide_func_activate_numpad := true;
     top_left_icon_slide_func_deactivate_numpad := true;
     top_left_icon_slide_func_activation_x_ratio := 5 # 100;
     top_left_icon_slide_func_activation_y_ratio := 5 # 100;
     top_right_icon_slide_func_activation_x_ratio := 5 # 100;
     top_right_icon_slide_func_activation_y_ratio := 5 # 100;
     top_left_icon_slide_func_keys :=
       [ mkInputEvent (EV_KEY KEY_CALC) 1; mkInputEvent SYN_REPORT 0;
         mkInputEvent (EV_KEY KEY_CALC) 0; mkInputEvent SYN_REPORT 0 ];
     minx := 0; maxx := 300; miny := 0; maxy := 400;
     left_offset := 0; right_offset := 0; top_offset := 100; bottom_offset := 0 |}.

(** A timestamp event whose clock is within the numlock icon's
    activation time of the start [t0] of the hold. *)
Definition within_activation_time (cfg : config) (t0 : Q)
           (we : world * raw_event) : Prop :=
  matches (snd we) MSC_TIMESTAMP = true
  /\ Qltb (top_right_icon_activation_time cfg) (time (fst we) - t0) = false.

(** Slot selections carry a non-negative slot number, as the kernel
    reports them. *)
Definition non_negative_slot (e : raw_event) : Prop :=
  matches e ABS_MT_SLOT = true -> 0 <= ev_value e.

Definition non_negative_slots (evs : list (world * raw_event)) : Prop :=
  Forall (fun we => non_negative_slot (snd we)) evs.


(** * Properties *)

(** ** Arrays *)

Lemma list_set_length {A : Type} (i : nat) (v : A) (l : list A) :
  length (list_set i v l) = length l.
Proof.
  revert i; induction l as [|h t IH]; intros [|j]; simpl; auto.
Qed.

Lemma nth_list_set_same {A : Type} (i : nat) (v d : A) (l : list A) :
  (i < length l)%nat -> nth i (list_set i v l) d = v.
Proof.
  revert i; induction l as [|h t IH]; intros [|j] H; simpl in *; try lia; auto.
  apply IH; lia.
Qed.

Lemma nth_list_set_other {A : Type} (i j : nat) (v d : A) (l : list A) :
  i <> j -> nth j (list_set i v l) d = nth j l d.
Proof.
  revert i j; induction l as [|h t IH]; intros [|i] [|j] H; simpl; auto; try congruence.
Qed.

(** ** The compose sequence *)

Lemma fold_left_app_flat_map {A B : Type} (f : A -> list B) (l : list A) (acc : list B) :
  fold_left (fun a x => a ++ f x) l acc = acc ++ flat_map f l.
Proof.
  revert acc; induction l as [|x l IH]; intros acc; simpl.
  - now rewrite app_nil_r.
  - rewrite IH. now rewrite <- app_assoc.
Qed.

Lemma key_events_of_char_flat_map (c : N) :
  key_events_of_char c = flat_map hex_digit_events (hex_digits c).
Proof.
  unfold key_events_of_char. now rewrite fold_left_app_flat_map.
Qed.

(** Whatever follows the first character is ignored. *)
Lemma get_events_for_unicode_string_head (c : N) (rest : list N) :
  get_events_for_unicode_string (c :: rest) = Some (spec_compose_sequence_of_char c).
Proof.
  unfold get_events_for_unicode_string, spec_compose_sequence_of_char.
  now rewrite key_events_of_char_flat_map.
Qed.

(** On a one-character string the function emits the whole string. *)
Lemma get_events_for_unicode_string_single (c : N) :
  get_events_for_unicode_string [c] = Some (spec_compose_sequence_of_string [c]).
Proof.
  rewrite get_events_for_unicode_string_head.
  unfold spec_compose_sequence_of_string. simpl. now rewrite app_nil_r.
Qed.

(** The fuel of [hex_digits] is enough: the digits write the number
    back, and each is below sixteen. *)
Lemma hex_digits_aux_acc (fuel : nat) (n : N) (acc : list N) :
  hex_digits_aux fuel n acc = hex_digits_aux fuel n [] ++ acc.
Proof.
  revert n acc; induction fuel as [|f IH]; intros n acc; simpl; [reflexivity|].
  destruct (n <? 16)%N; [reflexivity|].
  rewrite (IH _ (_ :: acc)), (IH _ [_]). now rewrite <- app_assoc.
Qed.

Lemma hex_value_snoc (l : list N) (d : N) :
  hex_value (l ++ [d]) = (16 * hex_value l + d)%N.
Proof. unfold hex_value. now rewrite fold_left_app. Qed.

Lemma hex_digits_aux_value (fuel : nat) (n : N) :
  (n < 16 ^ N.of_nat fuel)%N -> hex_value (hex_digits_aux fuel n []) = n.
Proof.
  revert n; induction fuel as [|f IH]; intros n Hn.
  - simpl in *. unfold hex_value. simpl. lia.
  - cbn [hex_digits_aux]. destruct (N.ltb_spec n 16) as [Hlt|Hge].
    + unfold hex_value. simpl. lia.
    + rewrite hex_digits_aux_acc, hex_value_snoc, IH.
      * pose proof (N.div_mod n 16). lia.
      * rewrite Nat2N.inj_succ, N.pow_succ_r' in Hn.
        apply N.Div0.div_lt_upper_bound; lia.
Qed.

Lemma hex_digits_value (n : N) : hex_value (hex_digits n) = n.
Proof.
  unfold hex_digits. apply hex_digits_aux_value.
  rewrite Nat2N.inj_succ, N2Nat.id.
  destruct (N.eq_dec n 0) as [->|Hn]; [reflexivity|].
  destruct (N.log2_spec n) as [_ H]; [lia|].
  eapply N.lt_le_trans; [exact H|].
  apply N.pow_le_mono_l. lia.
Qed.

Lemma hex_digits_aux_below (fuel : nat) (n : N) (acc : list N) :
  Forall (fun d => (d < 16)%N) acc ->
  Forall (fun d => (d < 16)%N) (hex_digits_aux (S fuel) n acc).
Proof.
  revert n acc; induction fuel as [|f IH]; intros n acc Hacc.
  - cbn [hex_digits_aux]. destruct (N.ltb_spec n 16); [now constructor|].
    constructor; [|assumption]. apply N.mod_lt. lia.
  - change (hex_digits_aux (S (S f)) n acc)
      with (if (n <? 16)%N then n :: acc
            else hex_digits_aux (S f) (n / 16)%N ((n mod 16)%N :: acc)).
    destruct (N.ltb_spec n 16); [now constructor|].
    apply IH. constructor; [|assumption]. apply N.mod_lt. lia.
Qed.

Lemma hex_digits_below (n : N) : Forall (fun d => (d < 16)%N) (hex_digits n).
Proof. unfold hex_digits. apply hex_digits_aux_below. constructor. Qed.

(** The digits of the euro sign, U+20AC. *)
Example hex_digits_euro : hex_digits 8364 = [2; 0; 10; 12]%N.
Proof. reflexivity. Qed.

(** C8. For the two-character literal "12" the emission engine returns
    the compose sequence of the first character "1" only (left-ctrl
    down, left-shift down, U down, the hex digits 3 and 1 each down and
    up, then the three releases, every key event followed by
    SYN_REPORT), not one sequence per character: the sequence of "2" is
    missing. *)
Theorem get_events_for_unicode_string_stops_after_first_character :
  get_events_for_unicode_string [49; 50]%N = Some (spec_compose_sequence_of_char 49%N)
  /\ get_events_for_unicode_string [49; 50]%N
     <> Some (spec_compose_sequence_of_string [49; 50]%N)
  /\ spec_compose_sequence_of_char 49%N =
     [ mkInputEvent MSC_SCAN 29; mkInputEvent (EV_KEY KEY_LEFTCTRL) 1; mkInputEvent SYN_REPORT 0;
       mkInputEvent MSC_SCAN 42; mkInputEvent (EV_KEY KEY_LEFTSHIFT) 1; mkInputEvent SYN_REPORT 0;
       mkInputEvent MSC_SCAN 22; mkInputEvent (EV_KEY KEY_U) 1; mkInputEvent SYN_REPORT 0;
       mkInputEvent MSC_SCAN 4; mkInputEvent (EV_KEY 4) 1; mkInputEvent SYN_REPORT 0;
       mkInputEvent MSC_SCAN 4; mkInputEvent (EV_KEY 4) 0; mkInputEvent SYN_REPORT 0;
       mkInputEvent MSC_SCAN 2; mkInputEvent (EV_KEY 2) 1; mkInputEvent SYN_REPORT 0;
       mkInputEvent MSC_SCAN 2; mkInputEvent (EV_KEY 2) 0; mkInputEvent SYN_REPORT 0;
       mkInputEvent MSC_SCAN 29; mkInputEvent (EV_KEY KEY_LEFTCTRL) 0; mkInputEvent SYN_REPORT 0;
       mkInputEvent MSC_SCAN 42; mkInputEvent (EV_KEY KEY_LEFTSHIFT) 0; mkInputEvent SYN_REPORT 0;
       mkInputEvent MSC_SCAN 22; mkInputEvent (EV_KEY KEY_U) 0; mkInputEvent SYN_REPORT 0 ].
Proof.
  split; [apply get_events_for_unicode_string_head|].
  split; [|reflexivity].
  rewrite get_events_for_unicode_string_head.
  intros H. injection H as H.
  apply (f_equal (@length InputEvent)) in H.
  vm_compute in H. discriminate H.
Qed.

(** ** The touchpad-status monitor *)

Section Monitor.

Variable cfg : config.

Lemma deactivate_numpad_failure_count (w : world) (s : state) :
  getting_device_status_failure_count (deactivate_numpad w s)
  = getting_device_status_failure_count s.
Proof.
  unfold deactivate_numpad.
  destruct (ungrab_raises w); [reflexivity|].
  destruct (call_raises w); reflexivity.
Qed.

(** Each query restarts the counter: after a query it is 0 or 1. *)
Lemma is_device_enabled_failure_count (w : world) (s : state) :
  0 <= getting_device_status_failure_count (snd (is_device_enabled w s)) <= 1.
Proof.
  unfold is_device_enabled. destruct (xinput w); simpl; lia.
Qed.

Lemma check_touchpad_status_failure_count (w : world) (s : state) :
  0 <= getting_device_status_failure_count (check_touchpad_status cfg w s) <= 1.
Proof.
  unfold check_touchpad_status.
  pose proof (is_device_enabled_failure_count w s) as H.
  destruct (is_device_enabled w s) as [b s1]. simpl in H.
  destruct (negb b && touchpad_disables_numpad cfg && numlock s1); [|exact H].
  rewrite deactivate_numpad_failure_count. exact H.
Qed.

Lemma endless_cycle_keeps_polling (polls : list world) (s : state) :
  getting_device_status_failure_count s < 9 ->
  fst (check_touchpad_status_endless_cycle cfg polls s) = false.
Proof.
  revert s; induction polls as [|w polls IH]; intros s Hs; simpl.
  - apply Z.ltb_lt in Hs. now rewrite Hs.
  - pose proof Hs as Hs'. apply Z.ltb_lt in Hs'. rewrite Hs'.
    apply IH. pose proof (check_touchpad_status_failure_count w s). lia.
Qed.

End Monitor.

(** C9. Started at process start, the touchpad-status monitor is still
    polling after any number of polls, whatever the queries answer: the
    failure counter is zeroed at the start of every query, so it never
    gets past 1 and never reaches the threshold 9.  In particular
    twenty consecutive failed queries leave the counter at 1 and the
    loop running. *)
Theorem check_touchpad_status_endless_cycle_never_exits :
  (forall (cfg : config) (polls : list world),
      fst (check_touchpad_status_endless_cycle cfg polls initial_state) = false)
  /\ check_touchpad_status_endless_cycle (sample_layout false false)
       (repeat (xinput_down 0) 20) initial_state
     = (false,
        emit_all (repeat xinput_list_props 20)
          (set_getting_device_status_failure_count 1 initial_state)).
Proof.
  split.
  - intros cfg polls. apply endless_cycle_keeps_polling. simpl. lia.
  - vm_compute. reflexivity.
Qed.

(** ** Shape of the state *)

Lemma same_shape_refl (s : state) : same_shape s s.
Proof. repeat split. Qed.

Lemma same_shape_trans (s1 s2 s3 : state) :
  same_shape s1 s2 -> same_shape s2 s3 -> same_shape s1 s3.
Proof.
  unfold same_shape. intros (a1 & a2 & a3 & a4 & a5) (b1 & b2 & b3 & b4 & b5).
  repeat split; congruence.
Qed.

Lemma same_shape_wf (s s' : state) : same_shape s s' -> wf s -> wf s'.
Proof.
  unfold same_shape, wf. intros (a1 & a2 & a3 & a4 & a5) (b1 & b2 & b3 & b4 & b5).
  repeat split; congruence.
Qed.

Ltac shape :=
  unfold same_shape; simpl; rewrite ?list_set_length; repeat split; reflexivity.

Lemma shape_emit e s : same_shape s (emit e s).
Proof. shape. Qed.
Lemma shape_set_numlock b s : same_shape s (set_numlock b s).
Proof. shape. Qed.
Lemma shape_set_brightness b s : same_shape s (set_brightness b s).
Proof. shape. Qed.
Lemma shape_set_cur_key k s : same_shape s (set_cur_key k s).
Proof. shape. Qed.
Lemma shape_set_cur_x v s : same_shape s (set_cur_x v s).
Proof. shape. Qed.
Lemma shape_set_cur_y v s : same_shape s (set_cur_y v s).
Proof. shape. Qed.
Lemma shape_set_top_right t s : same_shape s (set_top_right_icon_touch_start_time t s).
Proof. shape. Qed.
Lemma shape_set_top_left t s : same_shape s (set_top_left_icon_touch_start_time t s).
Proof. shape. Qed.
Lemma shape_set_last_event_time t s : same_shape s (set_last_event_time t s).
Proof. shape. Qed.
Lemma shape_set_failure_count n s :
  same_shape s (set_getting_device_status_failure_count n s).
Proof. shape. Qed.

Lemma shape_udev_send w evs s : same_shape s (udev_send w evs s).
Proof. unfold udev_send. destruct (send_raises w); shape. Qed.

(** The assigned keys are untouched by logging and by the scalar
    setters. *)
Lemma keys_udev_send w evs s :
  abs_mt_slot_numpad_key (udev_send w evs s) = abs_mt_slot_numpad_key s.
Proof. unfold udev_send. destruct (send_raises w); reflexivity. Qed.

Lemma numlock_udev_send w evs s : numlock (udev_send w evs s) = numlock s.
Proof. unfold udev_send. destruct (send_raises w); reflexivity. Qed.

Lemma cur_key_set_cur_key (k : option numpad_key) (s : state) :
  wf s -> cur_key (set_cur_key k s) = k.
Proof.
  intros (H1 & _ & H3 & _). unfold cur_key, set_cur_key. simpl.
  apply nth_list_set_same. lia.
Qed.

Section Activation.

Variable cfg : config.

Lemma shape_set_none s : same_shape s (set_none_to_current_mt_slot s).
Proof. unfold set_none_to_current_mt_slot. shape. Qed.

Lemma cur_key_set_none (s : state) :
  wf s -> cur_key (set_none_to_current_mt_slot s) = None.
Proof.
  intros H. unfold set_none_to_current_mt_slot.
  change (cur_key (set_cur_key None s) = None).
  now apply cur_key_set_cur_key.
Qed.

Lemma keys_set_none_other (s : state) (i : nat) :
  i <> abs_mt_slot_value s ->
  nth i (abs_mt_slot_numpad_key (set_none_to_current_mt_slot s)) None
  = nth i (abs_mt_slot_numpad_key s) None.
Proof.
  intros H. unfold set_none_to_current_mt_slot. simpl.
  apply nth_list_set_other. congruence.
Qed.

Lemma numlock_set_none s : numlock (set_none_to_current_mt_slot s) = numlock s.
Proof. reflexivity. Qed.

Lemma shape_deactivate w s : same_shape s (deactivate_numpad w s).
Proof.
  unfold deactivate_numpad.
  destruct (ungrab_raises w); [apply same_shape_refl|].
  destruct (call_raises w); shape.
Qed.

Lemma shape_activate w s : same_shape s (activate_numpad cfg w s).
Proof.
  unfold activate_numpad.
  destruct (grab_raises w); [apply same_shape_refl|].
  destruct (call_raises w); [shape|].
  destruct (String.eqb _ _), (list_index _ _); shape.
Qed.

Lemma keys_deactivate w s :
  abs_mt_slot_numpad_key (deactivate_numpad w s) = abs_mt_slot_numpad_key s.
Proof.
  unfold deactivate_numpad.
  destruct (ungrab_raises w); [reflexivity|].
  destruct (call_raises w); reflexivity.
Qed.

Lemma numlock_deactivate w s : numlock (deactivate_numpad w s) = numlock s.
Proof.
  unfold deactivate_numpad.
  destruct (ungrab_raises w); [reflexivity|].
  destruct (call_raises w); reflexivity.
Qed.

Lemma keys_activate w s :
  abs_mt_slot_numpad_key (activate_numpad cfg w s) = abs_mt_slot_numpad_key s.
Proof.
  unfold activate_numpad.
  destruct (grab_raises w); [reflexivity|].
  destruct (call_raises w); [reflexivity|].
  destruct (String.eqb _ _), (list_index _ _); reflexivity.
Qed.

Lemma numlock_activate w s : numlock (activate_numpad cfg w s) = numlock s.
Proof.
  unfold activate_numpad.
  destruct (grab_raises w); [reflexivity|].
  destruct (call_raises w); [reflexivity|].
  destruct (String.eqb _ _), (list_index _ _); reflexivity.
Qed.

Lemma shape_send_numlock_key w v s : same_shape s (send_numlock_key w v s).
Proof. apply shape_udev_send. Qed.

Lemma keys_send_numlock_key w v s :
  abs_mt_slot_numpad_key (send_numlock_key w v s) = abs_mt_slot_numpad_key s.
Proof. apply keys_udev_send. Qed.

Lemma numlock_send_numlock_key w v s : numlock (send_numlock_key w v s) = numlock s.
Proof. apply numlock_udev_send. Qed.

Lemma local_numlock_pressed_toggled w s :
  local_numlock_pressed cfg w s = set_none_to_current_mt_slot (toggled cfg w s).
Proof. reflexivity. Qed.

Lemma shape_toggled w s : same_shape s (toggled cfg w s).
Proof.
  unfold toggled. destruct (negb (numlock s)).
  - eapply same_shape_trans; [|apply shape_activate].
    destruct (negb (sys_numlock w)); [|shape].
    eapply same_shape_trans; [|apply shape_send_numlock_key].
    eapply same_shape_trans; [|apply shape_send_numlock_key]. shape.
  - eapply same_shape_trans; [|apply shape_deactivate].
    destruct (sys_numlock w); [|shape].
    eapply same_shape_trans; [|apply shape_send_numlock_key].
    eapply same_shape_trans; [|apply shape_send_numlock_key]. shape.
Qed.

Lemma keys_toggled w s :
  abs_mt_slot_numpad_key (toggled cfg w s) = abs_mt_slot_numpad_key s.
Proof.
  unfold toggled. destruct (negb (numlock s)).
  - rewrite keys_activate. destruct (negb (sys_numlock w)); [|reflexivity].
    now rewrite !keys_send_numlock_key.
  - rewrite keys_deactivate. destruct (sys_numlock w); [|reflexivity].
    now rewrite !keys_send_numlock_key.
Qed.

Lemma numlock_toggled w s : numlock (toggled cfg w s) = negb (numlock s).
Proof.
  unfold toggled. destruct (numlock s); simpl.
  - rewrite numlock_deactivate. destruct (sys_numlock w); [|reflexivity].
    now rewrite !numlock_send_numlock_key.
  - rewrite numlock_activate. destruct (negb (sys_numlock w)); [|reflexivity].
    now rewrite !numlock_send_numlock_key.
Qed.

Lemma shape_local_numlock_pressed w s : same_shape s (local_numlock_pressed cfg w s).
Proof.
  rewrite local_numlock_pressed_toggled.
  eapply same_shape_trans; [apply shape_toggled|apply shape_set_none].
Qed.

Lemma numlock_local_numlock_pressed w s :
  numlock (local_numlock_pressed cfg w s) = negb (numlock s).
Proof. rewrite local_numlock_pressed_toggled. apply numlock_toggled. Qed.

Lemma cur_key_local_numlock_pressed w s :
  wf s -> cur_key (local_numlock_pressed cfg w s) = None.
Proof.
  intros H. rewrite local_numlock_pressed_toggled. apply cur_key_set_none.
  eapply same_shape_wf; [apply shape_toggled|exact H].
Qed.

End Activation.

(** ** Deactivation and the slot table *)

Section Deactivation.

Variable cfg : config.

Lemma keys_is_device_enabled w s :
  abs_mt_slot_numpad_key (snd (is_device_enabled w s)) = abs_mt_slot_numpad_key s.
Proof. unfold is_device_enabled. destruct (xinput w); reflexivity. Qed.

Lemma keys_check_system_numlock_vs_local w s :
  abs_mt_slot_numpad_key (check_system_numlock_vs_local cfg w s)
  = abs_mt_slot_numpad_key s.
Proof.
  unfold check_system_numlock_vs_local.
  destruct (negb (sys_numlock w) && numlock s).
  - now rewrite keys_deactivate.
  - destruct (sys_numlock w && sys_numlock_enables_numpad cfg && negb (numlock s));
      [now rewrite keys_activate|reflexivity].
Qed.

Lemma keys_check_touchpad_status w s :
  abs_mt_slot_numpad_key (check_touchpad_status cfg w s) = abs_mt_slot_numpad_key s.
Proof.
  unfold check_touchpad_status.
  pose proof (keys_is_device_enabled w s) as H.
  destruct (is_device_enabled w s) as [b s1]. simpl in H.
  destruct (negb b && touchpad_disables_numpad cfg && numlock s1); [|exact H].
  now rewrite keys_deactivate.
Qed.

Lemma keys_check_inactivity w s :
  abs_mt_slot_numpad_key (check_numpad_automatical_disable_due_inactivity cfg w s)
  = abs_mt_slot_numpad_key s.
Proof.
  unfold check_numpad_automatical_disable_due_inactivity.
  destruct (numlock s && negb (Qis0 (last_event_time s)) && Qltb _ _); [|reflexivity].
  rewrite keys_deactivate. simpl.
  destruct (sys_numlock w); [|reflexivity].
  now rewrite !keys_send_numlock_key.
Qed.

End Deactivation.

(** C3, as amended.  When the numpad is active, the local numlock
    toggle deactivates it and clears the assigned key of the current
    slot only, the other slots keeping their assigned keys, whether or
    not the ungrab or the power-off bus command fails; the polls of
    the three monitors (host numlock, touchpad status, inactivity)
    leave every slot's assigned key as it was. *)
Theorem deactivation_clears_the_current_slot_only :
  forall (cfg : config) (w : world) (s : state),
    wf s -> numlock s = true ->
    (numlock (local_numlock_pressed cfg w s) = false
     /\ cur_key (local_numlock_pressed cfg w s) = None
     /\ forall i, i <> abs_mt_slot_value s ->
          nth i (abs_mt_slot_numpad_key (local_numlock_pressed cfg w s)) None
          = nth i (abs_mt_slot_numpad_key s) None)
    /\ abs_mt_slot_numpad_key (check_system_numlock_vs_local cfg w s)
       = abs_mt_slot_numpad_key s
    /\ abs_mt_slot_numpad_key (check_touchpad_status cfg w s)
       = abs_mt_slot_numpad_key s
    /\ abs_mt_slot_numpad_key
         (check_numpad_automatical_disable_due_inactivity cfg w s)
       = abs_mt_slot_numpad_key s.
Proof.
  intros cfg w s Hwf Hn. split; [split; [|split]|split; [|split]].
  - rewrite numlock_local_numlock_pressed, Hn. reflexivity.
  - now apply cur_key_local_numlock_pressed.
  - intros i Hi. rewrite local_numlock_pressed_toggled.
    rewrite keys_set_none_other.
    + now rewrite keys_toggled.
    + destruct (shape_toggled cfg w s) as (Hc & _). congruence.
  - apply keys_check_system_numlock_vs_local.
  - apply keys_check_touchpad_status.
  - apply keys_check_inactivity.
Qed.

Lemma wf_initial_state : wf initial_state.
Proof. unfold wf; simpl; repeat split; lia. Qed.

(** The toggle on [two_keys_assigned]: slot 0 is cleared, slot 1 keeps
    KEY_KP5. *)
Lemma deactivation_clears_the_current_slot_only_witness :
  wf two_keys_assigned /\ numlock two_keys_assigned = true
  /\ numlock (local_numlock_pressed (sample_layout true false) (calm 1 true)
                two_keys_assigned) = false
  /\ cur_key (local_numlock_pressed (sample_layout true false) (calm 1 true)
                two_keys_assigned) = None
  /\ nth 1%nat (abs_mt_slot_numpad_key
                  (local_numlock_pressed (sample_layout true false) (calm 1 true)
                     two_keys_assigned)) None
     = nth 1%nat (abs_mt_slot_numpad_key two_keys_assigned) None.
Proof.
  assert (Hwf : wf two_keys_assigned) by (unfold wf; simpl; repeat split; lia).
  destruct (deactivation_clears_the_current_slot_only
              (sample_layout true false) (calm 1 true) two_keys_assigned Hwf eq_refl)
    as ((H1 & H2 & H3) & _).
  split; [exact Hwf|]. split; [reflexivity|].
  split; [exact H1|]. split; [exact H2|].
  apply H3. simpl. lia.
Defined.

(** C3 as stated fails: in the sample layout with key repetition, the
    numpad is switched on and a finger holds KEY_KP5; the host numlock
    then goes off and the monitor deactivates the numpad, and slot 0
    still has KEY_KP5 assigned. *)
Lemma deactivation_by_monitor_keeps_assigned_key :
  run (sample_layout true false) switch_on_then_hold_key initial_state
  = Ok holding_a_key
  /\ numlock holding_a_key = true
  /\ numlock (check_system_numlock_vs_local (sample_layout true false)
                (calm 15 false) holding_a_key) = false
  /\ abs_mt_slot_numpad_key
       (check_system_numlock_vs_local (sample_layout true false)
          (calm 15 false) holding_a_key)
     = [Some (KeyCode 76); None; None; None; None]
  /\ ~ Forall (fun k => k = None)
         (abs_mt_slot_numpad_key
            (check_system_numlock_vs_local (sample_layout true false)
               (calm 15 false) holding_a_key)).
Proof.
  split; [vm_compute; reflexivity|].
  split; [vm_compute; reflexivity|].
  split; [vm_compute; reflexivity|].
  split; [vm_compute; reflexivity|].
  intros H. vm_compute in H. inversion H as [|? ? Hk _]. discriminate Hk.
Qed.

(** ** Activation requests *)

Lemma count_i2ctransfer_app (level : string) (l1 l2 : list effect) :
  count_i2ctransfer level (l1 ++ l2)
  = (count_i2ctransfer level l1 + count_i2ctransfer level l2)%nat.
Proof. unfold count_i2ctransfer. now rewrite filter_app, length_app. Qed.

(** C6. When the host numlock monitor asks for activation twice in a
    row from the inactive state, the first request activates and the
    second changes nothing, so the power-on bus command is issued
    exactly once (the grab and the command not failing); likewise two
    deactivation requests in a row from the active state issue the
    power-off bus command exactly once, the second being a no-op. *)
Theorem activation_requests_are_idempotent :
  forall (cfg : config) (w1 w2 : world) (s : state),
    (sys_numlock w1 = true -> sys_numlock w2 = true ->
     sys_numlock_enables_numpad cfg = true -> numlock s = false ->
     numlock (check_system_numlock_vs_local cfg w1 s) = true
     /\ check_system_numlock_vs_local cfg w2 (check_system_numlock_vs_local cfg w1 s)
        = check_system_numlock_vs_local cfg w1 s
     /\ (grab_raises w1 = false -> call_raises w1 = false ->
         count_i2ctransfer "0x01"
           (out (check_system_numlock_vs_local cfg w2
                   (check_system_numlock_vs_local cfg w1 s)))
         = S (count_i2ctransfer "0x01" (out s))))
    /\
    (sys_numlock w1 = false -> sys_numlock w2 = false -> numlock s = true ->
     numlock (check_system_numlock_vs_local cfg w1 s) = false
     /\ check_system_numlock_vs_local cfg w2 (check_system_numlock_vs_local cfg w1 s)
        = check_system_numlock_vs_local cfg w1 s
     /\ (ungrab_raises w1 = false -> call_raises w1 = false ->
         count_i2ctransfer "0x00"
           (out (check_system_numlock_vs_local cfg w2
                   (check_system_numlock_vs_local cfg w1 s)))
         = S (count_i2ctransfer "0x00" (out s)))).
Proof.
  intros cfg w1 w2 s. split.
  - intros H1 H2 He Hn.
    assert (Hfirst : check_system_numlock_vs_local cfg w1 s
                     = activate_numpad cfg w1 (set_numlock true s)).
    { unfold check_system_numlock_vs_local. rewrite H1, He, Hn. reflexivity. }
    assert (Hon : numlock (check_system_numlock_vs_local cfg w1 s) = true).
    { rewrite Hfirst, numlock_activate. reflexivity. }
    assert (Hsecond : check_system_numlock_vs_local cfg w2
                        (check_system_numlock_vs_local cfg w1 s)
                      = check_system_numlock_vs_local cfg w1 s).
    { unfold check_system_numlock_vs_local at 1. rewrite H2, Hon. simpl.
      rewrite ?andb_false_r. reflexivity. }
    split; [exact Hon|]. split; [exact Hsecond|].
    intros Hg Hc. rewrite Hsecond, Hfirst. unfold activate_numpad.
    rewrite Hg, Hc.
    destruct (String.eqb (default_backlight_level cfg) "0x01") eqn:Hd;
      destruct (list_index _ _); simpl;
      rewrite ?count_i2ctransfer_app; unfold count_i2ctransfer; simpl;
      rewrite ?Hd; simpl; lia.
  - intros H1 H2 Hn.
    assert (Hfirst : check_system_numlock_vs_local cfg w1 s
                     = deactivate_numpad w1 (set_numlock false s)).
    { unfold check_system_numlock_vs_local. rewrite H1, Hn. reflexivity. }
    assert (Hoff : numlock (check_system_numlock_vs_local cfg w1 s) = false).
    { rewrite Hfirst, numlock_deactivate. reflexivity. }
    assert (Hsecond : check_system_numlock_vs_local cfg w2
                        (check_system_numlock_vs_local cfg w1 s)
                      = check_system_numlock_vs_local cfg w1 s).
    { unfold check_system_numlock_vs_local at 1. rewrite H2, Hoff. simpl.
      rewrite ?andb_false_r. reflexivity. }
    split; [exact Hoff|]. split; [exact Hsecond|].
    intros Hg Hc. rewrite Hsecond, Hfirst. unfold deactivate_numpad.
    rewrite Hg, Hc. simpl.
    rewrite !count_i2ctransfer_app. unfold count_i2ctransfer. simpl. lia.
Qed.

(** Two activation requests from the initial state, then two
    deactivation requests, in the sample layout. *)
Lemma activation_requests_are_idempotent_witness :
  (numlock (check_system_numlock_vs_local (sample_layout false false) (calm 1 true)
              initial_state) = true
   /\ check_system_numlock_vs_local (sample_layout false false) (calm 2 true)
        (check_system_numlock_vs_local (sample_layout false false) (calm 1 true)
           initial_state)
      = check_system_numlock_vs_local (sample_layout false false) (calm 1 true)
          initial_state
   /\ count_i2ctransfer "0x01"
        (out (check_system_numlock_vs_local (sample_layout false false) (calm 2 true)
                (check_system_numlock_vs_local (sample_layout false false)
                   (calm 1 true) initial_state)))
      = 1%nat)
  /\
  (numlock (check_system_numlock_vs_local (sample_layout false false) (calm 1 false)
              two_keys_assigned) = false
   /\ check_system_numlock_vs_local (sample_layout false false) (calm 2 false)
        (check_system_numlock_vs_local (sample_layout false false) (calm 1 false)
           two_keys_assigned)
      = check_system_numlock_vs_local (sample_layout false false) (calm 1 false)
          two_keys_assigned
   /\ count_i2ctransfer "0x00"
        (out (check_system_numlock_vs_local (sample_layout false false) (calm 2 false)
                (check_system_numlock_vs_local (sample_layout false false)
                   (calm 1 false) two_keys_assigned)))
      = 1%nat).
Proof.
  split.
  - destruct (activation_requests_are_idempotent (sample_layout false false)
                (calm 1 true) (calm 2 true) initial_state) as [H _].
    destruct (H eq_refl eq_refl eq_refl eq_refl) as (H1 & H2 & H3).
    split; [exact H1|]. split; [exact H2|]. exact (H3 eq_refl eq_refl).
  - destruct (activation_requests_are_idempotent (sample_layout false false)
                (calm 1 false) (calm 2 false) two_keys_assigned) as [_ H].
    destruct (H eq_refl eq_refl eq_refl) as (H1 & H2 & H3).
    split; [exact H1|]. split; [exact H2|]. exact (H3 eq_refl eq_refl).
Defined.

(** ** Brightness *)

(** C7. From a brightness index between -1 (unset) and the last level,
    one advance sets the index to (index + 1) mod the number of levels,
    writes the new level to the persisted store once and issues one bus
    command with that level; with the two levels "0x01" and "0x02" and
    the index unset, three advances visit 0, 1, 0. *)
Theorem increase_brightness_advances_modulo :
  (forall (cfg : config) (w : world) (s : state),
      backlight_levels cfg <> [] ->
      -1 <= brightness s < Z.of_nat (length (backlight_levels cfg)) ->
      call_raises w = false ->
      exists level s',
        increase_brightness cfg w s = Ok s'
        /\ brightness s' = (brightness s + 1) mod Z.of_nat (length (backlight_levels cfg))
        /\ nth_error (backlight_levels cfg) (Z.to_nat (brightness s')) = Some level
        /\ out s' = out s ++ [config_write level; i2ctransfer level])
  /\
  (exists s1 s2 s3,
      increase_brightness (sample_layout false false) (calm 1 true) brightness_unset = Ok s1
      /\ increase_brightness (sample_layout false false) (calm 2 true) s1 = Ok s2
      /\ increase_brightness (sample_layout false false) (calm 3 true) s2 = Ok s3
      /\ brightness s1 = 0 /\ brightness s2 = 1 /\ brightness s3 = 0
      /\ out s3 = [ config_write "0x01"; i2ctransfer "0x01";
                    config_write "0x02"; i2ctransfer "0x02";
                    config_write "0x01"; i2ctransfer "0x01" ]).
Proof.
  split.
  - intros cfg w s Hne Hb Hc.
    set (n := Z.of_nat (length (backlight_levels cfg))) in *.
    assert (Hn : 0 < n).
    { unfold n. destruct (backlight_levels cfg); [congruence|simpl; lia]. }
    set (b := if n <=? brightness s + 1 then 0 else brightness s + 1).
    assert (Hb' : b = (brightness s + 1) mod n /\ 0 <= b < n).
    { unfold b. destruct (Z.leb_spec n (brightness s + 1)) as [Hle|Hlt].
      - assert (brightness s + 1 = n) as -> by lia.
        rewrite Z.mod_same by lia. lia.
      - rewrite Z.mod_small by lia. lia. }
    destruct Hb' as [Hmod Hrange].
    destruct (nth_error (backlight_levels cfg) (Z.to_nat b)) as [level|] eqn:Hl.
    2:{ apply nth_error_None in Hl. unfold n in Hrange. lia. }
    exists level. eexists. unfold increase_brightness. fold n. fold b.
    unfold py_index. destruct (Z.leb_spec 0 b) as [_|Hneg]; [|lia].
    rewrite Hl. unfold subprocess_call. rewrite Hc.
    split; [reflexivity|]. simpl. split; [exact Hmod|]. split; [exact Hl|].
    rewrite <- app_assoc. reflexivity.
  - eexists. eexists. eexists.
    split; [vm_compute; reflexivity|].
    split; [vm_compute; reflexivity|].
    split; [vm_compute; reflexivity|].
    repeat split.
Qed.

(** One advance from the unset index with two levels. *)
Lemma increase_brightness_advances_modulo_witness :
  exists level s',
    increase_brightness (sample_layout false false) (calm 1 true) brightness_unset = Ok s'
    /\ brightness s' = (brightness brightness_unset + 1) mod 2
    /\ nth_error (backlight_levels (sample_layout false false))
         (Z.to_nat (brightness s')) = Some level
    /\ out s' = out brightness_unset ++ [config_write level; i2ctransfer level].
Proof.
  apply (proj1 increase_brightness_advances_modulo
           (sample_layout false false) (calm 1 true) brightness_unset).
  - simpl. discriminate.
  - simpl. lia.
  - reflexivity.
Defined.

(** ** Geometry *)

(** The rational quotient of the source is the integer quotient
    [d * count / span]. *)
Lemma Qfloor_cell (d span count : Z) :
  0 < span -> 0 < count ->
  Qfloor (inject_Z d / (inject_Z span / inject_Z count)) = d * count / span.
Proof.
  intros Hs Hc.
  destruct span as [|ps|ps]; try lia. destruct count as [|pc|pc]; try lia.
  assert (E : (inject_Z d / (inject_Z (Zpos ps) / inject_Z (Zpos pc)) == (d * Zpos pc) # ps)%Q).
  { unfold Qeq, Qdiv, Qmult, Qinv, inject_Z. simpl. lia. }
  rewrite (Qfloor_comp _ _ E). reflexivity.
Qed.

Lemma Qis0_cell_width (span count : Z) :
  0 < span -> 0 < count -> Qis0 (inject_Z span / inject_Z count) = false.
Proof.
  intros Hs Hc.
  destruct span as [|ps|ps]; try lia. destruct count as [|pc|pc]; try lia.
  reflexivity.
Qed.

Section Geometry.

Variable cfg : config.
Hypothesis Hvalid : valid_layout cfg.

Let W := maxx_numpad cfg - minx_numpad cfg.
Let H := maxy_numpad cfg - miny_numpad cfg.
Let C := Z.of_nat (col_count cfg).
Let R := Z.of_nat (row_count cfg).

Lemma valid_spans : 0 < W /\ 0 < H /\ 0 < C /\ 0 < R.
Proof. unfold W, H, C, R. destruct Hvalid as (h1 & h2 & h3 & h4). lia. Qed.

Lemma cell_col_div (x : Z) : cell_col cfg x = (x - minx_numpad cfg) * C / W.
Proof.
  destruct valid_spans as (hw & hh & hc & hr).
  unfold cell_col, col_width. fold W. fold C. now apply Qfloor_cell.
Qed.

Lemma cell_row_div (y : Z) : cell_row cfg y = (y - miny_numpad cfg) * R / H.
Proof.
  destruct valid_spans as (hw & hh & hc & hr).
  unfold cell_row, row_height. fold H. fold R. now apply Qfloor_cell.
Qed.

Lemma floor_div_col (x : Z) :
  floor_div (x - minx_numpad cfg) (col_width cfg) = Ok (cell_col cfg x).
Proof.
  destruct valid_spans as (hw & hh & hc & hr).
  unfold floor_div, col_width. fold W. fold C.
  rewrite Qis0_cell_width by assumption. reflexivity.
Qed.

Lemma floor_div_row (y : Z) :
  floor_div (y - miny_numpad cfg) (row_height cfg) = Ok (cell_row cfg y).
Proof.
  destruct valid_spans as (hw & hh & hc & hr).
  unfold floor_div, row_height. fold H. fold R.
  rewrite Qis0_cell_width by assumption. reflexivity.
Qed.

(** No row is longer than [col_count]. *)
Lemma row_length_le_col_count (n : nat) (r : list (option numpad_key)) :
  nth_error (keys cfg) n = Some r -> (length r <= col_count cfg)%nat.
Proof.
  unfold col_count. generalize (keys cfg). intros l. revert n.
  induction l as [|h t IH]; intros [|n] Hn; simpl in *; try discriminate.
  - injection Hn as ->. lia.
  - specialize (IH n Hn). lia.
Qed.

Lemma keys_at_configured (row col : Z) :
  match keys_at cfg row col with Some (Some k) => Some k | _ => None end
  = configured_key cfg row col.
Proof.
  unfold keys_at, configured_key.
  destruct (nth_error (keys cfg) (Z.to_nat row)); reflexivity.
Qed.

Lemma keys_at_beyond_columns (row col : Z) :
  C <= col -> keys_at cfg row col = None.
Proof.
  intros Hc. unfold keys_at.
  destruct (nth_error (keys cfg) (Z.to_nat row)) as [r|] eqn:Hr; [|reflexivity].
  apply nth_error_None. apply row_length_le_col_count in Hr. unfold C in Hc. lia.
Qed.

Lemma keys_at_beyond_rows (row col : Z) :
  R <= row -> keys_at cfg row col = None.
Proof.
  intros Hr. unfold keys_at.
  assert (E : nth_error (keys cfg) (Z.to_nat row) = None).
  { apply nth_error_None. unfold R, row_count in Hr. lia. }
  now rewrite E.
Qed.

Lemma get_touched_key_unfold (s : state) :
  get_touched_key cfg s =
  Ok (if (cell_row cfg (cur_y s) <? 0) || (cell_col cfg (cur_x s) <? 0) then None
      else match keys_at cfg (cell_row cfg (cur_y s)) (cell_col cfg (cur_x s)) with
           | Some cell => cell
           | None => None
           end).
Proof.
  unfold get_touched_key. rewrite floor_div_col, floor_div_row. simpl.
  destruct ((_ <? 0) || (_ <? 0)); [reflexivity|].
  destruct (keys_at _ _ _); reflexivity.
Qed.

Lemma get_touched_key_map_position (s : state) :
  get_touched_key cfg s = Ok (spec_map cfg (cur_x s) (cur_y s)).
Proof.
  destruct valid_spans as (hw & hh & hc & hr).
  rewrite get_touched_key_unfold. f_equal.
  unfold spec_map, inside_usable_rectangle.
  pose proof (cell_col_div (cur_x s)) as Ecol.
  pose proof (cell_row_div (cur_y s)) as Erow.
  set (x := cur_x s) in *. set (y := cur_y s) in *.
  set (col := cell_col cfg x) in *. set (row := cell_row cfg y) in *.
  fold W in hw. fold H in hh.
  destruct (Z.leb_spec (miny_numpad cfg) y) as [Hy1|Hy1].
  2:{ assert (row < 0).
      { rewrite Erow. apply Z.div_lt_upper_bound; [lia|]. nia. }
      assert (E : (row <? 0) = true) by (apply Z.ltb_lt; lia).
      rewrite E. simpl. now rewrite andb_false_r. }
  destruct (Z.leb_spec (minx_numpad cfg) x) as [Hx1|Hx1].
  2:{ assert (col < 0).
      { rewrite Ecol. apply Z.div_lt_upper_bound; [lia|]. nia. }
      assert (E : (col <? 0) = true) by (apply Z.ltb_lt; lia).
      rewrite E, orb_true_r. reflexivity. }
  assert (Hrow : 0 <= row) by (rewrite Erow; apply Z.div_pos; nia).
  assert (Hcol : 0 <= col) by (rewrite Ecol; apply Z.div_pos; nia).
  assert (E1 : (row <? 0) = false) by (apply Z.ltb_ge; lia).
  assert (E2 : (col <? 0) = false) by (apply Z.ltb_ge; lia).
  rewrite E1, E2. simpl.
  destruct (Z.leb_spec x (maxx_numpad cfg)) as [Hx2|Hx2].
  2:{ simpl. rewrite keys_at_beyond_columns; [reflexivity|].
      rewrite Ecol. apply Z.div_le_lower_bound; [lia|]. unfold W in *. nia. }
  destruct (Z.leb_spec y (maxy_numpad cfg)) as [Hy2|Hy2].
  2:{ simpl. rewrite keys_at_beyond_rows; [reflexivity|].
      rewrite Erow. apply Z.div_le_lower_bound; [lia|]. unfold H in *. nia. }
  simpl. rewrite <- keys_at_configured.
  destruct (keys_at cfg row col) as [[k|]|]; reflexivity.
Qed.

End Geometry.

(** C4. On a layout with a usable rectangle of positive span and a
    non-empty grid, the geometry mapping returns without raising at
    every position; inside the usable rectangle it returns key [k]
    exactly when the cell at row floor((y - min_y) / row_height) and
    column floor((x - min_x) / col_width) holds [k], and [None] when
    that cell is empty, beyond its ragged row or beyond the grid;
    outside the usable rectangle it returns [None]. *)
Theorem get_touched_key_is_the_geometry_mapping :
  forall (cfg : config) (s : state),
    valid_layout cfg ->
    get_touched_key cfg s = Ok (spec_map cfg (cur_x s) (cur_y s))
    /\ (inside_usable_rectangle cfg (cur_x s) (cur_y s) = true ->
        forall k,
          get_touched_key cfg s = Ok (Some k)
          <-> configured_key cfg (cell_row cfg (cur_y s)) (cell_col cfg (cur_x s))
              = Some k)
    /\ (inside_usable_rectangle cfg (cur_x s) (cur_y s) = true ->
        configured_key cfg (cell_row cfg (cur_y s)) (cell_col cfg (cur_x s)) = None ->
        get_touched_key cfg s = Ok None)
    /\ (inside_usable_rectangle cfg (cur_x s) (cur_y s) = false ->
        get_touched_key cfg s = Ok None).
Proof.
  intros cfg s Hv.
  pose proof (get_touched_key_map_position cfg Hv s) as E.
  split; [exact E|]. rewrite E. unfold spec_map.
  split; [|split].
  - intros Hin k. rewrite Hin. split; intros Hk; congruence.
  - intros Hin Hk. rewrite Hin, Hk. reflexivity.
  - intros Hout. rewrite Hout. reflexivity.
Qed.

(** The middle cell of the sample grid. *)
Lemma get_touched_key_is_the_geometry_mapping_witness :
  valid_layout (sample_layout false false)
  /\ get_touched_key (sample_layout false false) (at_position 150 250 initial_state)
     = Ok (spec_map (sample_layout false false) 150 250)
  /\ spec_map (sample_layout false false) 150 250 = Some (KeyCode 76).
Proof.
  assert (Hv : valid_layout (sample_layout false false)).
  { unfold valid_layout. cbv. repeat split; try reflexivity; repeat constructor. }
  split; [exact Hv|]. split; [|reflexivity].
  exact (proj1 (get_touched_key_is_the_geometry_mapping
                  (sample_layout false false) (at_position 150 250 initial_state) Hv)).
Defined.

(** The scenario grid: first cell, last cell, right of the rectangle. *)
Example get_touched_key_scenario :
  get_touched_key (sample_layout false false) (at_position 10 110 initial_state)
  = Ok (Some (KeyCode 71))
  /\ get_touched_key (sample_layout false false) (at_position 250 350 initial_state)
     = Ok (Some (KeyCode 81))
  /\ get_touched_key (sample_layout false false) (at_position 310 110 initial_state)
     = Ok None.
Proof. repeat split. Qed.

(** ** The event loop, event by event *)

Section Dispatch.

Variable cfg : config.

Lemma listen_timestamp w v s :
  unsupported_abs_mt_slot s = false ->
  listen_touchpad_events cfg w (ev MSC_TIMESTAMP v) s
  = (f <- on_timestamp cfg w (set_last_event_time (time w) s) ;;
     match f with Continue s' => Ok s' | Next s' => Ok s' end).
Proof.
  intros Hu. unfold listen_touchpad_events.
  cbn [matches ev ev_code ev_value raw_code_eqb is_btn_tool orb].
  rewrite andb_false_r.
  change (unsupported_abs_mt_slot (set_last_event_time (time w) s))
    with (unsupported_abs_mt_slot s).
  rewrite Hu.
  destruct (on_timestamp cfg w (set_last_event_time (time w) s)) as [[s'|s']|e];
    reflexivity.
Qed.

Lemma listen_position_x w v s :
  unsupported_abs_mt_slot s = false ->
  listen_touchpad_events cfg w (ev ABS_MT_POSITION_X v) s
  = is_not_finger_moved_to_another_key cfg w
      (set_cur_x v (set_last_event_time (time w) s)).
Proof.
  intros Hu. unfold listen_touchpad_events.
  cbn [matches ev ev_code ev_value raw_code_eqb is_btn_tool orb].
  rewrite andb_false_r.
  change (unsupported_abs_mt_slot (set_last_event_time (time w) s))
    with (unsupported_abs_mt_slot s).
  rewrite Hu. cbn [bind].
  destruct (is_not_finger_moved_to_another_key cfg w _); reflexivity.
Qed.

Lemma listen_position_y w v s :
  unsupported_abs_mt_slot s = false ->
  listen_touchpad_events cfg w (ev ABS_MT_POSITION_Y v) s
  = is_not_finger_moved_to_another_key cfg w
      (set_cur_y v (set_last_event_time (time w) s)).
Proof.
  intros Hu. unfold listen_touchpad_events.
  cbn [matches ev ev_code ev_value raw_code_eqb is_btn_tool orb].
  rewrite andb_false_r.
  change (unsupported_abs_mt_slot (set_last_event_time (time w) s))
    with (unsupported_abs_mt_slot s).
  rewrite Hu. cbn [bind].
  destruct (is_not_finger_moved_to_another_key cfg w _); reflexivity.
Qed.

Lemma listen_btn_tool w e s :
  is_btn_tool e = true ->
  unsupported_abs_mt_slot s = false ->
  listen_touchpad_events cfg w e s
  = on_btn_tool cfg w (ev_value e) (set_last_event_time (time w) s).
Proof.
  intros He Hu. destruct e as [c v]. unfold listen_touchpad_events.
  destruct c; try discriminate He;
    cbn [matches ev_code ev_value raw_code_eqb is_btn_tool orb];
    change (unsupported_abs_mt_slot (set_last_event_time (time w) s))
      with (unsupported_abs_mt_slot s);
    rewrite andb_false_r, Hu; reflexivity.
Qed.

(** Button, tracking-id and foreign events only stamp the time and the
    tracking id. *)
Lemma listen_passive w e s :
  unsupported_abs_mt_slot s = false ->
  is_btn_tool e = false ->
  matches e ABS_MT_SLOT = false ->
  matches e MSC_TIMESTAMP = false ->
  matches e ABS_MT_POSITION_X = false ->
  matches e ABS_MT_POSITION_Y = false ->
  listen_touchpad_events cfg w e s = Ok (set_last_event_time (time w) s)
  \/ listen_touchpad_events cfg w e s
     = Ok (set_tracking_id (ev_value e) (set_last_event_time (time w) s)).
Proof.
  intros Hu Hb Hs Ht Hx Hy. destruct e as [c v]. unfold listen_touchpad_events.
  destruct c; try discriminate;
    cbn [matches ev_code ev_value raw_code_eqb is_btn_tool orb];
    change (unsupported_abs_mt_slot (set_last_event_time (time w) s))
      with (unsupported_abs_mt_slot s);
    rewrite ?andb_false_r, ?Hu; cbn [bind];
    try (left; reflexivity); try (right; reflexivity);
    destruct (numlock _ && _ && true); rewrite ?Hu; left; reflexivity.
Qed.

End Dispatch.

(** ** The numlock icon held *)

Ltac split_ifs :=
  repeat match goal with
         | |- context [if ?b then _ else _] => destruct b
         | |- context [match list_index ?a ?b with _ => _ end] =>
             destruct (list_index a b)
         end.

Section Hold.

Variable cfg : config.

Lemma top_right_time_local_numlock_pressed w s :
  top_right_icon_touch_start_time (local_numlock_pressed cfg w s)
  = top_right_icon_touch_start_time s.
Proof.
  unfold local_numlock_pressed, activate_numpad, deactivate_numpad,
    send_numlock_key, udev_send.
  split_ifs; reflexivity.
Qed.

Lemma fst_is_device_enabled w s s' :
  fst (is_device_enabled w s) = fst (is_device_enabled w s').
Proof. unfold is_device_enabled. destruct (xinput w); reflexivity. Qed.

Lemma numlock_is_device_enabled w s : numlock (snd (is_device_enabled w s)) = numlock s.
Proof. unfold is_device_enabled. destruct (xinput w); reflexivity. Qed.

Lemma top_right_time_is_device_enabled w s :
  top_right_icon_touch_start_time (snd (is_device_enabled w s))
  = top_right_icon_touch_start_time s.
Proof. unfold is_device_enabled. destruct (xinput w); reflexivity. Qed.

Lemma out_is_device_enabled w s :
  out (snd (is_device_enabled w s)) = out s ++ [xinput_list_props].
Proof. unfold is_device_enabled. destruct (xinput w); reflexivity. Qed.

(** With the timer at zero the hold recogniser does not fire. *)
Lemma hold_unarmed w s :
  top_right_icon_touch_start_time s = 0%Q ->
  takes_top_right_icon_touch_longer_then_set_up_activation_time cfg w s = (false, s).
Proof.
  intros H. unfold takes_top_right_icon_touch_longer_then_set_up_activation_time.
  rewrite H. reflexivity.
Qed.

(** Armed, on the pseudo-key and past the activation time, it fires
    and disarms. *)
Lemma hold_fires w s :
  Qis0 (top_right_icon_touch_start_time s) = false ->
  cur_key s = Some (KeyCode KEY_NUMLOCK) ->
  Qltb (top_right_icon_activation_time cfg)
       (time w - top_right_icon_touch_start_time s) = true ->
  takes_top_right_icon_touch_longer_then_set_up_activation_time cfg w s
  = (true, set_top_right_icon_touch_start_time 0 s).
Proof.
  intros H1 H2 H3. unfold takes_top_right_icon_touch_longer_then_set_up_activation_time.
  rewrite H1, H2, H3. reflexivity.
Qed.

(** A contact-down inside the numlock icon arms it again. *)
Lemma hold_rearmed w s :
  top_right_icon_touch_start_time (pressed_touchpad_top_right_icon w 1 s) = time w.
Proof. reflexivity. Qed.

End Hold.

(** C10. A timestamp event arrives while the contact is inside the
    numlock icon, the slot holds the numlock pseudo-key and the hold
    has lasted longer than the activation time.  The handler resets the
    hold timer to zero, queries the touchpad state once, and then: if
    touchpad_disables_numpad is false or the touchpad is reported
    enabled, the toggle runs and the activation flag flips; if the flag
    is set and the touchpad is reported disabled, nothing else happens
    and the activation flag is unchanged.  In both cases the timer is
    zero afterwards, so the recogniser cannot fire again until a new
    contact-down inside the icon sets the timer. *)
Theorem numlock_hold_fires_unless_touchpad_disabled :
  forall (cfg : config) (w : world) (v : Z) (s : state),
    unsupported_abs_mt_slot s = false ->
    is_pressed_touchpad_top_right_icon cfg s = true ->
    Qis0 (top_right_icon_touch_start_time s) = false ->
    cur_key s = Some (KeyCode KEY_NUMLOCK) ->
    Qltb (top_right_icon_activation_time cfg)
         (time w - top_right_icon_touch_start_time s) = true ->
    let queried :=
      snd (is_device_enabled w
             (set_top_right_icon_touch_start_time 0
                (set_last_event_time (time w) s))) in
    let enabled := fst (is_device_enabled w s) in
    exists s',
      listen_touchpad_events cfg w (ev MSC_TIMESTAMP v) s = Ok s'
      /\ (touchpad_disables_numpad cfg = false \/ enabled = true ->
          s' = local_numlock_pressed cfg w queried
          /\ numlock s' = negb (numlock s))
      /\ (touchpad_disables_numpad cfg = true -> enabled = false ->
          s' = queried
          /\ numlock s' = numlock s
          /\ out s' = out s ++ [xinput_list_props])
      /\ (numlock s' <> numlock s ->
          touchpad_disables_numpad cfg = false \/ enabled = true)
      /\ top_right_icon_touch_start_time s' = 0%Q
      /\ (forall w', takes_top_right_icon_touch_longer_then_set_up_activation_time
                       cfg w' s' = (false, s')).
Proof.
  intros cfg w v s Hu Hicon Harmed Hkey Hlong queried enabled.
  rewrite listen_timestamp by exact Hu.
  unfold on_timestamp.
  change (is_pressed_touchpad_top_right_icon cfg (set_last_event_time (time w) s))
    with (is_pressed_touchpad_top_right_icon cfg s).
  rewrite Hicon.
  rewrite (hold_fires cfg w (set_last_event_time (time w) s) Harmed Hkey Hlong).
  assert (Hen : fst (is_device_enabled w
                       (set_top_right_icon_touch_start_time 0
                          (set_last_event_time (time w) s))) = enabled)
    by apply fst_is_device_enabled.
  assert (Hq : numlock queried = numlock s)
    by (unfold queried; rewrite numlock_is_device_enabled; reflexivity).
  assert (Hqt : top_right_icon_touch_start_time queried = 0%Q)
    by (unfold queried; rewrite top_right_time_is_device_enabled; reflexivity).
  assert (Hqo : out queried = out s ++ [xinput_list_props])
    by (unfold queried; rewrite out_is_device_enabled; reflexivity).
  fold queried.
  destruct (is_device_enabled w
              (set_top_right_icon_touch_start_time 0
                 (set_last_event_time (time w) s))) as [en s2] eqn:Hd.
  cbn [fst snd] in *. subst en. subst queried. cbn [snd] in *.
  destruct (touchpad_disables_numpad cfg) eqn:Hflag; destruct enabled eqn:Henabled;
    cbn [andb orb negb bind]; eexists; (split; [reflexivity|]).
  - (* flag set, enabled: the toggle runs *)
    split; [intros _; split; [reflexivity|]|].
    { rewrite numlock_local_numlock_pressed. now rewrite Hq. }
    split; [intros _ H; discriminate H|].
    split; [intros _; right; reflexivity|].
    assert (Ht : top_right_icon_touch_start_time (local_numlock_pressed cfg w s2) = 0%Q)
      by (rewrite top_right_time_local_numlock_pressed; exact Hqt).
    split; [exact Ht|]. intros w'. now apply hold_unarmed.
  - (* flag set, disabled: nothing fires *)
    split; [intros [H|H]; discriminate H|].
    split; [intros _ _; repeat split; assumption|].
    split; [intros H; congruence|].
    split; [exact Hqt|]. intros w'. now apply hold_unarmed.
  - split; [intros _; split; [reflexivity|]|].
    { rewrite numlock_local_numlock_pressed. now rewrite Hq. }
    split; [intros H; discriminate H|].
    split; [intros _; left; reflexivity|].
    assert (Ht : top_right_icon_touch_start_time (local_numlock_pressed cfg w s2) = 0%Q)
      by (rewrite top_right_time_local_numlock_pressed; exact Hqt).
    split; [exact Ht|]. intros w'. now apply hold_unarmed.
  - split; [intros _; split; [reflexivity|]|].
    { rewrite numlock_local_numlock_pressed. now rewrite Hq. }
    split; [intros H; discriminate H|].
    split; [intros _; left; reflexivity|].
    assert (Ht : top_right_icon_touch_start_time (local_numlock_pressed cfg w s2) = 0%Q)
      by (rewrite top_right_time_local_numlock_pressed; exact Hqt).
    split; [exact Ht|]. intros w'. now apply hold_unarmed.
Qed.

(** The hold reaches its time at clock 12 while xinput reports the
    touchpad disabled: no toggle, timer back to zero. *)
Lemma numlock_hold_fires_unless_touchpad_disabled_witness :
  exists s',
    listen_touchpad_events (sample_layout false false) (touchpad_off 12)
      (ev MSC_TIMESTAMP 0) holding_numlock_icon = Ok s'
    /\ numlock s' = numlock holding_numlock_icon
    /\ out s' = out holding_numlock_icon ++ [xinput_list_props]
    /\ top_right_icon_touch_start_time s' = 0%Q.
Proof.
  destruct (numlock_hold_fires_unless_touchpad_disabled
              (sample_layout false false) (touchpad_off 12) 0 holding_numlock_icon
              eq_refl eq_refl eq_refl eq_refl eq_refl)
    as (s' & H1 & _ & H3 & _ & H5 & _).
  exists s'. destruct (H3 eq_refl eq_refl) as (_ & H6 & H7).
  split; [exact H1|]. split; [exact H6|]. split; [exact H7|exact H5].
Defined.

(** ** Moving a held contact *)

Section Rotation.

Variable cfg : config.

Lemma get_touched_key_ext (s s' : state) :
  cur_x s = cur_x s' -> cur_y s = cur_y s' ->
  get_touched_key cfg s = get_touched_key cfg s'.
Proof. intros Hx Hy. unfold get_touched_key. now rewrite Hx, Hy. Qed.

Lemma out_emit e s : out (emit e s) = out s ++ [e].
Proof. reflexivity. Qed.

(** The replace operation on a held key code. *)
Lemma moved_to_another_key_replaces (w : world) (s : state) (a b : positive) :
  wf s -> numlock s = true -> one_touch_key_rotation cfg = true ->
  send_raises w = false ->
  cur_key s = Some (KeyCode a) ->
  a <> KEY_CALC -> a <> KEY_NUMLOCK -> a <> b ->
  get_touched_key cfg s = Ok (Some (KeyCode b)) ->
  exists s',
    is_not_finger_moved_to_another_key cfg w s = Ok s'
    /\ cur_key s' = Some (KeyCode b)
    /\ out s' = out s
                ++ [ send_events [mkInputEvent (EV_KEY a) 0; mkInputEvent SYN_REPORT 0];
                     send_events [mkInputEvent (EV_KEY b) 1; mkInputEvent SYN_REPORT 0] ].
Proof.
  intros Hwf Hn Hrot Hsend Hkey Hc Hl Hab Hnow.
  unfold is_not_finger_moved_to_another_key.
  rewrite Hkey. cbn [numpad_key_eqb].
  apply Pos.eqb_neq in Hc. apply Pos.eqb_neq in Hl. rewrite Hc, Hl, Hn, Hnow.
  cbn [bind option_key_eqb numpad_key_eqb].
  assert (Hba : Pos.eqb b a = false) by (apply Pos.eqb_neq; congruence).
  rewrite Hba, Hrot. cbn [negb].
  unfold replaced_numpad_key, unpressed_numpad_key.
  rewrite Hkey. cbn [truthy]. unfold udev_send. rewrite Hsend.
  set (s1 := emit (send_events _) s).
  assert (Hwf1 : wf s1) by (eapply same_shape_wf; [apply shape_emit|exact Hwf]).
  unfold pressed_numpad_key. rewrite (cur_key_set_cur_key _ _ Hwf1).
  unfold udev_send. rewrite Hsend. eexists. split; [reflexivity|].
  split.
  - change (cur_key (set_cur_key (Some (KeyCode b)) s1) = Some (KeyCode b)).
    now apply cur_key_set_cur_key.
  - simpl. rewrite <- app_assoc. reflexivity.
Qed.

Lemma never_both_down_replace (a b : positive) :
  a <> b ->
  never_both_down a b [a]
    [ mkInputEvent (EV_KEY a) 0; mkInputEvent SYN_REPORT 0;
      mkInputEvent (EV_KEY b) 1; mkInputEvent SYN_REPORT 0 ] = true.
Proof.
  intros Hab.
  assert (Hab' : Pos.eqb a b = false) by (apply Pos.eqb_neq; congruence).
  assert (Hba : Pos.eqb b a = false) by (apply Pos.eqb_neq; congruence).
  cbn. rewrite ?Pos.eqb_refl, ?Hab', ?Hba. cbn.
  unfold both_down. cbn [existsb]. rewrite ?Pos.eqb_refl, ?Hab', ?Hba.
  reflexivity.
Qed.

End Rotation.

(** C5. With one-touch key rotation enabled and the numpad active, a
    position event (x or y) that takes a contact holding key code [a]
    to a cell with another key code [b] emits the release of [a] and
    then the press of [b], in that order and nothing else, and leaves
    [b] assigned to the slot; replayed from "[a] is down", the emitted
    events never have [a] and [b] down together. *)
Theorem rotation_releases_old_key_before_pressing_new :
  forall (cfg : config) (w : world) (v : Z) (s : state) (a b : positive),
    wf s -> unsupported_abs_mt_slot s = false -> numlock s = true ->
    one_touch_key_rotation cfg = true -> send_raises w = false ->
    cur_key s = Some (KeyCode a) ->
    a <> KEY_CALC -> a <> KEY_NUMLOCK -> a <> b ->
    let released := [mkInputEvent (EV_KEY a) 0; mkInputEvent SYN_REPORT 0] in
    let pressed := [mkInputEvent (EV_KEY b) 1; mkInputEvent SYN_REPORT 0] in
    (get_touched_key cfg (set_cur_x v s) = Ok (Some (KeyCode b)) ->
     exists s',
       listen_touchpad_events cfg w (ev ABS_MT_POSITION_X v) s = Ok s'
       /\ cur_key s' = Some (KeyCode b)
       /\ out s' = out s ++ [send_events released; send_events pressed])
    /\ (get_touched_key cfg (set_cur_y v s) = Ok (Some (KeyCode b)) ->
        exists s',
          listen_touchpad_events cfg w (ev ABS_MT_POSITION_Y v) s = Ok s'
          /\ cur_key s' = Some (KeyCode b)
          /\ out s' = out s ++ [send_events released; send_events pressed])
    /\ never_both_down a b [a] (released ++ pressed) = true.
Proof.
  intros cfg w v s a b Hwf Hu Hn Hrot Hsend Hkey Hc Hl Hab released pressed.
  split; [|split].
  - intros Hnow. rewrite listen_position_x by exact Hu.
    assert (Hwf1 : wf (set_cur_x v (set_last_event_time (time w) s))).
    { eapply same_shape_wf; [|exact Hwf].
      eapply same_shape_trans; [apply shape_set_last_event_time|apply shape_set_cur_x]. }
    assert (Hnow1 : get_touched_key cfg (set_cur_x v (set_last_event_time (time w) s))
                    = Ok (Some (KeyCode b))).
    { rewrite <- Hnow. apply get_touched_key_ext; reflexivity. }
    exact (moved_to_another_key_replaces cfg w _ a b Hwf1 Hn Hrot Hsend Hkey
             Hc Hl Hab Hnow1).
  - intros Hnow. rewrite listen_position_y by exact Hu.
    assert (Hwf1 : wf (set_cur_y v (set_last_event_time (time w) s))).
    { eapply same_shape_wf; [|exact Hwf].
      eapply same_shape_trans; [apply shape_set_last_event_time|apply shape_set_cur_y]. }
    assert (Hnow1 : get_touched_key cfg (set_cur_y v (set_last_event_time (time w) s))
                    = Ok (Some (KeyCode b))).
    { rewrite <- Hnow. apply get_touched_key_ext; reflexivity. }
    exact (moved_to_another_key_replaces cfg w _ a b Hwf1 Hn Hrot Hsend Hkey
             Hc Hl Hab Hnow1).
  - now apply never_both_down_replace.
Qed.

(** The finger on KEY_KP5 slides to the right onto KEY_KP6 = 77. *)
Lemma rotation_releases_old_key_before_pressing_new_witness :
  exists s',
    listen_touchpad_events (sample_layout true true) (calm 15 true)
      (ev ABS_MT_POSITION_X 250) holding_a_key = Ok s'
    /\ cur_key s' = Some (KeyCode 77)
    /\ out s' = out holding_a_key
                ++ [ send_events [mkInputEvent (EV_KEY 76) 0; mkInputEvent SYN_REPORT 0];
                     send_events [mkInputEvent (EV_KEY 77) 1; mkInputEvent SYN_REPORT 0] ].
Proof.
  assert (Hwf : wf holding_a_key).
  { unfold wf. cbv. repeat split; try reflexivity; repeat constructor. }
  apply (proj1 (rotation_releases_old_key_before_pressing_new
                  (sample_layout true true) (calm 15 true) 250 holding_a_key 76 77
                  Hwf eq_refl eq_refl eq_refl eq_refl eq_refl
                  ltac:(discriminate) ltac:(discriminate) ltac:(discriminate))).
  reflexivity.
Defined.

(** ** Quiet steps *)

Lemma quiet_refl s : quiet s s.
Proof.
  repeat split; auto. exists []. split; [now rewrite app_nil_r|constructor].
Qed.

Lemma quiet_trans s1 s2 s3 : quiet s1 s2 -> quiet s2 s3 -> quiet s1 s3.
Proof.
  intros (a1 & a2 & a3 & a4 & n1 & a5 & a6) (b1 & b2 & b3 & b4 & n2 & b5 & b6).
  split; [eapply same_shape_trans; eassumption|].
  split; [congruence|]. split; [auto|].
  split.
  - intros Hwf Hk. apply b4; [eapply same_shape_wf; eassumption|auto].
  - exists (n1 ++ n2). split.
    + rewrite b5, a5. now rewrite app_assoc.
    + apply Forall_app. split; assumption.
Qed.

(** A step that changes neither the log, the assigned keys, the cursor
    flag nor the brightness is quiet. *)
Lemma quiet_frame s s' :
  same_shape s s' ->
  unsupported_abs_mt_slot s' = unsupported_abs_mt_slot s ->
  brightness s' = brightness s ->
  cur_key s' = cur_key s ->
  out s' = out s ->
  quiet s s'.
Proof.
  intros H1 H2 H3 H4 H5. split; [exact H1|]. split; [exact H2|].
  split; [rewrite H3; auto|]. split; [rewrite H4; auto|].
  exists []. split; [now rewrite app_nil_r|constructor].
Qed.

Lemma quiet_emit e s : only_host_numlock e -> quiet s (emit e s).
Proof.
  intros He. split; [apply shape_emit|]. split; [reflexivity|].
  split; [auto|]. split; [auto|].
  exists [e]. split; [reflexivity|]. constructor; [exact He|constructor].
Qed.

Lemma quiet_set_brightness b s : -1 <= b -> quiet s (set_brightness b s).
Proof.
  intros Hb. split; [apply shape_set_brightness|]. split; [reflexivity|].
  split; [auto|]. split; [auto|].
  exists []. split; [now rewrite app_nil_r|constructor].
Qed.

Lemma quiet_set_none s : quiet s (set_none_to_current_mt_slot s).
Proof.
  split; [apply shape_set_none|]. split; [reflexivity|].
  split; [auto|]. split.
  - intros Hwf _. left. now apply cur_key_set_none.
  - exists []. split; [now rewrite app_nil_r|constructor].
Qed.

Lemma quiet_send_numlock_key w v s : quiet s (send_numlock_key w v s).
Proof.
  unfold send_numlock_key, udev_send. destruct (send_raises w); [apply quiet_refl|].
  apply quiet_emit. simpl. now exists v.
Qed.

Lemma list_index_nonneg v l i : list_index v l = Some i -> 0 <= i.
Proof.
  revert i; induction l as [|h t IH]; intros i; simpl; [discriminate|].
  destruct (String.eqb h v); [intros [= <-]; lia|].
  destruct (list_index v t) as [j|]; [|discriminate].
  intros [= <-]. specialize (IH j eq_refl). lia.
Qed.

Section Quiet.

Variable cfg : config.

Lemma quiet_deactivate w s : quiet s (deactivate_numpad w s).
Proof.
  unfold deactivate_numpad. destruct (ungrab_raises w); [apply quiet_refl|].
  destruct (call_raises w); [now apply quiet_emit|].
  eapply quiet_trans; [now apply (quiet_emit ungrab)|].
  eapply quiet_trans; [now apply (quiet_emit (i2ctransfer "0x00"))|].
  apply quiet_set_brightness. lia.
Qed.

Lemma quiet_activate w s : quiet s (activate_numpad cfg w s).
Proof.
  unfold activate_numpad. destruct (grab_raises w); [apply quiet_refl|].
  destruct (call_raises w); [now apply quiet_emit|].
  assert (Hidx : forall s0, quiet s0
            match list_index (default_backlight_level cfg) (backlight_levels cfg) with
            | Some i => set_brightness i s0
            | None => set_brightness (-1) s0
            end).
  { intros s0. destruct (list_index _ _) as [i|] eqn:Hi.
    - apply quiet_set_brightness. apply list_index_nonneg in Hi. lia.
    - apply quiet_set_brightness. lia. }
  eapply quiet_trans; [now apply (quiet_emit grab)|].
  eapply quiet_trans; [now apply (quiet_emit (i2ctransfer "0x01"))|].
  destruct (String.eqb (default_backlight_level cfg) "0x01"); [apply Hidx|].
  eapply quiet_trans; [|apply Hidx]. now apply quiet_emit.
Qed.

Lemma quiet_set_numlock b s : quiet s (set_numlock b s).
Proof. apply quiet_frame; try reflexivity. apply shape_set_numlock. Qed.

Lemma quiet_toggled w s : quiet s (toggled cfg w s).
Proof.
  unfold toggled. destruct (negb (numlock s)).
  - eapply quiet_trans; [|apply quiet_activate].
    destruct (negb (sys_numlock w)); [|apply quiet_set_numlock].
    eapply quiet_trans; [apply quiet_set_numlock|].
    eapply quiet_trans; apply quiet_send_numlock_key.
  - eapply quiet_trans; [|apply quiet_deactivate].
    destruct (sys_numlock w); [|apply quiet_set_numlock].
    eapply quiet_trans; [apply quiet_set_numlock|].
    eapply quiet_trans; apply quiet_send_numlock_key.
Qed.

Lemma quiet_local_numlock_pressed w s : quiet s (local_numlock_pressed cfg w s).
Proof.
  rewrite local_numlock_pressed_toggled.
  eapply quiet_trans; [apply quiet_toggled|apply quiet_set_none].
Qed.

Lemma quiet_is_device_enabled w s : quiet s (snd (is_device_enabled w s)).
Proof.
  unfold is_device_enabled.
  assert (Hq : quiet s (emit xinput_list_props
                          (set_getting_device_status_failure_count 0 s))).
  { eapply quiet_trans; [|now apply quiet_emit].
    apply quiet_frame; try reflexivity. apply shape_set_failure_count. }
  destruct (xinput w); cbn [snd]; try exact Hq;
    (eapply quiet_trans; [exact Hq|]);
    apply quiet_frame; try reflexivity; apply shape_set_failure_count.
Qed.

Lemma quiet_increase_brightness w s :
  (0 < length (backlight_levels cfg))%nat -> -1 <= brightness s ->
  exists s', increase_brightness cfg w s = Ok s' /\ quiet s s'.
Proof.
  intros Hlen Hb. unfold increase_brightness.
  set (n := Z.of_nat (length (backlight_levels cfg))).
  set (b := if n <=? brightness s + 1 then 0 else brightness s + 1).
  assert (Hrange : 0 <= b < n).
  { unfold b. destruct (Z.leb_spec n (brightness s + 1)); unfold n in *; lia. }
  unfold py_index. destruct (Z.leb_spec 0 b) as [_|Hneg]; [|lia].
  destruct (nth_error (backlight_levels cfg) (Z.to_nat b)) as [level|] eqn:Hl.
  2:{ apply nth_error_None in Hl. unfold n in Hrange. lia. }
  eexists. split; [reflexivity|].
  eapply quiet_trans; [apply (quiet_set_brightness b); lia|].
  eapply quiet_trans; [now apply (quiet_emit (config_write level))|].
  unfold subprocess_call. destruct (call_raises w); [apply quiet_refl|].
  now apply quiet_emit.
Qed.

End Quiet.

(** ** Events of a contact that do not press or release it *)

Lemma shape_set_tracking_id v s : same_shape s (set_tracking_id v s).
Proof. unfold set_tracking_id. shape. Qed.

Section IconContact.

Variable cfg : config.

Lemma quiet_takes_top_left w s :
  quiet s (snd (takes_top_left_icon_touch_longer_then_set_up_activation_time cfg w s)).
Proof.
  unfold takes_top_left_icon_touch_longer_then_set_up_activation_time.
  destruct (Qis0 _); [apply quiet_refl|].
  destruct (_ && _); cbn [snd]; [|apply quiet_refl].
  apply quiet_frame; try reflexivity. apply shape_set_top_left.
Qed.

Lemma quiet_takes_top_right w s :
  quiet s (snd (takes_top_right_icon_touch_longer_then_set_up_activation_time cfg w s)).
Proof.
  unfold takes_top_right_icon_touch_longer_then_set_up_activation_time.
  destruct (Qis0 _); [apply quiet_refl|].
  destruct (_ && _); cbn [snd]; [|apply quiet_refl].
  apply quiet_frame; try reflexivity. apply shape_set_top_right.
Qed.

Lemma quiet_on_timestamp_top_left w s :
  -1 <= brightness s ->
  exists f, on_timestamp_top_left cfg w s = Ok f /\ quiet s (flow_state f).
Proof.
  intros Hb. unfold on_timestamp_top_left.
  destruct (numlock s && is_pressed_touchpad_top_left_icon cfg s).
  2:{ eexists. split; [reflexivity|apply quiet_refl]. }
  pose proof (quiet_takes_top_left w s) as Hq.
  destruct (takes_top_left_icon_touch_longer_then_set_up_activation_time cfg w s)
    as [longer s1]. cbn [snd] in Hq.
  destruct (longer && (0 <? Z.of_nat (length (backlight_levels cfg)))
            && negb (top_left_icon_brightness_func_disabled cfg)) eqn:Hc.
  2:{ eexists. split; [reflexivity|exact Hq]. }
  apply andb_prop in Hc. destruct Hc as [Hc _].
  apply andb_prop in Hc. destruct Hc as [_ Hlen]. apply Z.ltb_lt in Hlen.
  assert (Hb1 : -1 <= brightness s1) by (destruct Hq as (_ & _ & H & _); auto).
  destruct (quiet_increase_brightness cfg w s1 ltac:(lia) Hb1) as (s2 & E & Hq2).
  rewrite E. cbn [bind]. eexists. split; [reflexivity|].
  eapply quiet_trans; eassumption.
Qed.

Lemma quiet_on_timestamp w s :
  -1 <= brightness s ->
  exists f, on_timestamp cfg w s = Ok f /\ quiet s (flow_state f).
Proof.
  intros Hb. unfold on_timestamp.
  destruct (is_pressed_touchpad_top_right_icon cfg s);
    [|now apply quiet_on_timestamp_top_left].
  pose proof (quiet_takes_top_right w s) as Hq.
  destruct (takes_top_right_icon_touch_longer_then_set_up_activation_time cfg w s)
    as [longer s1]. cbn [snd] in Hq.
  assert (Hb1 : -1 <= brightness s1) by (destruct Hq as (_ & _ & H & _); auto).
  destruct longer.
  - pose proof (quiet_is_device_enabled w s1) as Hq2.
    destruct (is_device_enabled w s1) as [en s2]. cbn [snd] in Hq2.
    destruct (en && touchpad_disables_numpad cfg || negb (touchpad_disables_numpad cfg));
      eexists; (split; [reflexivity|]); cbn [flow_state].
    + eapply quiet_trans; [exact Hq|].
      eapply quiet_trans; [exact Hq2|apply quiet_local_numlock_pressed].
    + eapply quiet_trans; eassumption.
  - destruct (quiet_on_timestamp_top_left w s1 Hb1) as (f & E & Hq2).
    exists f. split; [exact E|]. eapply quiet_trans; eassumption.
Qed.

(** With nothing or a pseudo-key assigned, a move does nothing. *)
Lemma moved_with_pseudo_key w s :
  pseudo_or_none (cur_key s) ->
  is_not_finger_moved_to_another_key cfg w s = Ok s.
Proof.
  intros [H|[H|H]]; unfold is_not_finger_moved_to_another_key; rewrite H; reflexivity.
Qed.

(** Every event other than a contact transition or a slot selection
    is handled without raising and is quiet, when the current slot
    holds nothing or a pseudo-key. *)
Lemma quiet_listen w e s :
  unsupported_abs_mt_slot s = false ->
  -1 <= brightness s ->
  pseudo_or_none (cur_key s) ->
  contact_or_slot_event e = false ->
  exists s', listen_touchpad_events cfg w e s = Ok s' /\ quiet s s'.
Proof.
  intros Hu Hb Hk He.
  assert (Hq0 : quiet s (set_last_event_time (time w) s)).
  { apply quiet_frame; try reflexivity. apply shape_set_last_event_time. }
  unfold contact_or_slot_event in He. apply orb_false_elim in He.
  destruct He as [Hbtn Hslot].
  destruct (matches e MSC_TIMESTAMP) eqn:Ht;
    [|destruct (matches e ABS_MT_POSITION_X) eqn:Hx;
      [|destruct (matches e ABS_MT_POSITION_Y) eqn:Hy]].
  - destruct e as [c v]. destruct c; try discriminate Ht.
    pose proof (listen_timestamp cfg w v s Hu) as E. unfold ev in E. rewrite E.
    destruct (quiet_on_timestamp w (set_last_event_time (time w) s) Hb)
      as (f & Ef & Hq).
    rewrite Ef. cbn [bind]. exists (flow_state f).
    split; [destruct f; reflexivity|]. exact (quiet_trans _ _ _ Hq0 Hq).
  - destruct e as [c v]. destruct c; try discriminate Hx.
    pose proof (listen_position_x cfg w v s Hu) as E. unfold ev in E. rewrite E.
    rewrite moved_with_pseudo_key by exact Hk.
    eexists. split; [reflexivity|].
    eapply quiet_trans; [exact Hq0|].
    apply quiet_frame; try reflexivity. apply shape_set_cur_x.
  - destruct e as [c v]. destruct c; try discriminate Hy.
    pose proof (listen_position_y cfg w v s Hu) as E. unfold ev in E. rewrite E.
    rewrite moved_with_pseudo_key by exact Hk.
    eexists. split; [reflexivity|].
    eapply quiet_trans; [exact Hq0|].
    apply quiet_frame; try reflexivity. apply shape_set_cur_y.
  - destruct (listen_passive cfg w e s Hu Hbtn Hslot Ht Hx Hy) as [E|E];
      rewrite E; eexists; (split; [reflexivity|]); [exact Hq0|].
    eapply quiet_trans; [exact Hq0|].
    apply quiet_frame; try reflexivity. apply shape_set_tracking_id.
Qed.

(** The same over a run of such events. *)
Lemma quiet_run (evs : list (world * raw_event)) (s : state) :
  wf s ->
  unsupported_abs_mt_slot s = false ->
  -1 <= brightness s ->
  pseudo_or_none (cur_key s) ->
  Forall (fun we => contact_or_slot_event (snd we) = false) evs ->
  exists s', run cfg evs s = Ok s' /\ quiet s s'.
Proof.
  revert s; induction evs as [|[w e] evs IH]; intros s Hwf Hu Hb Hk Hall.
  - exists s. split; [reflexivity|apply quiet_refl].
  - inversion Hall as [|? ? He Hrest]; subst. cbn [snd] in He.
    destruct (quiet_listen w e s Hu Hb Hk He) as (s1 & E1 & Hq1).
    pose proof Hq1 as (Hs1 & Hu1 & Hb1 & Hk1 & _).
    destruct (IH s1) as (s2 & E2 & Hq2); auto.
    + eapply same_shape_wf; eassumption.
    + congruence.
    + exists s2. cbn [run]. rewrite E1. cbn [bind]. split; [exact E2|].
      eapply quiet_trans; eassumption.
Qed.

End IconContact.

(** C2. A contact comes down on a supported slot while its position is
    inside the numlock-icon or the brightness-icon rectangle.  The
    contact-down writes nothing to the virtual device and assigns the
    icon's pseudo-key to the slot.  Through every following run of
    events that holds no contact transition and no slot selection
    (moves, timestamps, tracking ids, buttons), wherever the contact
    moves, the loop does not raise, the slot holds nothing or a
    pseudo-key and never a grid key, and every write to the virtual
    device is the host numlock key of the toggle, never a grid key. *)
Theorem icon_contact_never_reaches_the_grid :
  forall (cfg : config) (w : world) (e : raw_event) (s : state)
         (rest : list (world * raw_event)),
    wf s -> unsupported_abs_mt_slot s = false -> -1 <= brightness s ->
    is_btn_tool e = true -> ev_value e = 1 ->
    is_pressed_touchpad_top_right_icon cfg s
    || is_pressed_touchpad_top_left_icon cfg s = true ->
    Forall (fun we => contact_or_slot_event (snd we) = false) rest ->
    exists s1 s2,
      listen_touchpad_events cfg w e s = Ok s1
      /\ out s1 = out s
      /\ (cur_key s1 = Some (KeyCode KEY_NUMLOCK) \/ cur_key s1 = Some (KeyCode KEY_CALC))
      /\ run cfg rest s1 = Ok s2
      /\ pseudo_or_none (cur_key s2)
      /\ exists new, out s2 = out s ++ new /\ Forall only_host_numlock new.
Proof.
  intros cfg w e s rest Hwf Hu Hb He Hv Hicon Hrest.
  rewrite listen_btn_tool by assumption. rewrite Hv.
  set (s0 := set_last_event_time (time w) s).
  assert (Hwf0 : wf s0)
    by (eapply same_shape_wf; [apply shape_set_last_event_time|exact Hwf]).
  assert (Hdown : exists s1,
             on_btn_tool cfg w 1 s0 = Ok s1
             /\ wf s1 /\ out s1 = out s
             /\ unsupported_abs_mt_slot s1 = false /\ -1 <= brightness s1
             /\ (cur_key s1 = Some (KeyCode KEY_NUMLOCK)
                 \/ cur_key s1 = Some (KeyCode KEY_CALC))).
  { unfold on_btn_tool.
    change (is_pressed_touchpad_top_right_icon cfg s0)
      with (is_pressed_touchpad_top_right_icon cfg s).
    change (is_pressed_touchpad_top_left_icon cfg s0)
      with (is_pressed_touchpad_top_left_icon cfg s).
    destruct (is_pressed_touchpad_top_right_icon cfg s).
    - eexists. split; [reflexivity|].
      unfold pressed_touchpad_top_right_icon. cbn [Z.eqb Pos.eqb].
      split; [|split; [reflexivity|split; [exact Hu|split; [exact Hb|]]]].
      + eapply same_shape_wf; [|exact Hwf0].
        eapply same_shape_trans; [apply shape_set_top_right|apply shape_set_cur_key].
      + left. apply cur_key_set_cur_key.
        eapply same_shape_wf; [apply shape_set_top_right|exact Hwf0].
    - cbn [orb] in Hicon. rewrite Hicon.
      eexists. split; [reflexivity|].
      unfold pressed_touchpad_top_left_icon. cbn [Z.eqb Pos.eqb].
      split; [|split; [reflexivity|split; [exact Hu|split; [exact Hb|]]]].
      + eapply same_shape_wf; [|exact Hwf0].
        eapply same_shape_trans; [apply shape_set_top_left|apply shape_set_cur_key].
      + right. apply cur_key_set_cur_key.
        eapply same_shape_wf; [apply shape_set_top_left|exact Hwf0]. }
  destruct Hdown as (s1 & E1 & Hwf1 & Ho1 & Hu1 & Hb1 & Hk1).
  assert (Hp1 : pseudo_or_none (cur_key s1))
    by (destruct Hk1 as [H|H]; rewrite H; [right; left|right; right]; reflexivity).
  destruct (quiet_run cfg rest s1 Hwf1 Hu1 Hb1 Hp1 Hrest)
    as (s2 & E2 & _ & _ & _ & Hk2 & new & Ho2 & Hnew).
  exists s1, s2. split; [exact E1|]. split; [exact Ho1|]. split; [exact Hk1|].
  split; [exact E2|]. split; [now apply Hk2|].
  exists new. split; [now rewrite Ho2, Ho1|exact Hnew].
Qed.

(** The finger comes down on the numlock icon of the sample layout,
    holds it until the numpad is switched on, then slides into the
    grid. *)
Lemma icon_contact_never_reaches_the_grid_witness :
  exists s1 s2,
    listen_touchpad_events (sample_layout true true) (calm 10 false)
      (ev BTN_TOOL_FINGER 1) (at_position 280 20 initial_state) = Ok s1
    /\ out s1 = out (at_position 280 20 initial_state)
    /\ (cur_key s1 = Some (KeyCode KEY_NUMLOCK) \/ cur_key s1 = Some (KeyCode KEY_CALC))
    /\ run (sample_layout true true)
         [ (calm 12 false, ev MSC_TIMESTAMP 0);
           (calm 13 true, ev ABS_MT_POSITION_X 150);
           (calm 13 true, ev ABS_MT_POSITION_Y 250);
           (calm 14 true, ev MSC_TIMESTAMP 0) ] s1 = Ok s2
    /\ pseudo_or_none (cur_key s2)
    /\ exists new, out s2 = out (at_position 280 20 initial_state) ++ new
                   /\ Forall only_host_numlock new.
Proof.
  apply icon_contact_never_reaches_the_grid.
  - unfold wf. cbv. repeat split; try reflexivity; repeat constructor.
  - reflexivity.
  - simpl. lia.
  - reflexivity.
  - reflexivity.
  - reflexivity.
  - repeat constructor.
Defined.

(** ** Taps *)

Lemma run_app cfg (l1 l2 : list (world * raw_event)) (s : state) :
  run cfg (l1 ++ l2) s = (s' <- run cfg l1 s ;; run cfg l2 s').
Proof.
  revert s; induction l1 as [|[w e] l1 IH]; intros s; cbn [run app bind].
  - reflexivity.
  - destruct (listen_touchpad_events cfg w e s) as [s1|x]; cbn [bind]; auto.
Qed.

Lemma emitted_app (l1 l2 : list effect) : emitted (l1 ++ l2) = emitted l1 ++ emitted l2.
Proof. unfold emitted. apply flat_map_app. Qed.

Lemma count_down_app k l1 l2 :
  count_down k (l1 ++ l2) = (count_down k l1 + count_down k l2)%nat.
Proof. unfold count_down. now rewrite filter_app, length_app. Qed.

Lemma count_up_app k l1 l2 :
  count_up k (l1 ++ l2) = (count_up k l1 + count_up k l2)%nat.
Proof. unfold count_up. now rewrite filter_app, length_app. Qed.

(** One press and one release of [k0] are balanced for every key. *)
Lemma press_release_balanced (k0 k : positive) :
  count_down k (emitted [key_down k0; key_up k0])
  = count_up k (emitted [key_down k0; key_up k0]).
Proof.
  unfold count_down, count_up, emitted, key_down, key_up, is_key_event. simpl.
  destruct (Pos.eqb k0 k); reflexivity.
Qed.

Section Taps.

Variable cfg : config.

Lemma cur_x_set_cur_x v s : wf s -> cur_x (set_cur_x v s) = v.
Proof.
  intros (H1 & _ & _ & H4 & _). unfold cur_x, set_cur_x. simpl.
  apply nth_list_set_same. lia.
Qed.

Lemma cur_y_set_cur_y v s : wf s -> cur_y (set_cur_y v s) = v.
Proof.
  intros (H1 & _ & _ & _ & H5). unfold cur_y, set_cur_y. simpl.
  apply nth_list_set_same. lia.
Qed.

Lemma top_right_icon_ext s s' :
  cur_x s = cur_x s' -> cur_y s = cur_y s' ->
  is_pressed_touchpad_top_right_icon cfg s = is_pressed_touchpad_top_right_icon cfg s'.
Proof. intros Hx Hy. unfold is_pressed_touchpad_top_right_icon. now rewrite Hx, Hy. Qed.

Lemma top_left_icon_ext s s' :
  cur_x s = cur_x s' -> cur_y s = cur_y s' ->
  is_pressed_touchpad_top_left_icon cfg s = is_pressed_touchpad_top_left_icon cfg s'.
Proof. intros Hx Hy. unfold is_pressed_touchpad_top_left_icon. now rewrite Hx, Hy. Qed.

(** What a successful lookup says about the two quotients and the
    grid. *)
Lemma get_touched_key_Some_inv s key :
  get_touched_key cfg s = Ok (Some key) ->
  exists col row,
    floor_div (cur_x s - minx_numpad cfg) (col_width cfg) = Ok col
    /\ floor_div (cur_y s - miny_numpad cfg) (row_height cfg) = Ok row
    /\ (row <? 0) || (col <? 0) = false
    /\ keys_at cfg row col = Some (Some key).
Proof.
  unfold get_touched_key.
  destruct (floor_div (cur_x s - minx_numpad cfg) (col_width cfg)) as [col|];
    [|discriminate].
  destruct (floor_div (cur_y s - miny_numpad cfg) (row_height cfg)) as [row|];
    [|discriminate].
  cbn [bind]. destruct ((row <? 0) || (col <? 0)) eqn:Hneg; [discriminate|].
  destruct (keys_at cfg row col) as [[k|]|] eqn:Hk; try discriminate.
  intros [= <-]. exists col, row. repeat split; auto.
Qed.

Lemma floor_div_total d width :
  Qis0 width = false -> exists q, floor_div d width = Ok q.
Proof. intros H. unfold floor_div. rewrite H. eexists. reflexivity. Qed.

Lemma floor_div_Ok_width d width q : floor_div d width = Ok q -> Qis0 width = false.
Proof. unfold floor_div. destruct (Qis0 width); [discriminate|reflexivity]. Qed.

(** A tap on a key shows that both cell sizes are non-zero. *)
Lemma tap_on_key_widths t k :
  tap_on_key cfg t k ->
  Qis0 (col_width cfg) = false /\ Qis0 (row_height cfg) = false.
Proof.
  intros (_ & _ & _ & _ & H). apply get_touched_key_Some_inv in H.
  destruct H as (col & row & H1 & H2 & _).
  split; eapply floor_div_Ok_width; eassumption.
Qed.

(** *** Moves with nothing assigned *)

Lemma idle_position_x w v s :
  idle s ->
  exists s', listen_touchpad_events cfg w (ev ABS_MT_POSITION_X v) s = Ok s'
             /\ idle s' /\ cur_x s' = v /\ cur_y s' = cur_y s /\ out s' = out s.
Proof.
  intros (Hwf & Hu & Hn & Hk & Hl & Hr).
  rewrite listen_position_x by exact Hu.
  rewrite moved_with_pseudo_key by (left; exact Hk).
  assert (Hwf0 : wf (set_last_event_time (time w) s))
    by (eapply same_shape_wf; [apply shape_set_last_event_time|exact Hwf]).
  eexists. split; [reflexivity|]. split; [|split; [|split; reflexivity]].
  - split; [|repeat split; assumption].
    eapply same_shape_wf; [apply shape_set_cur_x|exact Hwf0].
  - now apply cur_x_set_cur_x.
Qed.

Lemma idle_position_y w v s :
  idle s ->
  exists s', listen_touchpad_events cfg w (ev ABS_MT_POSITION_Y v) s = Ok s'
             /\ idle s' /\ cur_y s' = v /\ cur_x s' = cur_x s /\ out s' = out s.
Proof.
  intros (Hwf & Hu & Hn & Hk & Hl & Hr).
  rewrite listen_position_y by exact Hu.
  rewrite moved_with_pseudo_key by (left; exact Hk).
  assert (Hwf0 : wf (set_last_event_time (time w) s))
    by (eapply same_shape_wf; [apply shape_set_last_event_time|exact Hwf]).
  eexists. split; [reflexivity|]. split; [|split; [|split; reflexivity]].
  - split; [|repeat split; assumption].
    eapply same_shape_wf; [apply shape_set_cur_y|exact Hwf0].
  - now apply cur_y_set_cur_y.
Qed.

End Taps.

Section Contacts.

Variable cfg : config.

Lemma not_slided_left_unarmed v s :
  Qis0 (top_left_icon_touch_start_time s) = true ->
  is_slided_from_top_left_icon cfg v s = (false, s).
Proof.
  intros H. unfold is_slided_from_top_left_icon.
  destruct (negb (v =? 0)); [reflexivity|]. now rewrite H.
Qed.

Lemma not_slided_right_unarmed v s :
  Qis0 (top_right_icon_touch_start_time s) = true ->
  is_slided_from_top_right_icon cfg v s = (false, s).
Proof.
  intros H. unfold is_slided_from_top_right_icon.
  destruct (negb (v =? 0)); [reflexivity|]. now rewrite H.
Qed.

Lemma inside_rectangle_check x y :
  inside_usable_rectangle cfg x y = true ->
  (x <? minx_numpad cfg) || (maxx_numpad cfg <? x)
  || (y <? miny_numpad cfg) || (maxy_numpad cfg <? y) = false.
Proof.
  unfold inside_usable_rectangle. rewrite !andb_true_iff, !Z.leb_le.
  intros (((H1 & H2) & H3) & H4).
  rewrite !orb_false_iff, !Z.ltb_ge. lia.
Qed.

Lemma cur_x_at_position x y : cur_x (at_position x y initial_state) = x.
Proof. reflexivity. Qed.

Lemma cur_y_at_position x y : cur_y (at_position x y initial_state) = y.
Proof. reflexivity. Qed.

(** What the tap hypotheses say at a state that stands at the tap's
    position. *)
Lemma tap_on_key_at t k s :
  cur_x s = tap_x t -> cur_y s = tap_y t -> tap_on_key cfg t k ->
  is_pressed_touchpad_top_right_icon cfg s = false
  /\ is_pressed_touchpad_top_left_icon cfg s = false
  /\ (cur_x s <? minx_numpad cfg) || (maxx_numpad cfg <? cur_x s)
     || (cur_y s <? miny_numpad cfg) || (maxy_numpad cfg <? cur_y s) = false
  /\ exists col row,
       floor_div (cur_x s - minx_numpad cfg) (col_width cfg) = Ok col
       /\ floor_div (cur_y s - miny_numpad cfg) (row_height cfg) = Ok row
       /\ (row <? 0) || (col <? 0) = false
       /\ keys_at cfg row col = Some (Some (KeyCode k)).
Proof.
  intros Hx Hy (_ & Hr & Hl & Hin & Hkey).
  split; [|split; [|split]].
  - rewrite <- Hr. apply top_right_icon_ext;
      [now rewrite cur_x_at_position|now rewrite cur_y_at_position].
  - rewrite <- Hl. apply top_left_icon_ext;
      [now rewrite cur_x_at_position|now rewrite cur_y_at_position].
  - rewrite Hx, Hy. now apply inside_rectangle_check.
  - apply get_touched_key_Some_inv. rewrite <- Hkey. apply get_touched_key_ext;
      [now rewrite cur_x_at_position|now rewrite cur_y_at_position].
Qed.

(** *** Contact-down on a key *)

Lemma on_btn_tool_down t k s :
  idle s -> cur_x s = tap_x t -> cur_y s = tap_y t -> tap_on_key cfg t k ->
  exists s1,
    on_btn_tool cfg (tap_world t) 1 s = Ok s1
    /\ (key_repetitions cfg = false ->
        idle s1 /\ out s1 = out s ++ [key_down k; key_up k])
    /\ (key_repetitions cfg = true ->
        holding k s1 /\ cur_x s1 = tap_x t /\ cur_y s1 = tap_y t
        /\ out s1 = out s ++ [key_down k]).
Proof.
  intros (Hwf & Hu & Hn & Hk & Hl & Hr) Hx Hy Htap.
  destruct (tap_on_key_at t k s Hx Hy Htap)
    as (Hri & Hli & Hrect & col & row & Ecol & Erow & Hneg & Hcell).
  destruct Htap as (Hsend & _).
  unfold on_btn_tool. rewrite Hri, Hli.
  rewrite (not_slided_left_unarmed 1 s Hl), (not_slided_right_unarmed 1 s Hr).
  unfold on_btn_tool_grid. rewrite Hn. cbn [negb]. rewrite Hrect, Ecol, Erow.
  cbn [bind]. rewrite Hneg, Hk, Hcell. cbn [option_key_eqb andb Z.eqb Pos.eqb].
  set (s1 := set_cur_key (Some (KeyCode k)) s).
  assert (Hwf1 : wf s1) by (eapply same_shape_wf; [apply shape_set_cur_key|exact Hwf]).
  assert (Hk1 : cur_key s1 = Some (KeyCode k)) by now apply cur_key_set_cur_key.
  unfold pressed_numpad_key. rewrite Hk1. unfold udev_send. rewrite Hsend.
  destruct (key_repetitions cfg).
  - eexists. split; [reflexivity|]. split; [discriminate|]. intros _.
    split; [|split; [exact Hx|split; [exact Hy|reflexivity]]].
    split; [eapply same_shape_wf; [apply shape_emit|exact Hwf1]|].
    repeat split; assumption.
  - cbn [bind]. unfold unpressed_numpad_key.
    change (cur_key (emit (send_events
              [mkInputEvent (EV_KEY k) 1; mkInputEvent SYN_REPORT 0]) s1))
      with (cur_key s1).
    rewrite Hk1. cbn [truthy]. unfold udev_send. rewrite Hsend.
    eexists. split; [reflexivity|]. split; [|discriminate]. intros _.
    set (s2 := emit _ (emit _ s1)).
    assert (Hwf2 : wf s2).
    { eapply same_shape_wf; [apply shape_emit|].
      eapply same_shape_wf; [apply shape_emit|exact Hwf1]. }
    split.
    + split; [eapply same_shape_wf; [apply shape_set_none|exact Hwf2]|].
      split; [exact Hu|]. split; [exact Hn|].
      split; [now apply cur_key_set_none|]. split; assumption.
    + unfold s2. cbn [out set_none_to_current_mt_slot set_cur_y set_cur_x set_cur_key
                       set_abs_mt_slot_y_values set_abs_mt_slot_x_values
                       set_abs_mt_slot_numpad_key emit].
      unfold s1. cbn [out set_cur_key set_abs_mt_slot_numpad_key].
      rewrite <- app_assoc. reflexivity.
Qed.

(** *** Contact-up with nothing assigned *)

Lemma on_btn_tool_up_idle w s :
  idle s -> Qis0 (col_width cfg) = false -> Qis0 (row_height cfg) = false ->
  exists s1, on_btn_tool cfg w 0 s = Ok s1 /\ idle s1 /\ out s1 = out s.
Proof.
  intros Hidle Hcw Hrh. pose proof Hidle as (Hwf & Hu & Hn & Hk & Hl & Hr).
  unfold on_btn_tool.
  destruct (is_pressed_touchpad_top_right_icon cfg s).
  { exists s. split; [reflexivity|split; [exact Hidle|reflexivity]]. }
  destruct (is_pressed_touchpad_top_left_icon cfg s).
  { eexists. split; [reflexivity|]. cbn [pressed_touchpad_top_left_icon Z.eqb].
    split; [|reflexivity].
    split; [eapply same_shape_wf; [apply shape_set_none|exact Hwf]|].
    split; [exact Hu|]. split; [exact Hn|].
    split; [now apply cur_key_set_none|]. split; assumption. }
  rewrite (not_slided_left_unarmed 0 s Hl), (not_slided_right_unarmed 0 s Hr).
  unfold on_btn_tool_grid. rewrite Hn. cbn [negb].
  destruct (_ || _ || _ || _); [exists s; split; [reflexivity|split; [exact Hidle|reflexivity]]|].
  destruct (floor_div_total (cur_x s - minx_numpad cfg) _ Hcw) as (col & Ecol).
  destruct (floor_div_total (cur_y s - miny_numpad cfg) _ Hrh) as (row & Erow).
  rewrite Ecol, Erow. cbn [bind].
  destruct ((row <? 0) || (col <? 0)); [exists s; split; [reflexivity|split; [exact Hidle|reflexivity]]|].
  rewrite Hk. cbn [option_key_eqb andb Z.eqb].
  exists s. split; [reflexivity|split; [exact Hidle|reflexivity]].
Qed.

(** *** Contact-up on the held key *)

Lemma on_btn_tool_up_holding t k s :
  holding k s -> cur_x s = tap_x t -> cur_y s = tap_y t -> tap_on_key cfg t k ->
  exists s1,
    on_btn_tool cfg (tap_world t) 0 s = Ok s1
    /\ idle s1 /\ out s1 = out s ++ [key_up k].
Proof.
  intros (Hwf & Hu & Hn & Hk & Hl & Hr) Hx Hy Htap.
  destruct (tap_on_key_at t k s Hx Hy Htap)
    as (Hri & Hli & Hrect & col & row & Ecol & Erow & Hneg & Hcell).
  destruct Htap as (Hsend & _).
  unfold on_btn_tool. rewrite Hri, Hli.
  rewrite (not_slided_left_unarmed 0 s Hl), (not_slided_right_unarmed 0 s Hr).
  unfold on_btn_tool_grid. rewrite Hn. cbn [negb]. rewrite Hrect, Ecol, Erow.
  cbn [bind]. rewrite Hneg, Hk, Hcell. cbn [option_key_eqb andb Z.eqb].
  set (s1 := set_cur_key (Some (KeyCode k)) s).
  assert (Hwf1 : wf s1) by (eapply same_shape_wf; [apply shape_set_cur_key|exact Hwf]).
  assert (Hk1 : cur_key s1 = Some (KeyCode k)) by now apply cur_key_set_cur_key.
  unfold unpressed_numpad_key. rewrite Hk1. cbn [truthy].
  unfold udev_send. rewrite Hsend.
  eexists. split; [reflexivity|].
  set (s2 := emit _ s1).
  assert (Hwf2 : wf s2) by (eapply same_shape_wf; [apply shape_emit|exact Hwf1]).
  split.
  - split; [eapply same_shape_wf; [apply shape_set_none|exact Hwf2]|].
    split; [exact Hu|]. split; [exact Hn|].
    split; [now apply cur_key_set_none|]. split; assumption.
  - reflexivity.
Qed.

End Contacts.

(** The inline lookup of the event loop agrees with the mapping: where
    the mapping gives no key, a contact transition changes nothing. *)
Lemma on_btn_tool_grid_unmapped (cfg : config) (w : world) (v : Z) (s : state) :
  valid_layout cfg ->
  spec_map cfg (cur_x s) (cur_y s) = None ->
  on_btn_tool_grid cfg w v s = Ok s.
Proof.
  intros Hv Hmap. unfold on_btn_tool_grid.
  destruct (negb (numlock s)); [reflexivity|].
  destruct ((cur_x s <? minx_numpad cfg) || (maxx_numpad cfg <? cur_x s)
            || (cur_y s <? miny_numpad cfg) || (maxy_numpad cfg <? cur_y s)) eqn:Hc;
    [reflexivity|].
  assert (Hin : inside_usable_rectangle cfg (cur_x s) (cur_y s) = true).
  { unfold inside_usable_rectangle. rewrite !orb_false_iff, !Z.ltb_ge in Hc.
    rewrite !andb_true_iff, !Z.leb_le. lia. }
  rewrite (floor_div_col cfg Hv), (floor_div_row cfg Hv). cbn [bind].
  destruct ((_ <? 0) || (_ <? 0)); [reflexivity|].
  destruct (option_key_eqb (cur_key s) None && (v =? 0)); [reflexivity|].
  unfold spec_map in Hmap. rewrite Hin, <- keys_at_configured in Hmap.
  destruct (keys_at cfg _ _) as [[k|]|]; [discriminate Hmap|reflexivity|reflexivity].
Qed.

Section Pairing.

Variable cfg : config.

(** The contact of a tap: down, then up. *)
Lemma contact_down_up t k s :
  idle s -> cur_x s = tap_x t -> cur_y s = tap_y t -> tap_on_key cfg t k ->
  exists s1 s2,
    listen_touchpad_events cfg (tap_world t) (ev BTN_TOOL_FINGER 1) s = Ok s1
    /\ listen_touchpad_events cfg (tap_world t) (ev BTN_TOOL_FINGER 0) s1 = Ok s2
    /\ (key_repetitions cfg = false ->
        out s1 = out s ++ [key_down k; key_up k] /\ cur_key s1 = None
        /\ out s2 = out s1)
    /\ (key_repetitions cfg = true ->
        out s1 = out s ++ [key_down k] /\ cur_key s1 = Some (KeyCode k)
        /\ out s2 = out s1 ++ [key_up k])
    /\ idle s2.
Proof.
  intros Hidle Hx Hy Htap.
  destruct (tap_on_key_widths cfg t k Htap) as [Hcw Hrh].
  set (w := tap_world t).
  assert (Hu : unsupported_abs_mt_slot s = false) by (destruct Hidle as (_ & H & _); exact H).
  pose proof (listen_btn_tool cfg w (ev BTN_TOOL_FINGER 1) s eq_refl Hu) as L1.
  change (ev_value (ev BTN_TOOL_FINGER 1)) with 1 in L1.
  destruct (on_btn_tool_down cfg t k (set_last_event_time (time w) s) Hidle Hx Hy Htap)
    as (s1 & E1 & Hnr & Hr).
  fold w in E1. rewrite E1 in L1.
  destruct (key_repetitions cfg) eqn:Hrep.
  - destruct (Hr eq_refl) as (Hh & X1 & Y1 & O1).
    assert (Hu1 : unsupported_abs_mt_slot s1 = false)
      by (destruct Hh as (_ & H & _); exact H).
    pose proof (listen_btn_tool cfg w (ev BTN_TOOL_FINGER 0) s1 eq_refl Hu1) as L2.
    change (ev_value (ev BTN_TOOL_FINGER 0)) with 0 in L2.
    destruct (on_btn_tool_up_holding cfg t k (set_last_event_time (time w) s1)
                Hh X1 Y1 Htap) as (s2 & E2 & I2 & O2).
    fold w in E2. rewrite E2 in L2.
    exists s1, s2. split; [exact L1|]. split; [exact L2|].
    split; [discriminate|]. split; [|exact I2].
    intros _. split; [exact O1|]. split; [|exact O2].
    destruct Hh as (_ & _ & _ & H & _). exact H.
  - destruct (Hnr eq_refl) as (I1 & O1).
    assert (Hu1 : unsupported_abs_mt_slot s1 = false)
      by (destruct I1 as (_ & H & _); exact H).
    pose proof (listen_btn_tool cfg w (ev BTN_TOOL_FINGER 0) s1 eq_refl Hu1) as L2.
    change (ev_value (ev BTN_TOOL_FINGER 0)) with 0 in L2.
    destruct (on_btn_tool_up_idle cfg w (set_last_event_time (time w) s1) I1 Hcw Hrh)
      as (s2 & E2 & I2 & O2).
    rewrite E2 in L2.
    exists s1, s2. split; [exact L1|]. split; [exact L2|].
    split; [|split; [discriminate|exact I2]].
    intros _. split; [exact O1|]. split; [|exact O2].
    destruct I1 as (_ & _ & _ & H & _). exact H.
Qed.

(** A whole tap writes one press and one release of its key and
    leaves the slot idle, in both modes. *)
Lemma tap_is_paired t k s :
  idle s -> tap_on_key cfg t k ->
  exists s', run cfg (tap_events t) s = Ok s'
             /\ idle s' /\ out s' = out s ++ [key_down k; key_up k].
Proof.
  intros Hidle Htap. set (w := tap_world t).
  destruct (idle_position_x cfg w (tap_x t) s Hidle) as (s1 & E1 & I1 & X1 & Y1 & O1).
  destruct (idle_position_y cfg w (tap_y t) s1 I1) as (s2 & E2 & I2 & Y2 & X2 & O2).
  assert (Hx : cur_x s2 = tap_x t) by congruence.
  destruct (contact_down_up t k s2 I2 Hx Y2 Htap)
    as (s3 & s4 & E3 & E4 & Hnr & Hr & I4).
  exists s4. unfold tap_events. fold w. cbn [run].
  rewrite E1. cbn [bind]. rewrite E2. cbn [bind].
  fold w in E3, E4. rewrite E3. cbn [bind]. rewrite E4. cbn [bind].
  split; [reflexivity|]. split; [exact I4|].
  destruct (key_repetitions cfg).
  - destruct (Hr eq_refl) as (O3 & _ & O4).
    rewrite O4, O3, O2, O1, <- app_assoc. reflexivity.
  - destruct (Hnr eq_refl) as (O3 & _ & O4).
    rewrite O4, O3, O2, O1. reflexivity.
Qed.

(** Any number of taps: balanced for every key. *)
Lemma taps_are_paired (taps : list tap) (s : state) :
  idle s ->
  Forall (fun t => exists k, tap_on_key cfg t k) taps ->
  exists s' new,
    run cfg (flat_map tap_events taps) s = Ok s'
    /\ idle s' /\ out s' = out s ++ new
    /\ forall k, count_down k (emitted new) = count_up k (emitted new).
Proof.
  revert s; induction taps as [|t taps IH]; intros s Hidle Hall.
  - exists s, []. split; [reflexivity|]. split; [exact Hidle|].
    split; [now rewrite app_nil_r|reflexivity].
  - inversion Hall as [|? ? [k Hk] Hrest]; subst.
    destruct (tap_is_paired t k s Hidle Hk) as (s1 & E1 & I1 & O1).
    destruct (IH s1 I1 Hrest) as (s2 & new & E2 & I2 & O2 & Hbal).
    exists s2, ([key_down k; key_up k] ++ new).
    cbn [flat_map]. rewrite run_app, E1. cbn [bind].
    split; [exact E2|]. split; [exact I2|]. split.
    + rewrite O2, O1. now rewrite <- app_assoc.
    + intros k'. rewrite emitted_app, count_down_app, count_up_app.
      rewrite (press_release_balanced k k'), (Hbal k'). reflexivity.
Qed.

End Pairing.

(** C1, as amended.  While the numpad is active and no icon gesture is
    pending, take taps of one slot, each a contact-down followed by a
    contact-up at a position inside the usable rectangle, outside both
    icons, on a cell holding a key code.  Without key repetition the
    contact-down writes the press and the release of the key at once,
    leaves nothing assigned, and the contact-up writes nothing; with
    key repetition the contact-down writes the press only and leaves
    the key assigned, and the contact-up writes the release.  In both
    modes the slot has nothing assigned after the contact-up, and
    after any sequence of such taps the key-down events written for
    any key are as many as its key-up events. *)
Theorem taps_emit_paired_key_events :
  forall (cfg : config),
    (forall (t : tap) (k : positive) (s : state),
        idle s -> cur_x s = tap_x t -> cur_y s = tap_y t -> tap_on_key cfg t k ->
        exists s1 s2,
          listen_touchpad_events cfg (tap_world t) (ev BTN_TOOL_FINGER 1) s = Ok s1
          /\ listen_touchpad_events cfg (tap_world t) (ev BTN_TOOL_FINGER 0) s1 = Ok s2
          /\ (key_repetitions cfg = false ->
              out s1 = out s ++ [key_down k; key_up k] /\ cur_key s1 = None
              /\ out s2 = out s1)
          /\ (key_repetitions cfg = true ->
              out s1 = out s ++ [key_down k] /\ cur_key s1 = Some (KeyCode k)
              /\ out s2 = out s1 ++ [key_up k])
          /\ cur_key s2 = None)
    /\
    (forall (taps : list tap) (s : state),
        idle s ->
        Forall (fun t => exists k, tap_on_key cfg t k) taps ->
        exists s' new,
          run cfg (flat_map tap_events taps) s = Ok s'
          /\ cur_key s' = None
          /\ out s' = out s ++ new
          /\ forall k, count_down k (emitted new) = count_up k (emitted new)).
Proof.
  intros cfg. split.
  - intros t k s Hidle Hx Hy Htap.
    destruct (contact_down_up cfg t k s Hidle Hx Hy Htap)
      as (s1 & s2 & E1 & E2 & Hnr & Hr & I2).
    exists s1, s2. repeat (split; [assumption|]).
    destruct I2 as (_ & _ & _ & H & _). exact H.
  - intros taps s Hidle Hall.
    destruct (taps_are_paired cfg taps s Hidle Hall) as (s' & new & E & I & O & Hbal).
    exists s', new. split; [exact E|]. split; [|split; assumption].
    destruct I as (_ & _ & _ & H & _). exact H.
Qed.

(** Two taps on the sample grid with key repetition, after the numpad
    was switched on: KEY_KP5 is pressed as often as released. *)
Lemma taps_emit_paired_key_events_witness :
  exists s' new,
    run (sample_layout true false) (flat_map tap_events two_taps) numpad_switched_on
    = Ok s'
    /\ cur_key s' = None
    /\ out s' = out numpad_switched_on ++ new
    /\ count_down 76 (emitted new) = count_up 76 (emitted new).
Proof.
  assert (Hidle : idle numpad_switched_on).
  { unfold idle, wf. cbv. repeat split; try reflexivity; repeat constructor. }
  assert (Htaps : Forall (fun t => exists k, tap_on_key (sample_layout true false) t k)
                         two_taps).
  { constructor; [exists 76%positive|constructor; [exists 71%positive|constructor]];
      unfold tap_on_key; repeat split; reflexivity. }
  destruct (proj2 (taps_emit_paired_key_events (sample_layout true false))
              two_taps numpad_switched_on Hidle Htaps)
    as (s' & new & H1 & H2 & H3 & H4).
  exists s', new. split; [exact H1|]. split; [exact H2|]. split; [exact H3|].
  exact (H4 76%positive).
Defined.

(** C1 as stated fails: with key repetition configured, the
    contact-down on KEY_KP5 writes the press only, no release, and
    leaves the key assigned. *)
Lemma key_repetition_contact_down_writes_press_only :
  key_repetitions (sample_layout true false) = true
  /\ numlock about_to_touch_a_key = true
  /\ cur_key about_to_touch_a_key = None
  /\ listen_touchpad_events (sample_layout true false) (calm 14 true)
       (ev BTN_TOOL_FINGER 1) about_to_touch_a_key = Ok holding_a_key
  /\ out holding_a_key = out about_to_touch_a_key ++ [key_down 76]
  /\ count_down 76 (emitted [key_down 76]) = 1%nat
  /\ count_up 76 (emitted [key_down 76]) = 0%nat
  /\ cur_key holding_a_key = Some (KeyCode 76).
Proof.
  repeat (split; [vm_compute; reflexivity|]). vm_compute. reflexivity.
Qed.

(** Not covered by the pairing theorem, which asks for no pending icon
    gesture: a tap on the brightness icon leaves its timer set; with key repetition the next tap on KEY_KP5 then has its
    release swallowed (the press is written, the slot is cleared, no
    release follows). *)
Remark stale_brightness_timer_swallows_release :
  exists s',
    run (sample_layout true false) brightness_tap_then_key_tap numpad_switched_on = Ok s'
    /\ cur_key s' = None
    /\ out s' = out numpad_switched_on ++ [key_down 76].
Proof.
  eexists. split; [vm_compute; reflexivity|]. split; vm_compute; reflexivity.
Qed.

(** At the release itself: a contact that started on the numlock icon
    and lifts on the right column of the grid, not far enough for the
    slide, has the release of KEY_KP9 = 73 written for it. *)
Remark numlock_icon_contact_lifted_on_grid_writes_release :
  exists s',
    run (sample_layout false false) numlock_icon_then_lift_on_grid numpad_switched_on
    = Ok s'
    /\ out s' = out numpad_switched_on ++ [key_up 73].
Proof. eexists. split; [vm_compute; reflexivity|]. vm_compute. reflexivity. Qed.

(** * Further properties of the code *)

(** ** The compose sequence: no key left down, and the code point read
    back *)

Lemma count_down_compose_start (k : positive) :
  count_down k (get_compose_key_events_for_unicode_string 1)
  = count_up k (get_compose_key_events_for_unicode_string 0).
Proof.
  unfold count_down, count_up, is_key_event. simpl.
  destruct (Pos.eqb KEY_LEFTCTRL k), (Pos.eqb KEY_LEFTSHIFT k), (Pos.eqb KEY_U k);
    reflexivity.
Qed.

Lemma count_up_compose_start (k : positive) :
  count_up k (get_compose_key_events_for_unicode_string 1) = 0%nat
  /\ count_down k (get_compose_key_events_for_unicode_string 0) = 0%nat.
Proof.
  unfold count_down, count_up, is_key_event. simpl.
  rewrite !andb_false_r. split; reflexivity.
Qed.

Lemma count_hex_digit_events (k : positive) (ds : list N) :
  count_down k (flat_map hex_digit_events ds) = count_up k (flat_map hex_digit_events ds).
Proof.
  induction ds as [|d ds IH]; [reflexivity|].
  cbn [flat_map]. rewrite count_down_app, count_up_app, IH. f_equal.
  unfold count_down, count_up, is_key_event, hex_digit_events. simpl.
  destruct (Pos.eqb (KEY_hex d) k); reflexivity.
Qed.

(** Whatever the literal, the events returned for it press every key
    as often as they release it: the compose sequence leaves neither a
    modifier nor a digit key down. *)
Theorem compose_sequence_leaves_no_key_down :
  forall (s : list N) (evs : list InputEvent),
    get_events_for_unicode_string s = Some evs ->
    forall k, count_down k evs = count_up k evs.
Proof.
  intros [|c rest] evs H k; [discriminate H|].
  rewrite get_events_for_unicode_string_head in H. injection H as <-.
  unfold spec_compose_sequence_of_char.
  rewrite !count_down_app, !count_up_app, count_hex_digit_events.
  rewrite count_down_compose_start.
  destruct (count_up_compose_start k) as [-> ->]. lia.
Qed.

Lemma compose_sequence_leaves_no_key_down_witness :
  exists evs,
    get_events_for_unicode_string [8364]%N = Some evs
    /\ count_down KEY_LEFTCTRL evs = count_up KEY_LEFTCTRL evs.
Proof.
  eexists. split; [reflexivity|].
  exact (compose_sequence_leaves_no_key_down [8364]%N _ eq_refl KEY_LEFTCTRL).
Defined.

Lemma hex_of_key_KEY_hex (d : N) : (d < 16)%N -> hex_of_key (KEY_hex d) = Some d.
Proof.
  intros H. destruct d as [|p]; [reflexivity|].
  do 4 (destruct p as [p|p|]; try reflexivity); lia.
Qed.

Lemma typed_hex_digits_app (l1 l2 : list InputEvent) :
  typed_hex_digits (l1 ++ l2) = typed_hex_digits l1 ++ typed_hex_digits l2.
Proof. unfold typed_hex_digits. apply flat_map_app. Qed.

Lemma typed_hex_digits_of_digits (ds : list N) :
  Forall (fun d => (d < 16)%N) ds ->
  typed_hex_digits (flat_map hex_digit_events ds) = ds.
Proof.
  induction 1 as [|d ds Hd _ IH]; [reflexivity|].
  cbn [flat_map]. rewrite typed_hex_digits_app, IH.
  unfold typed_hex_digits, hex_digit_events. simpl.
  rewrite (hex_of_key_KEY_hex d Hd). reflexivity.
Qed.

(** Round trip: the hex keys pressed in the events returned for a
    literal spell the code point of its first character. *)
Theorem compose_sequence_spells_the_code_point :
  forall (c : N) (rest : list N) (evs : list InputEvent),
    get_events_for_unicode_string (c :: rest) = Some evs ->
    hex_value (typed_hex_digits evs) = c.
Proof.
  intros c rest evs H.
  rewrite get_events_for_unicode_string_head in H. injection H as <-.
  unfold spec_compose_sequence_of_char.
  rewrite !typed_hex_digits_app.
  rewrite (typed_hex_digits_of_digits _ (hex_digits_below c)).
  change (typed_hex_digits (get_compose_key_events_for_unicode_string 1)) with (@nil N).
  change (typed_hex_digits (get_compose_key_events_for_unicode_string 0)) with (@nil N).
  rewrite app_nil_r. apply hex_digits_value.
Qed.

Lemma compose_sequence_spells_the_code_point_witness :
  exists evs,
    get_events_for_unicode_string [8364; 49]%N = Some evs
    /\ hex_value (typed_hex_digits evs) = 8364%N.
Proof.
  eexists. split; [reflexivity|].
  exact (compose_sequence_spells_the_code_point 8364 [49]%N _ eq_refl).
Defined.

(** ** Cell boundaries *)

Lemma div_eq_iff (a b q : Z) : 0 < b -> (a / b = q <-> b * q <= a < b * (q + 1)).
Proof.
  intros Hb. pose proof (Z.div_mod a b ltac:(lia)) as Hd.
  pose proof (Z.mod_pos_bound a b Hb) as Hm.
  split; [intros <-; nia|].
  intros [H1 H2]. symmetry. apply (Z.div_unique a b q (a - b * q)); lia.
Qed.



(** ** Activation and the backlight level *)

Lemma list_index_Some (v : string) (l : list string) (i : Z) :
  list_index v l = Some i -> 0 <= i /\ nth_error l (Z.to_nat i) = Some v.
Proof.
  revert i; induction l as [|h t IH]; intros i; simpl; [discriminate|].
  destruct (String.eqb_spec h v) as [->|Hne]; [intros [= <-]; split; [lia|reflexivity]|].
  destruct (list_index v t) as [j|]; [|discriminate].
  intros [= <-]. destruct (IH j eq_refl) as [Hj Hn]. split; [lia|].
  replace (Z.to_nat (j + 1)) with (S (Z.to_nat j)) by lia. exact Hn.
Qed.

Lemma list_index_None (v : string) (l : list string) :
  list_index v l = None <-> ~ In v l.
Proof.
  induction l as [|h t IH]; simpl; [tauto|].
  destruct (String.eqb_spec h v) as [->|Hne].
  - split; [discriminate|]. intros H. exfalso. apply H. now left.
  - destruct (list_index v t) as [j|].
    + split; [discriminate|]. intros H. exfalso.
      assert (Hin : ~ In v t) by tauto. apply IH in Hin. discriminate Hin.
    + split; [|reflexivity]. intros _ [H|H]; [congruence|].
      now apply (proj1 IH).
Qed.

(** When neither the grab nor the bus call raises, activation issues
    the power-on command, then the default level if it is not "0x01",
    and leaves the brightness index on the default level when that is
    one of the configured levels, at -1 otherwise; from -1 the next
    advance selects the first configured level (as the comment in
    [activate_numpad] says). *)
Theorem activation_resolves_the_brightness_index :
  forall (cfg : config) (w w' : world) (s : state),
    grab_raises w = false -> call_raises w = false ->
    out (activate_numpad cfg w s)
    = out s ++ [grab; i2ctransfer "0x01"]
        ++ (if String.eqb (default_backlight_level cfg) "0x01" then []
            else [i2ctransfer (default_backlight_level cfg)])
    /\ (In (default_backlight_level cfg) (backlight_levels cfg) ->
        0 <= brightness (activate_numpad cfg w s)
        /\ nth_error (backlight_levels cfg)
             (Z.to_nat (brightness (activate_numpad cfg w s)))
           = Some (default_backlight_level cfg))
    /\ (~ In (default_backlight_level cfg) (backlight_levels cfg) ->
        brightness (activate_numpad cfg w s) = -1
        /\ forall first rest,
             backlight_levels cfg = first :: rest ->
             call_raises w' = false ->
             exists s',
               increase_brightness cfg w' (activate_numpad cfg w s) = Ok s'
               /\ brightness s' = 0
               /\ out s' = out (activate_numpad cfg w s)
                           ++ [config_write first; i2ctransfer first]).
Proof.
  intros cfg w w' s Hg Hc. unfold activate_numpad. rewrite Hg, Hc.
  split; [|split].
  - destruct (String.eqb (default_backlight_level cfg) "0x01");
      destruct (list_index _ _); simpl; rewrite <- ?app_assoc; reflexivity.
  - intros Hin.
    destruct (list_index (default_backlight_level cfg) (backlight_levels cfg))
      as [i|] eqn:Hi.
    + apply list_index_Some in Hi.
      destruct (String.eqb (default_backlight_level cfg) "0x01"); exact Hi.
    + apply list_index_None in Hi. contradiction.
  - intros Hnin.
    destruct (list_index (default_backlight_level cfg) (backlight_levels cfg))
      as [i|] eqn:Hi.
    { apply list_index_Some in Hi. destruct Hi as [_ Hi].
      apply nth_error_In in Hi. contradiction. }
    split; [destruct (String.eqb _ _); reflexivity|].
    intros first rest Hl Hc'. unfold increase_brightness.
    assert (Hb : brightness
                   (set_brightness (-1)
                      (if String.eqb (default_backlight_level cfg) "0x01"
                       then emit (i2ctransfer "0x01") (emit grab s)
                       else emit (i2ctransfer (default_backlight_level cfg))
                              (emit (i2ctransfer "0x01") (emit grab s)))) = -1)
      by reflexivity.
    rewrite Hb, Hl. cbn [length]. 
    destruct (Z.leb_spec (Z.of_nat (S (length rest))) (-1 + 1)) as [Hle|_]; [lia|].
    cbn [py_index Z.add Z.leb Z.compare Z.to_nat nth_error].
    unfold subprocess_call. rewrite Hc'.
    eexists. split; [reflexivity|]. split; [reflexivity|].
    simpl. rewrite <- app_assoc. reflexivity.
Qed.

Lemma activation_resolves_the_brightness_index_witness :
  brightness (activate_numpad (sample_layout_default_level "0x42") (calm 1 true)
                initial_state) = 1
  /\ out (activate_numpad (sample_layout_default_level "0x42") (calm 1 true)
            initial_state)
     = [grab; i2ctransfer "0x01"; i2ctransfer "0x42"]
  /\ brightness (activate_numpad (sample_layout_default_level "0x01") (calm 1 true)
                   initial_state) = -1.
Proof.
  destruct (activation_resolves_the_brightness_index
              (sample_layout_default_level "0x42") (calm 1 true) (calm 2 true)
              initial_state eq_refl eq_refl) as (H1 & _ & _).
  destruct (activation_resolves_the_brightness_index
              (sample_layout_default_level "0x01") (calm 1 true) (calm 2 true)
              initial_state eq_refl eq_refl) as (_ & _ & H3).
  split; [reflexivity|]. split; [exact H1|].
  apply H3. simpl. intros [H|[H|[]]]; discriminate H.
Defined.

(** When the grab (or, deactivating, the ungrab) raises, the toggle
    still flips the activation flag and clears the current slot, but
    issues no bus command at all and leaves the brightness index as it
    was: the lighting and the flag then disagree. *)
Theorem refused_grab_flips_the_flag_without_bus_command :
  forall (cfg : config) (w : world) (s : state),
    grab_raises w = true -> ungrab_raises w = true ->
    numlock (local_numlock_pressed cfg w s) = negb (numlock s)
    /\ brightness (local_numlock_pressed cfg w s) = brightness s
    /\ (forall level,
          count_i2ctransfer level (out (local_numlock_pressed cfg w s))
          = count_i2ctransfer level (out s))
    /\ emitted (out (local_numlock_pressed cfg w s))
       = emitted (out s)
         ++ (if send_raises w then []
             else if Bool.eqb (sys_numlock w) (numlock s)
                  then numlock_key_press_release else []).
Proof.
  intros cfg w s Hg Hu.
  split; [apply numlock_local_numlock_pressed|].
  unfold local_numlock_pressed, activate_numpad, deactivate_numpad,
    send_numlock_key, udev_send.
  rewrite Hg, Hu.
  destruct (numlock s), (sys_numlock w), (send_raises w); cbn [negb Bool.eqb];
    (split; [reflexivity|]); (split; [intros level|]);
    cbn [out set_none_to_current_mt_slot set_cur_y set_cur_x set_cur_key
           set_abs_mt_slot_y_values set_abs_mt_slot_x_values
           set_abs_mt_slot_numpad_key set_numlock emit];
    rewrite ?count_i2ctransfer_app, ?emitted_app, <- ?app_assoc, ?app_nil_r;
    try reflexivity; unfold count_i2ctransfer; simpl; lia.
Qed.

Lemma refused_grab_flips_the_flag_without_bus_command_witness :
  numlock (local_numlock_pressed (sample_layout false false) (grab_refused 1 false)
             initial_state) = true
  /\ count_i2ctransfer "0x01"
       (out (local_numlock_pressed (sample_layout false false) (grab_refused 1 false)
               initial_state)) = 0%nat.
Proof.
  destruct (refused_grab_flips_the_flag_without_bus_command
              (sample_layout false false) (grab_refused 1 false) initial_state
              eq_refl eq_refl) as (H1 & _ & H3 & _).
  split; [exact H1|]. rewrite H3. reflexivity.
Defined.

(** The toggle writes the host numlock key (one press, one release)
    exactly when the host LED agrees with the old activation state,
    that is, disagrees with the new one; it writes nothing else to the
    virtual device, whatever the grab and the bus call do. *)
Theorem toggle_syncs_the_host_numlock_led :
  forall (cfg : config) (w : world) (s : state),
    send_raises w = false ->
    emitted (out (local_numlock_pressed cfg w s))
    = emitted (out s)
      ++ (if Bool.eqb (sys_numlock w) (numlock s)
          then numlock_key_press_release else []).
Proof.
  intros cfg w s Hs.
  unfold local_numlock_pressed, activate_numpad, deactivate_numpad,
    send_numlock_key, udev_send.
  rewrite Hs.
  destruct (numlock s), (sys_numlock w); cbn [negb Bool.eqb];
    destruct (grab_raises w), (ungrab_raises w), (call_raises w);
    try destruct (String.eqb (default_backlight_level cfg) "0x01");
    try destruct (list_index _ _);
    cbn [out set_none_to_current_mt_slot set_cur_y set_cur_x set_cur_key
           set_abs_mt_slot_y_values set_abs_mt_slot_x_values
           set_abs_mt_slot_numpad_key set_numlock set_brightness emit];
    rewrite ?emitted_app, <- ?app_assoc, ?app_nil_r; reflexivity.
Qed.

Lemma toggle_syncs_the_host_numlock_led_witness :
  emitted (out (local_numlock_pressed (sample_layout false false) (calm 1 false)
                  initial_state))
  = numlock_key_press_release
  /\ emitted (out (local_numlock_pressed (sample_layout false false) (calm 1 true)
                     initial_state))
     = [].
Proof.
  split.
  - exact (toggle_syncs_the_host_numlock_led (sample_layout false false)
             (calm 1 false) initial_state eq_refl).
  - exact (toggle_syncs_the_host_numlock_led (sample_layout false false)
             (calm 1 true) initial_state eq_refl).
Defined.

(** ** The monitors *)

(** One pass of the inactivity monitor with the numpad active, an
    event seen before, and the timeout exceeded: the numpad is
    deactivated, the power-off command is issued once (ungrab and call
    not raising), and the next pass changes nothing, whatever the
    clock.  Before the first event ([last_event_time] still 0) and
    while the numpad is inactive a pass changes nothing. *)
Theorem inactivity_deactivates_once :
  forall (cfg : config) (w w' : world) (s : state),
    (numlock s = true ->
     Qis0 (last_event_time s) = false ->
     Qltb (disable_due_inactivity_time cfg + last_event_time s) (time w) = true ->
     numlock (check_numpad_automatical_disable_due_inactivity cfg w s) = false
     /\ check_numpad_automatical_disable_due_inactivity cfg w'
          (check_numpad_automatical_disable_due_inactivity cfg w s)
        = check_numpad_automatical_disable_due_inactivity cfg w s
     /\ (ungrab_raises w = false -> call_raises w = false ->
         count_i2ctransfer "0x00"
           (out (check_numpad_automatical_disable_due_inactivity cfg w s))
         = S (count_i2ctransfer "0x00" (out s))))
    /\ (Qis0 (last_event_time s) = true ->
        check_numpad_automatical_disable_due_inactivity cfg w s = s)
    /\ (numlock s = false ->
        check_numpad_automatical_disable_due_inactivity cfg w s = s).
Proof.
  intros cfg w w' s. split; [|split].
  - intros Hn Hl Ht.
    assert (E : check_numpad_automatical_disable_due_inactivity cfg w s
                = deactivate_numpad w
                    (set_numlock false
                       (if sys_numlock w
                        then send_numlock_key w 0 (send_numlock_key w 1 s) else s))).
    { unfold check_numpad_automatical_disable_due_inactivity.
      rewrite Hn, Hl, Ht. reflexivity. }
    assert (Hoff : numlock (check_numpad_automatical_disable_due_inactivity cfg w s)
                   = false)
      by (rewrite E, numlock_deactivate; reflexivity).
    split; [exact Hoff|]. split.
    + unfold check_numpad_automatical_disable_due_inactivity at 1.
      rewrite Hoff. reflexivity.
    + intros Hu Hc. rewrite E. unfold deactivate_numpad, send_numlock_key, udev_send.
      rewrite Hu, Hc.
      destruct (sys_numlock w), (send_raises w);
        cbn [out set_numlock set_brightness emit];
        rewrite ?count_i2ctransfer_app; unfold count_i2ctransfer; simpl; lia.
  - intros Hl. unfold check_numpad_automatical_disable_due_inactivity.
    rewrite Hl. cbn [negb]. now rewrite andb_false_r.
  - intros Hn. unfold check_numpad_automatical_disable_due_inactivity.
    now rewrite Hn.
Qed.

(** Silence from clock 100 to clock 161 with a timeout of 60. *)
Lemma inactivity_deactivates_once_witness :
  numlock (check_numpad_automatical_disable_due_inactivity
             (sample_layout false false) (calm 161 true) active_since_100) = false
  /\ check_numpad_automatical_disable_due_inactivity
       (sample_layout false false) (calm 162 false)
       (check_numpad_automatical_disable_due_inactivity
          (sample_layout false false) (calm 161 true) active_since_100)
     = check_numpad_automatical_disable_due_inactivity
         (sample_layout false false) (calm 161 true) active_since_100.
Proof.
  destruct (proj1 (inactivity_deactivates_once (sample_layout false false)
                     (calm 161 true) (calm 162 false) active_since_100)
              eq_refl eq_refl eq_refl) as (H1 & H2 & _).
  split; [exact H1|exact H2].
Defined.

(** One poll of the touchpad-status monitor.  A query that raises, or
    that reports the touchpad enabled, never deactivates the numpad and
    issues no bus command.  A query that reports it disabled, or whose
    output has no "Device Enabled" line, deactivates an active numpad
    when touchpad_disables_numpad is set, issuing the power-off command
    once (ungrab and call not raising). *)
Theorem touchpad_status_poll :
  forall (cfg : config) (w : world) (s : state),
    (xinput w = XFailed \/ xinput w = XEnabled ->
     numlock (check_touchpad_status cfg w s) = numlock s
     /\ out (check_touchpad_status cfg w s) = out s ++ [xinput_list_props])
    /\ (xinput w = XDisabled \/ xinput w = XNoLine ->
        touchpad_disables_numpad cfg = true -> numlock s = true ->
        numlock (check_touchpad_status cfg w s) = false
        /\ (ungrab_raises w = false -> call_raises w = false ->
            out (check_touchpad_status cfg w s)
            = out s ++ [xinput_list_props; ungrab; i2ctransfer "0x00"]
            /\ brightness (check_touchpad_status cfg w s) = 0)).
Proof.
  intros cfg w s. unfold check_touchpad_status, is_device_enabled. split.
  - intros [H|H]; rewrite H; cbn [negb andb]; split; reflexivity.
  - intros [H|H] Hf Hn; rewrite H, Hf; cbn [negb andb numlock
      set_getting_device_status_failure_count emit]; rewrite Hn;
      (split; [rewrite numlock_deactivate; reflexivity|]);
      intros Hu Hc; unfold deactivate_numpad; rewrite Hu, Hc;
      (split; [simpl; rewrite <- !app_assoc; reflexivity|reflexivity]).
Qed.

(** The query raises: no deactivation.  The output has no "Device
    Enabled" line: the active numpad is switched off. *)
Lemma touchpad_status_poll_witness :
  numlock (check_touchpad_status (sample_layout false false) (xinput_down 1)
             two_keys_assigned) = true
  /\ numlock (check_touchpad_status (sample_layout false false) (xinput_no_line 1)
                two_keys_assigned) = false.
Proof.
  split.
  - exact (proj1 (proj1 (touchpad_status_poll (sample_layout false false)
                           (xinput_down 1) two_keys_assigned)
                    (or_introl eq_refl))).
  - exact (proj1 (proj2 (touchpad_status_poll (sample_layout false false)
                           (xinput_no_line 1) two_keys_assigned)
                    (or_intror eq_refl) eq_refl eq_refl)).
Defined.

(** ** The loop goes on *)

Lemma Forall_list_set {A : Type} (P : A -> Prop) (i : nat) (v : A) (l : list A) :
  P v -> Forall P l -> Forall P (list_set i v l).
Proof.
  intros Hv H. revert i; induction H as [|h t Hh Ht IH]; intros [|i]; simpl;
    constructor; auto.
Qed.

Lemma Forall_nth_default {A : Type} (P : A -> Prop) (l : list A) (i : nat) (d : A) :
  P d -> Forall P l -> P (nth i l d).
Proof.
  intros Hd H. revert i; induction H as [|h t Hh Ht IH]; intros [|i]; simpl; auto.
Qed.

Section Sane.

Variable cfg : config.
Hypothesis Hvalid : valid_layout cfg.
Hypothesis Hgrid : grid_ok cfg.

Lemma sane_frame s s' :
  same_shape s s' -> brightness s' = brightness s ->
  abs_mt_slot_numpad_key s' = abs_mt_slot_numpad_key s ->
  sane cfg s -> sane cfg s'.
Proof.
  intros Hs Hb Hk (Hwf & Hbr & Hkeys).
  split; [eapply same_shape_wf; eassumption|]. split; [now rewrite Hb|now rewrite Hk].
Qed.

Lemma sane_cur_key s : sane cfg s -> key_ok (cur_key s).
Proof.
  intros (_ & _ & Hk). unfold cur_key.
  apply (Forall_nth_default key_ok); [discriminate|exact Hk].
Qed.

Lemma sane_emit e s : sane cfg s -> sane cfg (emit e s).
Proof. apply sane_frame; try reflexivity. apply shape_emit. Qed.

Lemma sane_udev_send w evs s : sane cfg s -> sane cfg (udev_send w evs s).
Proof. unfold udev_send. destruct (send_raises w); [auto|apply sane_emit]. Qed.

Lemma sane_set_cur_key k s : key_ok k -> sane cfg s -> sane cfg (set_cur_key k s).
Proof.
  intros Hk (Hwf & Hbr & Hkeys).
  split; [eapply same_shape_wf; [apply shape_set_cur_key|exact Hwf]|].
  split; [exact Hbr|]. now apply Forall_list_set.
Qed.

Lemma sane_set_none s : sane cfg s -> sane cfg (set_none_to_current_mt_slot s).
Proof.
  intros H. unfold set_none_to_current_mt_slot.
  eapply sane_frame; [apply shape_set_cur_y|reflexivity|reflexivity|].
  eapply sane_frame; [apply shape_set_cur_x|reflexivity|reflexivity|].
  apply sane_set_cur_key; [discriminate|exact H].
Qed.

Lemma sane_set_brightness b s :
  -1 <= b < Z.max 1 (Z.of_nat (length (backlight_levels cfg))) ->
  sane cfg s -> sane cfg (set_brightness b s).
Proof.
  intros Hb (Hwf & _ & Hkeys).
  split; [eapply same_shape_wf; [apply shape_set_brightness|exact Hwf]|].
  split; [exact Hb|exact Hkeys].
Qed.

Lemma sane_deactivate w s : sane cfg s -> sane cfg (deactivate_numpad w s).
Proof.
  intros H. unfold deactivate_numpad. destruct (ungrab_raises w); [exact H|].
  destruct (call_raises w); [now apply sane_emit|].
  apply sane_set_brightness; [lia|]. now do 2 apply sane_emit.
Qed.

Lemma sane_activate w s : sane cfg s -> sane cfg (activate_numpad cfg w s).
Proof.
  intros H. unfold activate_numpad. destruct (grab_raises w); [exact H|].
  destruct (call_raises w); [now apply sane_emit|].
  assert (H2 : sane cfg
                 (if String.eqb (default_backlight_level cfg) "0x01"
                  then emit (i2ctransfer "0x01") (emit grab s)
                  else emit (i2ctransfer (default_backlight_level cfg))
                         (emit (i2ctransfer "0x01") (emit grab s)))).
  { destruct (String.eqb _ _); repeat apply sane_emit; exact H. }
  destruct (list_index _ _) as [i|] eqn:Hi.
  - apply sane_set_brightness; [|exact H2].
    apply list_index_Some in Hi. destruct Hi as [Hi0 Hi].
    assert (Z.to_nat i < length (backlight_levels cfg))%nat
      by (apply nth_error_Some; congruence).
    lia.
  - apply sane_set_brightness; [lia|exact H2].
Qed.

Lemma sane_send_numlock_key w v s : sane cfg s -> sane cfg (send_numlock_key w v s).
Proof. apply sane_udev_send. Qed.

Lemma sane_local_numlock_pressed w s :
  sane cfg s -> sane cfg (local_numlock_pressed cfg w s).
Proof.
  intros H. unfold local_numlock_pressed. apply sane_set_none.
  assert (Hn : forall b, sane cfg (set_numlock b s))
    by (intros b; eapply sane_frame; [apply shape_set_numlock|reflexivity|reflexivity|exact H]).
  destruct (negb (numlock s)).
  - apply sane_activate. destruct (negb (sys_numlock w)); [|apply Hn].
    do 2 apply sane_send_numlock_key. apply Hn.
  - apply sane_deactivate. destruct (sys_numlock w); [|apply Hn].
    do 2 apply sane_send_numlock_key. apply Hn.
Qed.

Lemma sane_is_device_enabled w s :
  sane cfg s -> sane cfg (snd (is_device_enabled w s)).
Proof.
  intros H. unfold is_device_enabled.
  destruct (xinput w); cbn [snd];
    (eapply sane_frame; [|reflexivity|reflexivity|exact H]); shape.
Qed.

Lemma sane_increase_brightness w s :
  (0 < length (backlight_levels cfg))%nat -> sane cfg s ->
  exists s', increase_brightness cfg w s = Ok s' /\ sane cfg s'.
Proof.
  intros Hlen Hs. pose proof Hs as (_ & Hb & _). unfold increase_brightness.
  set (n := Z.of_nat (length (backlight_levels cfg))) in *.
  set (b := if n <=? brightness s + 1 then 0 else brightness s + 1).
  assert (Hrange : 0 <= b < n).
  { unfold b. destruct (Z.leb_spec n (brightness s + 1)); unfold n in *; lia. }
  unfold py_index. destruct (Z.leb_spec 0 b) as [_|Hneg]; [|lia].
  destruct (nth_error (backlight_levels cfg) (Z.to_nat b)) as [level|] eqn:Hl.
  2:{ apply nth_error_None in Hl. unfold n in Hrange. lia. }
  eexists. split; [reflexivity|].
  unfold subprocess_call. destruct (call_raises w); [|apply sane_emit];
    apply sane_emit; (apply sane_set_brightness; [fold n; lia|exact Hs]).
Qed.

(** *** Key emission *)

Lemma sane_pressed_numpad_key w s :
  sane cfg s -> cur_key s <> None ->
  exists s', pressed_numpad_key w s = Ok s' /\ sane cfg s'.
Proof.
  intros Hs Hk. pose proof (sane_cur_key s Hs) as Hok. unfold pressed_numpad_key.
  destruct (cur_key s) as [[c|[|ch rest]]|].
  - eexists. split; [reflexivity|now apply sane_udev_send].
  - exfalso. now apply Hok.
  - cbn [get_events_for_unicode_string]. eexists. split; [reflexivity|].
    now apply sane_udev_send.
  - congruence.
Qed.

Lemma sane_unpressed_numpad_key w r s :
  key_ok r -> sane cfg s -> sane cfg (unpressed_numpad_key w r s).
Proof.
  intros Hr Hs. unfold unpressed_numpad_key.
  assert (H1 : sane cfg match cur_key s with
                        | Some (KeyCode c) =>
                            udev_send w [mkInputEvent (EV_KEY c) 0;
                                         mkInputEvent SYN_REPORT 0] s
                        | _ => s
                        end).
  { destruct (cur_key s) as [[c|u]|]; auto. now apply sane_udev_send. }
  destruct (truthy r); [now apply sane_set_cur_key|now apply sane_set_none].
Qed.

Lemma cur_key_udev_send w evs s : cur_key (udev_send w evs s) = cur_key s.
Proof. unfold udev_send. destruct (send_raises w); reflexivity. Qed.

Lemma sane_replaced_numpad_key w k s :
  key_ok (Some k) -> sane cfg s ->
  exists s', replaced_numpad_key w k s = Ok s' /\ sane cfg s'.
Proof.
  intros Hk Hs. unfold replaced_numpad_key.
  apply sane_pressed_numpad_key; [now apply sane_unpressed_numpad_key|].
  unfold unpressed_numpad_key.
  assert (Ht : truthy (Some k) = true).
  { destruct k as [c|[|ch rest]]; try reflexivity. exfalso. now apply Hk. }
  rewrite Ht.
  set (s1 := match cur_key s with
             | Some (KeyCode c) => udev_send w _ s
             | _ => s
             end).
  assert (Hwf1 : wf s1).
  { unfold s1. destruct (cur_key s) as [[c|u]|]; try apply Hs.
    eapply same_shape_wf; [apply shape_udev_send|apply Hs]. }
  rewrite (cur_key_set_cur_key _ _ Hwf1). discriminate.
Qed.

(** *** Geometry *)

Lemma keys_at_ok row col cell : keys_at cfg row col = Some cell -> key_ok cell.
Proof.
  unfold keys_at. destruct (nth_error (keys cfg) (Z.to_nat row)) as [r|] eqn:Hr;
    [|discriminate].
  intros Hc. apply nth_error_In in Hr. apply nth_error_In in Hc.
  pose proof (Hgrid r Hr) as Hf. rewrite Forall_forall in Hf. now apply Hf.
Qed.

Lemma get_touched_key_ok s :
  exists k, get_touched_key cfg s = Ok k /\ key_ok k.
Proof.
  rewrite (get_touched_key_unfold cfg Hvalid).
  eexists. split; [reflexivity|].
  destruct ((_ <? 0) || (_ <? 0)); [discriminate|].
  destruct (keys_at cfg _ _) as [cell|] eqn:Hc; [|discriminate].
  eapply keys_at_ok; eassumption.
Qed.

Lemma sane_is_not_finger_moved w s :
  sane cfg s ->
  exists s', is_not_finger_moved_to_another_key cfg w s = Ok s' /\ sane cfg s'.
Proof.
  intros Hs. unfold is_not_finger_moved_to_another_key.
  destruct (cur_key s) as [held|]; [|now exists s].
  destruct (numpad_key_eqb held (KeyCode KEY_CALC)); [now exists s|].
  destruct (numpad_key_eqb held (KeyCode KEY_NUMLOCK)); [now exists s|].
  destruct (numlock s); [|now exists s].
  destruct (get_touched_key_ok s) as (now_ & E & Hok). rewrite E. cbn [bind].
  destruct (negb (option_key_eqb now_ (Some held))); [|now exists s].
  assert (Hun : sane cfg (unpressed_numpad_key w None s))
    by (apply sane_unpressed_numpad_key; [discriminate|exact Hs]).
  destruct now_ as [k|]; [|eexists; split; [reflexivity|exact Hun]].
  destruct (one_touch_key_rotation cfg);
    [|eexists; split; [reflexivity|exact Hun]].
  now apply sane_replaced_numpad_key.
Qed.

(** *** Gestures *)

Lemma sane_is_slided_left v s :
  sane cfg s -> sane cfg (snd (is_slided_from_top_left_icon cfg v s)).
Proof.
  intros Hs. unfold is_slided_from_top_left_icon.
  destruct (negb (v =? 0)); [exact Hs|]. destruct (Qis0 _); [exact Hs|].
  assert (H1 : sane cfg (set_none_to_current_mt_slot
                           (set_top_left_icon_touch_start_time 0 s))).
  { apply sane_set_none.
    eapply sane_frame; [apply shape_set_top_left|reflexivity|reflexivity|exact Hs]. }
  destruct (_ && _ && _); exact H1.
Qed.

Lemma sane_is_slided_right v s :
  sane cfg s -> sane cfg (snd (is_slided_from_top_right_icon cfg v s)).
Proof.
  intros Hs. unfold is_slided_from_top_right_icon.
  destruct (negb (v =? 0)); [exact Hs|]. destruct (Qis0 _); [exact Hs|].
  destruct (_ && _ && _); [|exact Hs].
  eapply sane_frame; [apply shape_set_top_right|reflexivity|reflexivity|exact Hs].
Qed.

Lemma sane_takes_top_left w s :
  sane cfg s ->
  sane cfg (snd (takes_top_left_icon_touch_longer_then_set_up_activation_time cfg w s)).
Proof.
  intros Hs. unfold takes_top_left_icon_touch_longer_then_set_up_activation_time.
  destruct (Qis0 _); [exact Hs|]. destruct (_ && _); [|exact Hs].
  eapply sane_frame; [apply shape_set_top_left|reflexivity|reflexivity|exact Hs].
Qed.

Lemma sane_takes_top_right w s :
  sane cfg s ->
  sane cfg (snd (takes_top_right_icon_touch_longer_then_set_up_activation_time cfg w s)).
Proof.
  intros Hs. unfold takes_top_right_icon_touch_longer_then_set_up_activation_time.
  destruct (Qis0 _); [exact Hs|]. destruct (_ && _); [|exact Hs].
  eapply sane_frame; [apply shape_set_top_right|reflexivity|reflexivity|exact Hs].
Qed.

Lemma sane_use_bindings w s :
  sane cfg s -> sane cfg (use_bindings_for_touchpad_left_icon_slide_function cfg w s).
Proof.
  intros Hs. unfold use_bindings_for_touchpad_left_icon_slide_function.
  destruct (send_raises w); [exact Hs|].
  pose proof (sane_emit (send_events (top_left_icon_slide_func_keys cfg)) s Hs) as H1.
  destruct (_ && negb _); [now apply sane_local_numlock_pressed|].
  destruct (_ && _); [now apply sane_local_numlock_pressed|exact H1].
Qed.

(** *** The blocks of the loop body *)

Lemma sane_on_timestamp_top_left w s :
  sane cfg s ->
  exists f, on_timestamp_top_left cfg w s = Ok f /\ sane cfg (flow_state f).
Proof.
  intros Hs. unfold on_timestamp_top_left.
  destruct (numlock s && is_pressed_touchpad_top_left_icon cfg s);
    [|eexists; split; [reflexivity|exact Hs]].
  pose proof (sane_takes_top_left w s Hs) as H1.
  destruct (takes_top_left_icon_touch_longer_then_set_up_activation_time cfg w s)
    as [longer s1]. cbn [snd] in H1.
  destruct (longer && (0 <? Z.of_nat (length (backlight_levels cfg)))
            && negb (top_left_icon_brightness_func_disabled cfg)) eqn:Hc;
    [|eexists; split; [reflexivity|exact H1]].
  apply andb_prop in Hc. destruct Hc as [Hc _].
  apply andb_prop in Hc. destruct Hc as [_ Hlen]. apply Z.ltb_lt in Hlen.
  destruct (sane_increase_brightness w s1 ltac:(lia) H1) as (s2 & E & H2).
  rewrite E. cbn [bind]. eexists. split; [reflexivity|exact H2].
Qed.

Lemma sane_on_timestamp w s :
  sane cfg s ->
  exists f, on_timestamp cfg w s = Ok f /\ sane cfg (flow_state f).
Proof.
  intros Hs. unfold on_timestamp.
  destruct (is_pressed_touchpad_top_right_icon cfg s);
    [|now apply sane_on_timestamp_top_left].
  pose proof (sane_takes_top_right w s Hs) as H1.
  destruct (takes_top_right_icon_touch_longer_then_set_up_activation_time cfg w s)
    as [longer s1]. cbn [snd] in H1.
  destruct longer; [|now apply sane_on_timestamp_top_left].
  pose proof (sane_is_device_enabled w s1 H1) as H2.
  destruct (is_device_enabled w s1) as [en s2]. cbn [snd] in H2.
  destruct (en && touchpad_disables_numpad cfg || negb (touchpad_disables_numpad cfg));
    eexists; (split; [reflexivity|]); cbn [flow_state];
    [now apply sane_local_numlock_pressed|exact H2].
Qed.

Lemma sane_on_btn_tool_grid w v s :
  sane cfg s ->
  exists s', on_btn_tool_grid cfg w v s = Ok s' /\ sane cfg s'.
Proof.
  intros Hs. unfold on_btn_tool_grid.
  destruct (negb (numlock s)); [now exists s|].
  destruct (_ || _ || _ || _); [now exists s|].
  rewrite (floor_div_col cfg Hvalid), (floor_div_row cfg Hvalid). cbn [bind].
  destruct ((_ <? 0) || (_ <? 0)); [now exists s|].
  destruct (option_key_eqb (cur_key s) None && (v =? 0)); [now exists s|].
  destruct (keys_at cfg _ _) as [[key|]|] eqn:Hcell; [|now exists s|now exists s].
  pose proof (keys_at_ok _ _ _ Hcell) as Hok.
  assert (H1 : sane cfg (set_cur_key (Some key) s)) by now apply sane_set_cur_key.
  assert (Hk1 : cur_key (set_cur_key (Some key) s) <> None).
  { rewrite cur_key_set_cur_key by apply Hs. discriminate. }
  destruct (v =? 1).
  - destruct (sane_pressed_numpad_key w _ H1 Hk1) as (s2 & E & H2).
    destruct (key_repetitions cfg); rewrite E; [now exists s2|].
    cbn [bind]. eexists. split; [reflexivity|].
    apply sane_unpressed_numpad_key; [discriminate|exact H2].
  - eexists. split; [reflexivity|].
    apply sane_unpressed_numpad_key; [discriminate|exact H1].
Qed.

Lemma sane_on_btn_tool w v s :
  sane cfg s ->
  exists s', on_btn_tool cfg w v s = Ok s' /\ sane cfg s'.
Proof.
  intros Hs. unfold on_btn_tool.
  destruct (is_pressed_touchpad_top_right_icon cfg s).
  { eexists. split; [reflexivity|]. unfold pressed_touchpad_top_right_icon.
    destruct (v =? 1); [|exact Hs].
    apply sane_set_cur_key; [discriminate|].
    eapply sane_frame; [apply shape_set_top_right|reflexivity|reflexivity|exact Hs]. }
  destruct (is_pressed_touchpad_top_left_icon cfg s).
  { eexists. split; [reflexivity|]. unfold pressed_touchpad_top_left_icon.
    destruct (v =? 1); [|now apply sane_set_none].
    apply sane_set_cur_key; [discriminate|].
    eapply sane_frame; [apply shape_set_top_left|reflexivity|reflexivity|exact Hs]. }
  pose proof (sane_is_slided_left v s Hs) as H1.
  destruct (is_slided_from_top_left_icon cfg v s) as [slided_left s1]. cbn [snd] in H1.
  destruct slided_left.
  { eexists. split; [reflexivity|now apply sane_use_bindings]. }
  pose proof (sane_is_slided_right v s1 H1) as H2.
  destruct (is_slided_from_top_right_icon cfg v s1) as [slided_right s2].
  cbn [snd] in H2.
  destruct slided_right.
  { eexists. split; [reflexivity|]. now apply sane_local_numlock_pressed. }
  now apply sane_on_btn_tool_grid.
Qed.

Lemma sane_listen w e s :
  sane cfg s ->
  exists s', listen_touchpad_events cfg w e s = Ok s' /\ sane cfg s'.
Proof.
  intros Hs. unfold listen_touchpad_events.
  set (s0 := set_last_event_time (time w) s).
  assert (H0 : sane cfg s0)
    by (eapply sane_frame; [apply shape_set_last_event_time|reflexivity|reflexivity|exact Hs]).
  destruct (numlock s0 && _ && _); [now exists s0|].
  set (s1 := if matches e ABS_MT_SLOT then _ else s0).
  assert (H1 : sane cfg s1).
  { unfold s1. destruct (matches e ABS_MT_SLOT); [|exact H0].
    destruct (Z.ltb_spec (ev_value e) (support_for_maximum_abs_mt_slots cfg))
      as [Hlt|Hge]; [|exact H0].
    destruct H0 as ((Hc & Hl) & Hb & Hk).
    split; [|split; [exact Hb|exact Hk]].
    split; [|exact Hl].
    cbn [abs_mt_slot_value set_unsupported_abs_mt_slot set_abs_mt_slot_value].
    unfold support_for_maximum_abs_mt_slots in Hlt.
    destruct (multitouch cfg); lia. }
  clearbody s1. clear s0 H0.
  destruct (unsupported_abs_mt_slot s1); [now exists s1|].
  assert (Hts : exists f,
             (if matches e MSC_TIMESTAMP then on_timestamp cfg w s1 else Ok (Next s1))
             = Ok f /\ sane cfg (flow_state f)).
  { destruct (matches e MSC_TIMESTAMP); [now apply sane_on_timestamp|].
    eexists. split; [reflexivity|exact H1]. }
  destruct Hts as (f & Ef & Hf). rewrite Ef. cbn [bind].
  destruct f as [s2|s2]; cbn [flow_state] in Hf; [|now exists s2].
  assert (Hx : exists s3,
             (if matches e ABS_MT_POSITION_X
              then is_not_finger_moved_to_another_key cfg w (set_cur_x (ev_value e) s2)
              else Ok s2) = Ok s3 /\ sane cfg s3).
  { destruct (matches e ABS_MT_POSITION_X); [|now exists s2].
    apply sane_is_not_finger_moved.
    eapply sane_frame; [apply shape_set_cur_x|reflexivity|reflexivity|exact Hf]. }
  destruct Hx as (s3 & E3 & H3). rewrite E3. cbn [bind].
  assert (Hy : exists s4,
             (if matches e ABS_MT_POSITION_Y
              then is_not_finger_moved_to_another_key cfg w (set_cur_y (ev_value e) s3)
              else Ok s3) = Ok s4 /\ sane cfg s4).
  { destruct (matches e ABS_MT_POSITION_Y); [|now exists s3].
    apply sane_is_not_finger_moved.
    eapply sane_frame; [apply shape_set_cur_y|reflexivity|reflexivity|exact H3]. }
  destruct Hy as (s4 & E4 & H4). rewrite E4. cbn [bind].
  set (s5 := if matches e ABS_MT_TRACKING_ID then _ else s4).
  assert (H5 : sane cfg s5).
  { unfold s5. destruct (matches e ABS_MT_TRACKING_ID); [|exact H4].
    eapply sane_frame; [apply shape_set_tracking_id|reflexivity|reflexivity|exact H4]. }
  destruct (is_btn_tool e); [now apply sane_on_btn_tool|now exists s5].
Qed.

Lemma sane_run (evs : list (world * raw_event)) (s : state) :
  sane cfg s -> exists s', run cfg evs s = Ok s' /\ sane cfg s'.
Proof.
  revert s; induction evs as [|[w e] evs IH]; intros s Hs; [now exists s|].
  destruct (sane_listen w e s Hs) as (s1 & E1 & H1).
  cbn [run]. rewrite E1. cbn [bind]. now apply IH.
Qed.

End Sane.

Lemma sane_initial_state (cfg : config) : sane cfg initial_state.
Proof.
  split; [apply wf_initial_state|]. split; [simpl; lia|].
  repeat constructor; discriminate.
Qed.


Lemma grid_ok_sample (b1 b2 : bool) : grid_ok (sample_layout b1 b2).
Proof.
  intros r [<-|[<-|[<-|[]]]]; repeat constructor; discriminate.
Qed.


(** ** Slot selection *)

(** A slot selection at or beyond the supported number of slots marks
    the cursor unsupported and leaves it where it was; while the cursor
    is marked, every event other than a slot selection is dropped:
    nothing but the event time changes.  A selection of a supported
    slot moves the cursor there and clears the mark. *)
Theorem unsupported_slot_drops_events :
  forall (cfg : config) (w : world) (e : raw_event) (s : state),
    (matches e ABS_MT_SLOT = true ->
     support_for_maximum_abs_mt_slots cfg <= ev_value e ->
     listen_touchpad_events cfg w e s
     = Ok (set_unsupported_abs_mt_slot true (set_last_event_time (time w) s)))
    /\ (matches e ABS_MT_SLOT = false -> unsupported_abs_mt_slot s = true ->
        listen_touchpad_events cfg w e s = Ok (set_last_event_time (time w) s))
    /\ (matches e ABS_MT_SLOT = true ->
        0 <= ev_value e < support_for_maximum_abs_mt_slots cfg ->
        listen_touchpad_events cfg w e s
        = Ok (set_unsupported_abs_mt_slot false
                (set_abs_mt_slot_value (Z.to_nat (ev_value e))
                   (set_last_event_time (time w) s)))).
Proof.
  intros cfg w [c v] s. split; [|split].
  - intros Hm Hv. destruct c; try discriminate Hm.
    unfold listen_touchpad_events.
    cbn [matches ev_code ev_value raw_code_eqb orb]. rewrite andb_false_r.
    cbn [ev_value] in Hv. apply Z.ltb_ge in Hv. rewrite Hv. reflexivity.
  - intros Hm Hu. unfold listen_touchpad_events. rewrite Hm.
    change (unsupported_abs_mt_slot (set_last_event_time (time w) s))
      with (unsupported_abs_mt_slot s).
    rewrite Hu. destruct (_ && _ && _); reflexivity.
  - intros Hm [_ Hv]. destruct c; try discriminate Hm.
    unfold listen_touchpad_events.
    cbn [matches ev_code ev_value raw_code_eqb is_btn_tool orb]. rewrite andb_false_r.
    cbn [ev_value] in Hv. apply Z.ltb_lt in Hv. rewrite Hv. reflexivity.
Qed.

(** Without multitouch the selection of slot 1 is unsupported, and a
    contact-down that follows is dropped. *)
Lemma unsupported_slot_drops_events_witness :
  listen_touchpad_events (sample_layout false false) (calm 1 true)
    (ev ABS_MT_SLOT 1) numpad_switched_on
  = Ok (set_unsupported_abs_mt_slot true (set_last_event_time 1 numpad_switched_on))
  /\ listen_touchpad_events (sample_layout false false) (calm 2 true)
       (ev BTN_TOOL_FINGER 1)
       (set_unsupported_abs_mt_slot true (set_last_event_time 1 numpad_switched_on))
     = Ok (set_last_event_time 2
             (set_unsupported_abs_mt_slot true
                (set_last_event_time 1 numpad_switched_on))).
Proof.
  split.
  - apply (proj1 (unsupported_slot_drops_events (sample_layout false false)
                    (calm 1 true) (ev ABS_MT_SLOT 1) numpad_switched_on)).
    + reflexivity.
    + cbv. discriminate.
  - apply (proj1 (proj2 (unsupported_slot_drops_events (sample_layout false false)
                    (calm 2 true) (ev BTN_TOOL_FINGER 1)
                    (set_unsupported_abs_mt_slot true
                       (set_last_event_time 1 numpad_switched_on)))));
      reflexivity.
Defined.

(** ** Contacts off the keys *)

(** With no icon gesture pending, a contact transition (down or up) at
    a position outside both icons where the mapping gives no key, be it
    outside the usable rectangle, on an empty cell or beyond a ragged
    row, changes nothing but the event time: nothing is written, and a
    key still assigned to the slot stays assigned. *)
Theorem contact_off_the_keys_changes_nothing :
  forall (cfg : config) (w : world) (e : raw_event) (s : state),
    valid_layout cfg ->
    is_btn_tool e = true ->
    unsupported_abs_mt_slot s = false ->
    is_pressed_touchpad_top_right_icon cfg s = false ->
    is_pressed_touchpad_top_left_icon cfg s = false ->
    Qis0 (top_left_icon_touch_start_time s) = true ->
    Qis0 (top_right_icon_touch_start_time s) = true ->
    spec_map cfg (cur_x s) (cur_y s) = None ->
    listen_touchpad_events cfg w e s = Ok (set_last_event_time (time w) s).
Proof.
  intros cfg w e s Hv He Hu Hr Hl Htl Htr Hmap.
  rewrite listen_btn_tool by assumption.
  set (s0 := set_last_event_time (time w) s).
  unfold on_btn_tool.
  change (is_pressed_touchpad_top_right_icon cfg s0)
    with (is_pressed_touchpad_top_right_icon cfg s).
  change (is_pressed_touchpad_top_left_icon cfg s0)
    with (is_pressed_touchpad_top_left_icon cfg s).
  rewrite Hr, Hl.
  rewrite (not_slided_left_unarmed cfg (ev_value e) s0 Htl).
  rewrite (not_slided_right_unarmed cfg (ev_value e) s0 Htr).
  now apply on_btn_tool_grid_unmapped.
Qed.

(** A finger comes down at (200, 450), below the usable rectangle of
    the sample layout: nothing happens. *)
Lemma contact_off_the_keys_changes_nothing_witness :
  listen_touchpad_events (sample_layout false false) (calm 20 true)
    (ev BTN_TOOL_FINGER 1) (at_position 200 450 numpad_switched_on)
  = Ok (set_last_event_time 20 (at_position 200 450 numpad_switched_on)).
Proof.
  apply contact_off_the_keys_changes_nothing; try reflexivity.
  unfold valid_layout. cbv. repeat split; try reflexivity; repeat constructor.
Defined.

(** ** Moving a held key *)

Section HeldKey.

Variable cfg : config.

Lemma moved_within_the_key w s a :
  numlock s = true -> cur_key s = Some (KeyCode a) ->
  get_touched_key cfg s = Ok (Some (KeyCode a)) ->
  is_not_finger_moved_to_another_key cfg w s = Ok s.
Proof.
  intros Hn Hk Hnow. unfold is_not_finger_moved_to_another_key.
  rewrite Hk. destruct (numpad_key_eqb _ _); [reflexivity|].
  destruct (numpad_key_eqb _ _); [reflexivity|].
  rewrite Hn, Hnow. cbn [bind option_key_eqb numpad_key_eqb].
  rewrite Pos.eqb_refl. reflexivity.
Qed.

Lemma moved_off_the_key w s a now_ :
  wf s -> numlock s = true -> send_raises w = false ->
  cur_key s = Some (KeyCode a) -> a <> KEY_CALC -> a <> KEY_NUMLOCK ->
  get_touched_key cfg s = Ok now_ -> now_ <> Some (KeyCode a) ->
  one_touch_key_rotation cfg = false \/ now_ = None ->
  exists s',
    is_not_finger_moved_to_another_key cfg w s = Ok s'
    /\ cur_key s' = None /\ cur_x s' = 0 /\ cur_y s' = 0
    /\ out s' = out s ++ [key_up a].
Proof.
  intros Hwf Hn Hsend Hk Hc Hl Hnow Hne Hmode.
  unfold is_not_finger_moved_to_another_key. rewrite Hk. cbn [numpad_key_eqb].
  apply Pos.eqb_neq in Hc. apply Pos.eqb_neq in Hl. rewrite Hc, Hl, Hn, Hnow.
  cbn [bind].
  assert (Hd : option_key_eqb now_ (Some (KeyCode a)) = false).
  { destruct now_ as [[b|u]|]; cbn [option_key_eqb numpad_key_eqb]; try reflexivity.
    apply Pos.eqb_neq. congruence. }
  rewrite Hd. cbn [negb].
  assert (E : match now_ with
              | Some k => if one_touch_key_rotation cfg
                          then replaced_numpad_key w k s
                          else Ok (unpressed_numpad_key w None s)
              | None => Ok (unpressed_numpad_key w None s)
              end = Ok (unpressed_numpad_key w None s)).
  { destruct Hmode as [Hm| ->]; [|reflexivity].
    rewrite Hm. destruct now_; reflexivity. }
  rewrite E. eexists. split; [reflexivity|].
  unfold unpressed_numpad_key. rewrite Hk. cbn [truthy].
  unfold udev_send. rewrite Hsend.
  set (s1 := emit _ s).
  assert (Hwf1 : wf s1) by (eapply same_shape_wf; [apply shape_emit|exact Hwf]).
  split; [now apply cur_key_set_none|].
  unfold set_none_to_current_mt_slot.
  split; [|split; [|reflexivity]].
  - change (cur_x (set_cur_x 0 (set_cur_key None s1)) = 0). apply cur_x_set_cur_x.
    eapply same_shape_wf; [apply shape_set_cur_key|exact Hwf1].
  - apply cur_y_set_cur_y.
    eapply same_shape_wf; [|exact Hwf1].
    eapply same_shape_trans; [apply shape_set_cur_key|apply shape_set_cur_x].
Qed.

End HeldKey.

(** While the numpad is active and a slot holds a key code, a position
    event that keeps the contact on a cell with that key writes nothing
    and changes only the position; one that takes it to a cell with
    another key while one-touch key rotation is disabled, or to a place
    with no key, writes exactly the release of the held key, leaves
    nothing assigned and resets the slot's position to (0, 0): the
    finger must lift and come down again to press a key. *)
Theorem move_off_the_held_key_releases_it :
  forall (cfg : config) (w : world) (v : Z) (s : state) (a : positive),
    wf s -> unsupported_abs_mt_slot s = false -> numlock s = true ->
    send_raises w = false ->
    cur_key s = Some (KeyCode a) -> a <> KEY_CALC -> a <> KEY_NUMLOCK ->
    (get_touched_key cfg (set_cur_x v s) = Ok (Some (KeyCode a)) ->
     listen_touchpad_events cfg w (ev ABS_MT_POSITION_X v) s
     = Ok (set_cur_x v (set_last_event_time (time w) s)))
    /\ (forall now_,
          get_touched_key cfg (set_cur_x v s) = Ok now_ ->
          now_ <> Some (KeyCode a) ->
          one_touch_key_rotation cfg = false \/ now_ = None ->
          exists s',
            listen_touchpad_events cfg w (ev ABS_MT_POSITION_X v) s = Ok s'
            /\ cur_key s' = None /\ cur_x s' = 0 /\ cur_y s' = 0
            /\ out s' = out s ++ [key_up a])
    /\ (get_touched_key cfg (set_cur_y v s) = Ok (Some (KeyCode a)) ->
        listen_touchpad_events cfg w (ev ABS_MT_POSITION_Y v) s
        = Ok (set_cur_y v (set_last_event_time (time w) s)))
    /\ (forall now_,
          get_touched_key cfg (set_cur_y v s) = Ok now_ ->
          now_ <> Some (KeyCode a) ->
          one_touch_key_rotation cfg = false \/ now_ = None ->
          exists s',
            listen_touchpad_events cfg w (ev ABS_MT_POSITION_Y v) s = Ok s'
            /\ cur_key s' = None /\ cur_x s' = 0 /\ cur_y s' = 0
            /\ out s' = out s ++ [key_up a]).
Proof.
  intros cfg w v s a Hwf Hu Hn Hsend Hk Hc Hl.
  assert (Hwfx : wf (set_cur_x v (set_last_event_time (time w) s))).
  { eapply same_shape_wf; [|exact Hwf].
    eapply same_shape_trans; [apply shape_set_last_event_time|apply shape_set_cur_x]. }
  assert (Hwfy : wf (set_cur_y v (set_last_event_time (time w) s))).
  { eapply same_shape_wf; [|exact Hwf].
    eapply same_shape_trans; [apply shape_set_last_event_time|apply shape_set_cur_y]. }
  assert (Ex : get_touched_key cfg (set_cur_x v (set_last_event_time (time w) s))
               = get_touched_key cfg (set_cur_x v s))
    by (apply get_touched_key_ext; reflexivity).
  assert (Ey : get_touched_key cfg (set_cur_y v (set_last_event_time (time w) s))
               = get_touched_key cfg (set_cur_y v s))
    by (apply get_touched_key_ext; reflexivity).
  split; [|split; [|split]].
  - intros Hnow. rewrite listen_position_x by exact Hu.
    apply (moved_within_the_key cfg w _ a); [exact Hn|exact Hk|congruence].
  - intros now_ Hnow Hne Hmode. rewrite listen_position_x by exact Hu.
    rewrite <- Ex in Hnow.
    exact (moved_off_the_key cfg w _ a now_ Hwfx Hn Hsend Hk Hc Hl Hnow Hne Hmode).
  - intros Hnow. rewrite listen_position_y by exact Hu.
    apply (moved_within_the_key cfg w _ a); [exact Hn|exact Hk|congruence].
  - intros now_ Hnow Hne Hmode. rewrite listen_position_y by exact Hu.
    rewrite <- Ey in Hnow.
    exact (moved_off_the_key cfg w _ a now_ Hwfy Hn Hsend Hk Hc Hl Hnow Hne Hmode).
Qed.

(** Without rotation, the finger on KEY_KP5 slides right onto KEY_KP6:
    KEY_KP5 is released and nothing is pressed. *)
Lemma move_off_the_held_key_releases_it_witness :
  exists s',
    listen_touchpad_events (sample_layout true false) (calm 15 true)
      (ev ABS_MT_POSITION_X 250) holding_a_key = Ok s'
    /\ cur_key s' = None /\ cur_x s' = 0 /\ cur_y s' = 0
    /\ out s' = out holding_a_key ++ [key_up 76].
Proof.
  assert (Hwf : wf holding_a_key).
  { unfold wf. cbv. repeat split; try reflexivity; repeat constructor. }
  destruct (move_off_the_held_key_releases_it
              (sample_layout true false) (calm 15 true) 250 holding_a_key 76
              Hwf eq_refl eq_refl eq_refl eq_refl
              ltac:(discriminate) ltac:(discriminate)) as (_ & H & _).
  apply (H (Some (KeyCode 77))).
  - reflexivity.
  - discriminate.
  - left. reflexivity.
Defined.

(** ** Slides from the icons *)

(** A contact that began on the numlock icon (the slot holds the
    numlock pseudo-key, the hold has not fired) and lifts outside both
    icons, left of and above the slide thresholds, with no brightness
    gesture pending, runs the toggle: the activation flag flips, the
    hold timer goes back to zero and the slot is cleared. *)
Theorem slide_from_numlock_icon_toggles :
  forall (cfg : config) (w : world) (e : raw_event) (s : state),
    wf s -> is_btn_tool e = true -> ev_value e = 0 ->
    unsupported_abs_mt_slot s = false ->
    is_pressed_touchpad_top_right_icon cfg s = false ->
    is_pressed_touchpad_top_left_icon cfg s = false ->
    Qis0 (top_left_icon_touch_start_time s) = true ->
    Qis0 (top_right_icon_touch_start_time s) = false ->
    cur_key s = Some (KeyCode KEY_NUMLOCK) ->
    Qltb (inject_Z (cur_x s))
         (inject_Z (maxx cfg)
          - top_right_icon_slide_func_activation_x_ratio cfg * inject_Z (maxx cfg)) = true ->
    Qltb (inject_Z (cur_y s))
         (inject_Z (maxy cfg)
          - top_right_icon_slide_func_activation_y_ratio cfg * inject_Z (maxy cfg)) = true ->
    exists s',
      listen_touchpad_events cfg w e s = Ok s'
      /\ s' = local_numlock_pressed cfg w
                (set_top_right_icon_touch_start_time 0 (set_last_event_time (time w) s))
      /\ numlock s' = negb (numlock s)
      /\ cur_key s' = None
      /\ top_right_icon_touch_start_time s' = 0%Q.
Proof.
  intros cfg w e s Hwf He Hv Hu Hr Hl Htl Htr Hk Hx Hy.
  rewrite listen_btn_tool by assumption. rewrite Hv.
  set (s0 := set_last_event_time (time w) s).
  unfold on_btn_tool.
  change (is_pressed_touchpad_top_right_icon cfg s0)
    with (is_pressed_touchpad_top_right_icon cfg s).
  change (is_pressed_touchpad_top_left_icon cfg s0)
    with (is_pressed_touchpad_top_left_icon cfg s).
  rewrite Hr, Hl, (not_slided_left_unarmed cfg 0 s0 Htl).
  unfold is_slided_from_top_right_icon.
  change (top_right_icon_touch_start_time s0) with (top_right_icon_touch_start_time s).
  change (cur_key s0) with (cur_key s).
  change (cur_x s0) with (cur_x s). change (cur_y s0) with (cur_y s).
  rewrite Htr, Hk, Hx, Hy. cbn [Z.eqb negb option_key_eqb numpad_key_eqb andb].
  change (Pos.eqb KEY_NUMLOCK KEY_NUMLOCK) with true. cbv iota.
  unfold use_slide_func_for_top_right_icon.
  eexists. split; [reflexivity|]. split; [reflexivity|].
  split; [now rewrite numlock_local_numlock_pressed|].
  split; [|now rewrite top_right_time_local_numlock_pressed].
  apply cur_key_local_numlock_pressed.
  eapply same_shape_wf; [|exact Hwf].
  eapply same_shape_trans; [apply shape_set_last_event_time|apply shape_set_top_right].
Qed.

(** The finger that came down on the numlock icon lifts in the middle
    of the touchpad: the numpad, which was on, goes off. *)
Lemma slide_from_numlock_icon_toggles_witness :
  exists s',
    listen_touchpad_events (sample_layout false false) (calm 21 true)
      (ev BTN_TOOL_FINGER 0) slid_from_numlock_icon = Ok s'
    /\ numlock s' = false /\ cur_key s' = None.
Proof.
  assert (Hwf : wf slid_from_numlock_icon).
  { unfold wf. cbv. repeat split; try reflexivity; repeat constructor. }
  destruct (slide_from_numlock_icon_toggles (sample_layout false false) (calm 21 true)
              (ev BTN_TOOL_FINGER 0) slid_from_numlock_icon Hwf
              eq_refl eq_refl eq_refl eq_refl eq_refl eq_refl eq_refl eq_refl
              eq_refl eq_refl) as (s' & H1 & _ & H3 & H4 & _).
  exists s'. split; [exact H1|]. split; [exact H3|exact H4].
Defined.

Section BrightnessSlide.

Variable cfg : config.

Lemma slide_left_state v s :
  v = 0 -> Qis0 (top_left_icon_touch_start_time s) = false ->
  snd (is_slided_from_top_left_icon cfg v s)
  = set_none_to_current_mt_slot (set_top_left_icon_touch_start_time 0 s).
Proof.
  intros -> Ht. unfold is_slided_from_top_left_icon. rewrite Ht.
  cbn [Z.eqb negb]. destruct (_ && _ && _); reflexivity.
Qed.

Lemma use_bindings_numlock w s :
  send_raises w = false ->
  numlock (use_bindings_for_touchpad_left_icon_slide_function cfg w s)
  = if (top_left_icon_slide_func_activate_numpad cfg && negb (numlock s))
       || (top_left_icon_slide_func_deactivate_numpad cfg && numlock s)
    then negb (numlock s) else numlock s.
Proof.
  intros Hs. unfold use_bindings_for_touchpad_left_icon_slide_function. rewrite Hs.
  change (numlock (emit (send_events (top_left_icon_slide_func_keys cfg)) s))
    with (numlock s).
  destruct (top_left_icon_slide_func_activate_numpad cfg && negb (numlock s));
    [now rewrite numlock_local_numlock_pressed|].
  destruct (top_left_icon_slide_func_deactivate_numpad cfg && numlock s);
    [now rewrite numlock_local_numlock_pressed|reflexivity].
Qed.

Lemma use_bindings_out w s :
  send_raises w = false ->
  exists rest,
    out (use_bindings_for_touchpad_left_icon_slide_function cfg w s)
    = out s ++ send_events (top_left_icon_slide_func_keys cfg) :: rest
    /\ Forall only_host_numlock rest.
Proof.
  intros Hs. unfold use_bindings_for_touchpad_left_icon_slide_function. rewrite Hs.
  set (s1 := emit (send_events (top_left_icon_slide_func_keys cfg)) s).
  assert (Hl : exists rest,
             out (local_numlock_pressed cfg w s1)
             = out s ++ send_events (top_left_icon_slide_func_keys cfg) :: rest
             /\ Forall only_host_numlock rest).
  { destruct (quiet_local_numlock_pressed cfg w s1) as (_ & _ & _ & _ & new & Ho & Hn).
    exists new. split; [|exact Hn]. rewrite Ho. unfold s1. cbn [out emit].
    now rewrite <- app_assoc. }
  destruct (_ && negb _); [exact Hl|]. destruct (_ && _); [exact Hl|].
  exists []. split; [reflexivity|constructor].
Qed.

End BrightnessSlide.



(** ** The brightness icon held *)

Lemma increase_brightness_Ok (cfg : config) (w : world) (s : state) :
  (0 < length (backlight_levels cfg))%nat ->
  -1 <= brightness s < Z.of_nat (length (backlight_levels cfg)) ->
  call_raises w = false ->
  exists level,
    nth_error (backlight_levels cfg)
      (Z.to_nat ((brightness s + 1) mod Z.of_nat (length (backlight_levels cfg))))
    = Some level
    /\ increase_brightness cfg w s
       = Ok (emit (i2ctransfer level)
               (emit (config_write level)
                  (set_brightness
                     ((brightness s + 1) mod Z.of_nat (length (backlight_levels cfg)))
                     s))).
Proof.
  intros Hlen Hb Hc. unfold increase_brightness.
  set (n := Z.of_nat (length (backlight_levels cfg))) in *.
  assert (Hn : 0 < n) by (unfold n; lia).
  assert (E : (if n <=? brightness s + 1 then 0 else brightness s + 1)
              = (brightness s + 1) mod n).
  { destruct (Z.leb_spec n (brightness s + 1)) as [Hle|Hlt].
    - assert (brightness s + 1 = n) as -> by lia. now rewrite Z.mod_same by lia.
    - now rewrite Z.mod_small by lia. }
  rewrite E.
  pose proof (Z.mod_pos_bound (brightness s + 1) n Hn) as Hr.
  set (b := (brightness s + 1) mod n) in *.
  unfold py_index. destruct (Z.leb_spec 0 b) as [_|Hneg]; [|lia].
  destruct (nth_error (backlight_levels cfg) (Z.to_nat b)) as [level|] eqn:Hl.
  2:{ apply nth_error_None in Hl. unfold n in Hr. lia. }
  exists level. split; [reflexivity|]. unfold subprocess_call. now rewrite Hc.
Qed.

(** A timestamp event arrives while the numpad is active, the contact
    rests inside the brightness icon (and not inside the numlock icon),
    the slot holds the brightness pseudo-key and the hold has lasted
    longer than the activation time.  The hold timer restarts at the
    current clock, so the gesture fires again after another activation
    time without lifting.  With a non-empty level list and the
    brightness function not disabled, the brightness advances by one
    level (one config write, one bus command) and the pseudo-key stays
    assigned; with an empty level list or the function disabled,
    nothing but the restart of the timer happens. *)
Theorem brightness_hold_advances_and_rearms :
  forall (cfg : config) (w : world) (v : Z) (s : state),
    unsupported_abs_mt_slot s = false -> numlock s = true ->
    is_pressed_touchpad_top_right_icon cfg s = false ->
    is_pressed_touchpad_top_left_icon cfg s = true ->
    Qis0 (top_left_icon_touch_start_time s) = false ->
    cur_key s = Some (KeyCode KEY_CALC) ->
    Qltb (top_left_icon_activation_time cfg)
         (time w - top_left_icon_touch_start_time s) = true ->
    let rearmed :=
      set_top_left_icon_touch_start_time (time w) (set_last_event_time (time w) s) in
    ((0 < length (backlight_levels cfg))%nat ->
     top_left_icon_brightness_func_disabled cfg = false ->
     -1 <= brightness s < Z.of_nat (length (backlight_levels cfg)) ->
     call_raises w = false ->
     exists level s',
       listen_touchpad_events cfg w (ev MSC_TIMESTAMP v) s = Ok s'
       /\ brightness s'
          = (brightness s + 1) mod Z.of_nat (length (backlight_levels cfg))
       /\ nth_error (backlight_levels cfg) (Z.to_nat (brightness s')) = Some level
       /\ out s' = out s ++ [config_write level; i2ctransfer level]
       /\ top_left_icon_touch_start_time s' = time w
       /\ cur_key s' = Some (KeyCode KEY_CALC))
    /\ (backlight_levels cfg = []
        \/ top_left_icon_brightness_func_disabled cfg = true ->
        listen_touchpad_events cfg w (ev MSC_TIMESTAMP v) s = Ok rearmed).
Proof.
  intros cfg w v s Hu Hn Hr Hl Ht Hk Hlong rearmed.
  set (s0 := set_last_event_time (time w) s).
  assert (Hfirst : listen_touchpad_events cfg w (ev MSC_TIMESTAMP v) s
                   = (f <- (if true
                                && (0 <? Z.of_nat (length (backlight_levels cfg)))
                                && negb (top_left_icon_brightness_func_disabled cfg)
                            then s2 <- increase_brightness cfg w rearmed ;;
                                 Ok (Continue s2)
                            else Ok (Next rearmed)) ;;
                      match f with Continue s' => Ok s' | Next s' => Ok s' end)).
  { rewrite listen_timestamp by exact Hu. fold s0. unfold on_timestamp.
    change (is_pressed_touchpad_top_right_icon cfg s0)
      with (is_pressed_touchpad_top_right_icon cfg s).
    rewrite Hr. unfold on_timestamp_top_left.
    change (numlock s0) with (numlock s).
    change (is_pressed_touchpad_top_left_icon cfg s0)
      with (is_pressed_touchpad_top_left_icon cfg s).
    rewrite Hn, Hl. cbn [andb].
    unfold takes_top_left_icon_touch_longer_then_set_up_activation_time.
    change (top_left_icon_touch_start_time s0) with (top_left_icon_touch_start_time s).
    change (cur_key s0) with (cur_key s).
    rewrite Ht, Hk, Hlong. cbn [option_key_eqb numpad_key_eqb].
    change (Pos.eqb KEY_CALC KEY_CALC) with true. reflexivity. }
  rewrite Hfirst. clear Hfirst. split.
  - intros Hlen Hdis Hb Hc.
    assert (Hlen' : (0 <? Z.of_nat (length (backlight_levels cfg))) = true)
      by (apply Z.ltb_lt; lia).
    rewrite Hlen', Hdis. cbn [andb negb].
    destruct (increase_brightness_Ok cfg w rearmed Hlen Hb Hc) as (level & Hlv & E).
    rewrite E. cbn [bind]. exists level. eexists. split; [reflexivity|].
    split; [reflexivity|]. split; [exact Hlv|].
    split; [cbn [out emit set_brightness]; now rewrite <- app_assoc|].
    split; [reflexivity|exact Hk].
  - intros [Hnil|Hdis].
    + rewrite Hnil. reflexivity.
    + rewrite Hdis. cbn [negb]. rewrite andb_false_r. reflexivity.
Qed.

(** The finger has rested on the brightness icon from clock 20 to
    clock 22: the brightness goes from level 0 to level 1 and the timer
    restarts at 22. *)
Lemma brightness_hold_advances_and_rearms_witness :
  exists level s',
    listen_touchpad_events (sample_layout false false) (calm 22 true)
      (ev MSC_TIMESTAMP 0) holding_brightness_icon = Ok s'
    /\ brightness s' = 1
    /\ nth_error (backlight_levels (sample_layout false false))
         (Z.to_nat (brightness s')) = Some level
    /\ out s' = out holding_brightness_icon ++ [config_write level; i2ctransfer level]
    /\ top_left_icon_touch_start_time s' = 22%Q
    /\ cur_key s' = Some (KeyCode KEY_CALC).
Proof.
  apply (proj1 (brightness_hold_advances_and_rearms (sample_layout false false)
                  (calm 22 true) 0 holding_brightness_icon
                  eq_refl eq_refl eq_refl eq_refl eq_refl eq_refl eq_refl)).
  - simpl. lia.
  - reflexivity.
  - cbv. split; [discriminate|reflexivity].
  - reflexivity.
Defined.

(** ** The numpad inactive *)

Section Inactive.

Variable cfg : config.

Lemma writes_icons_only_refl s : writes_icons_only cfg s s.
Proof. exists []. split; [now rewrite app_nil_r|constructor]. Qed.

Lemma writes_icons_only_same s s' : out s' = out s -> writes_icons_only cfg s s'.
Proof. intros H. exists []. split; [now rewrite app_nil_r|constructor]. Qed.

Lemma writes_icons_only_trans s1 s2 s3 :
  writes_icons_only cfg s1 s2 -> writes_icons_only cfg s2 s3 ->
  writes_icons_only cfg s1 s3.
Proof.
  intros (n1 & H1 & F1) (n2 & H2 & F2). exists (n1 ++ n2). split.
  - now rewrite H2, H1, app_assoc.
  - apply Forall_app. now split.
Qed.

Lemma only_host_numlock_icon_write e : only_host_numlock e -> icon_write cfg e.
Proof. destruct e; simpl; auto. Qed.

Lemma writes_icons_only_quiet s s' : quiet s s' -> writes_icons_only cfg s s'.
Proof.
  intros (_ & _ & _ & _ & new & Ho & Hn). exists new. split; [exact Ho|].
  eapply Forall_impl; [|exact Hn]. apply only_host_numlock_icon_write.
Qed.

Lemma writes_icons_only_use_bindings w s :
  writes_icons_only cfg s (use_bindings_for_touchpad_left_icon_slide_function cfg w s).
Proof.
  unfold use_bindings_for_touchpad_left_icon_slide_function.
  destruct (send_raises w); [apply writes_icons_only_refl|].
  set (s1 := emit (send_events (top_left_icon_slide_func_keys cfg)) s).
  assert (H1 : writes_icons_only cfg s s1).
  { exists [send_events (top_left_icon_slide_func_keys cfg)]. split; [reflexivity|].
    constructor; [now left|constructor]. }
  assert (H2 : writes_icons_only cfg s (local_numlock_pressed cfg w s1)).
  { eapply writes_icons_only_trans; [exact H1|].
    apply writes_icons_only_quiet, quiet_local_numlock_pressed. }
  destruct (_ && negb _); [exact H2|]. destruct (_ && _); [exact H2|exact H1].
Qed.

Lemma moved_while_inactive w s :
  numlock s = false -> is_not_finger_moved_to_another_key cfg w s = Ok s.
Proof.
  intros Hn. unfold is_not_finger_moved_to_another_key.
  destruct (cur_key s); [|reflexivity].
  destruct (numpad_key_eqb _ _); [reflexivity|].
  destruct (numpad_key_eqb _ _); [reflexivity|]. now rewrite Hn.
Qed.

Lemma on_timestamp_while_inactive w s :
  numlock s = false ->
  exists f, on_timestamp cfg w s = Ok f /\ writes_icons_only cfg s (flow_state f).
Proof.
  intros Hn.
  assert (Hleft : forall s1, numlock s1 = false ->
                             on_timestamp_top_left cfg w s1 = Ok (Next s1)).
  { intros s1 H1. unfold on_timestamp_top_left. now rewrite H1. }
  unfold on_timestamp.
  destruct (is_pressed_touchpad_top_right_icon cfg s).
  2:{ rewrite (Hleft s Hn). eexists. split; [reflexivity|apply writes_icons_only_refl]. }
  pose proof (quiet_takes_top_right cfg w s) as Hq.
  assert (Hn1 : numlock (snd (takes_top_right_icon_touch_longer_then_set_up_activation_time
                                cfg w s)) = false).
  { unfold takes_top_right_icon_touch_longer_then_set_up_activation_time.
    destruct (Qis0 _); [exact Hn|]. destruct (_ && _); exact Hn. }
  destruct (takes_top_right_icon_touch_longer_then_set_up_activation_time cfg w s)
    as [longer s1]. cbn [snd] in Hq, Hn1.
  destruct longer.
  - pose proof (quiet_is_device_enabled w s1) as Hq2.
    destruct (is_device_enabled w s1) as [en s2]. cbn [snd] in Hq2.
    destruct (en && touchpad_disables_numpad cfg || negb (touchpad_disables_numpad cfg));
      eexists; (split; [reflexivity|]); cbn [flow_state];
      apply writes_icons_only_quiet.
    + eapply quiet_trans; [exact Hq|].
      eapply quiet_trans; [exact Hq2|apply quiet_local_numlock_pressed].
    + eapply quiet_trans; eassumption.
  - rewrite (Hleft s1 Hn1). eexists. split; [reflexivity|].
    now apply writes_icons_only_quiet.
Qed.

Lemma on_btn_tool_while_inactive w v s :
  numlock s = false ->
  exists s', on_btn_tool cfg w v s = Ok s' /\ writes_icons_only cfg s s'.
Proof.
  intros Hn. unfold on_btn_tool.
  destruct (is_pressed_touchpad_top_right_icon cfg s).
  { eexists. split; [reflexivity|]. apply writes_icons_only_same.
    unfold pressed_touchpad_top_right_icon. destruct (v =? 1); reflexivity. }
  destruct (is_pressed_touchpad_top_left_icon cfg s).
  { eexists. split; [reflexivity|]. apply writes_icons_only_same.
    unfold pressed_touchpad_top_left_icon. destruct (v =? 1); reflexivity. }
  assert (H1 : out (snd (is_slided_from_top_left_icon cfg v s)) = out s
               /\ numlock (snd (is_slided_from_top_left_icon cfg v s)) = false).
  { unfold is_slided_from_top_left_icon. destruct (negb (v =? 0)); [now split|].
    destruct (Qis0 _); [now split|]. destruct (_ && _ && _); now split. }
  destruct (is_slided_from_top_left_icon cfg v s) as [slided_left s1].
  cbn [snd] in H1. destruct H1 as [Ho1 Hn1].
  assert (W1 : writes_icons_only cfg s s1) by now apply writes_icons_only_same.
  destruct slided_left.
  { eexists. split; [reflexivity|].
    eapply writes_icons_only_trans; [exact W1|apply writes_icons_only_use_bindings]. }
  assert (H2 : out (snd (is_slided_from_top_right_icon cfg v s1)) = out s1
               /\ numlock (snd (is_slided_from_top_right_icon cfg v s1)) = false).
  { unfold is_slided_from_top_right_icon. destruct (negb (v =? 0)); [now split|].
    destruct (Qis0 _); [now split|]. destruct (_ && _ && _); now split. }
  destruct (is_slided_from_top_right_icon cfg v s1) as [slided_right s2].
  cbn [snd] in H2. destruct H2 as [Ho2 Hn2].
  assert (W2 : writes_icons_only cfg s s2).
  { eapply writes_icons_only_trans; [exact W1|now apply writes_icons_only_same]. }
  destruct slided_right.
  { eexists. split; [reflexivity|].
    eapply writes_icons_only_trans; [exact W2|].
    apply writes_icons_only_quiet, quiet_local_numlock_pressed. }
  unfold on_btn_tool_grid. rewrite Hn2. exists s2. split; [reflexivity|exact W2].
Qed.

Lemma listen_while_inactive w e s :
  numlock s = false ->
  exists s', listen_touchpad_events cfg w e s = Ok s' /\ writes_icons_only cfg s s'.
Proof.
  intros Hn. unfold listen_touchpad_events.
  set (s0 := set_last_event_time (time w) s).
  change (numlock s0) with (numlock s). rewrite Hn. cbn [andb].
  set (s1 := if matches e ABS_MT_SLOT then _ else s0).
  assert (H1 : numlock s1 = false /\ out s1 = out s).
  { unfold s1. destruct (matches e ABS_MT_SLOT); [|now split].
    destruct (_ <? _); now split. }
  destruct H1 as [Hn1 Ho1]. clearbody s1. clear s0.
  assert (W1 : writes_icons_only cfg s s1) by now apply writes_icons_only_same.
  destruct (unsupported_abs_mt_slot s1); [now exists s1|].
  destruct (matches e MSC_TIMESTAMP) eqn:Hts.
  - destruct e as [c v]. destruct c; try discriminate Hts.
    destruct (on_timestamp_while_inactive w s1 Hn1) as (f & Ef & Wf).
    rewrite Ef. cbn [bind].
    exists (flow_state f). split; [destruct f; reflexivity|].
    eapply writes_icons_only_trans; eassumption.
  - cbn [bind].
    assert (Hx : (if matches e ABS_MT_POSITION_X
                  then is_not_finger_moved_to_another_key cfg w
                         (set_cur_x (ev_value e) s1)
                  else Ok s1)
                 = Ok (if matches e ABS_MT_POSITION_X
                       then set_cur_x (ev_value e) s1 else s1)).
    { destruct (matches e ABS_MT_POSITION_X); [|reflexivity].
      now apply moved_while_inactive. }
    rewrite Hx. cbn [bind].
    set (s2 := if matches e ABS_MT_POSITION_X then _ else s1).
    assert (H2 : numlock s2 = false /\ out s2 = out s1)
      by (unfold s2; destruct (matches e ABS_MT_POSITION_X); now split).
    destruct H2 as [Hn2 Ho2]. clearbody s2.
    assert (Hy : (if matches e ABS_MT_POSITION_Y
                  then is_not_finger_moved_to_another_key cfg w
                         (set_cur_y (ev_value e) s2)
                  else Ok s2)
                 = Ok (if matches e ABS_MT_POSITION_Y
                       then set_cur_y (ev_value e) s2 else s2)).
    { destruct (matches e ABS_MT_POSITION_Y); [|reflexivity].
      now apply moved_while_inactive. }
    rewrite Hy. cbn [bind].
    set (s3 := if matches e ABS_MT_POSITION_Y then _ else s2).
    assert (H3 : numlock s3 = false /\ out s3 = out s2)
      by (unfold s3; destruct (matches e ABS_MT_POSITION_Y); now split).
    destruct H3 as [Hn3 Ho3]. clearbody s3.
    set (s4 := if matches e ABS_MT_TRACKING_ID then _ else s3).
    assert (H4 : numlock s4 = false /\ out s4 = out s3)
      by (unfold s4; destruct (matches e ABS_MT_TRACKING_ID); now split).
    destruct H4 as [Hn4 Ho4]. clearbody s4.
    assert (W4 : writes_icons_only cfg s s4).
    { apply writes_icons_only_same. congruence. }
    destruct (is_btn_tool e); [|now exists s4].
    destruct (on_btn_tool_while_inactive w (ev_value e) s4 Hn4) as (s5 & E5 & W5).
    exists s5. split; [exact E5|].
    eapply writes_icons_only_trans; eassumption.
Qed.

End Inactive.

(** While the numpad is inactive, the loop handles any event without
    raising, on any layout and whatever the slots hold, and writes no
    grid key: every write to the virtual device is the host numlock key
    of the toggle or the keys bound to the slide from the brightness
    icon. *)
Theorem inactive_numpad_writes_no_grid_key :
  forall (cfg : config) (w : world) (e : raw_event) (s : state),
    numlock s = false ->
    exists s' new,
      listen_touchpad_events cfg w e s = Ok s'
      /\ out s' = out s ++ new
      /\ Forall (icon_write cfg) new.
Proof.
  intros cfg w e s Hn.
  destruct (listen_while_inactive cfg w e s Hn) as (s' & E & new & Ho & Hnew).
  exists s', new. auto.
Qed.

(** A finger comes down on the middle cell before the numpad was ever
    switched on. *)
Lemma inactive_numpad_writes_no_grid_key_witness :
  exists s' new,
    listen_touchpad_events (sample_layout true true) (calm 1 true)
      (ev BTN_TOOL_FINGER 1) (at_position 150 250 initial_state) = Ok s'
    /\ out s' = out (at_position 150 250 initial_state) ++ new
    /\ Forall (icon_write (sample_layout true true)) new.
Proof.
  apply inactive_numpad_writes_no_grid_key. reflexivity.
Defined.

(** ** Taps on a literal *)

Section LiteralTap.

Variable cfg : config.

Lemma tap_on_literal_at t c rest s :
  cur_x s = tap_x t -> cur_y s = tap_y t -> tap_on_literal cfg t c rest ->
  is_pressed_touchpad_top_right_icon cfg s = false
  /\ is_pressed_touchpad_top_left_icon cfg s = false
  /\ (cur_x s <? minx_numpad cfg) || (maxx_numpad cfg <? cur_x s)
     || (cur_y s <? miny_numpad cfg) || (maxy_numpad cfg <? cur_y s) = false
  /\ exists col row,
       floor_div (cur_x s - minx_numpad cfg) (col_width cfg) = Ok col
       /\ floor_div (cur_y s - miny_numpad cfg) (row_height cfg) = Ok row
       /\ (row <? 0) || (col <? 0) = false
       /\ keys_at cfg row col = Some (Some (Unicode (c :: rest))).
Proof.
  intros Hx Hy (_ & Hr & Hl & Hin & Hkey).
  split; [|split; [|split]].
  - rewrite <- Hr. apply top_right_icon_ext;
      [now rewrite cur_x_at_position|now rewrite cur_y_at_position].
  - rewrite <- Hl. apply top_left_icon_ext;
      [now rewrite cur_x_at_position|now rewrite cur_y_at_position].
  - rewrite Hx, Hy. now apply inside_rectangle_check.
  - apply get_touched_key_Some_inv. rewrite <- Hkey. apply get_touched_key_ext;
      [now rewrite cur_x_at_position|now rewrite cur_y_at_position].
Qed.

Lemma literal_contact_down t c rest s :
  idle s -> cur_x s = tap_x t -> cur_y s = tap_y t -> tap_on_literal cfg t c rest ->
  exists s1,
    on_btn_tool cfg (tap_world t) 1 s = Ok s1
    /\ out s1 = out s ++ [send_events (spec_compose_sequence_of_char c)]
    /\ wf s1 /\ unsupported_abs_mt_slot s1 = false /\ numlock s1 = true
    /\ Qis0 (top_left_icon_touch_start_time s1) = true
    /\ Qis0 (top_right_icon_touch_start_time s1) = true
    /\ (key_repetitions cfg = false -> cur_key s1 = None)
    /\ (key_repetitions cfg = true ->
        cur_key s1 = Some (Unicode (c :: rest))
        /\ cur_x s1 = tap_x t /\ cur_y s1 = tap_y t).
Proof.
  intros (Hwf & Hu & Hn & Hk & Hl & Hr) Hx Hy Htap.
  destruct (tap_on_literal_at t c rest s Hx Hy Htap)
    as (Hri & Hli & Hrect & col & row & Ecol & Erow & Hneg & Hcell).
  destruct Htap as (Hsend & _).
  unfold on_btn_tool. rewrite Hri, Hli.
  rewrite (not_slided_left_unarmed cfg 1 s Hl), (not_slided_right_unarmed cfg 1 s Hr).
  unfold on_btn_tool_grid. rewrite Hn. cbn [negb]. rewrite Hrect, Ecol, Erow.
  cbn [bind]. rewrite Hneg, Hk, Hcell. cbn [option_key_eqb andb Z.eqb Pos.eqb].
  set (s1 := set_cur_key (Some (Unicode (c :: rest))) s).
  assert (Hwf1 : wf s1) by (eapply same_shape_wf; [apply shape_set_cur_key|exact Hwf]).
  assert (Hk1 : cur_key s1 = Some (Unicode (c :: rest)))
    by now apply cur_key_set_cur_key.
  unfold pressed_numpad_key. rewrite Hk1, get_events_for_unicode_string_head.
  unfold udev_send. rewrite Hsend.
  set (s2 := emit (send_events (spec_compose_sequence_of_char c)) s1).
  assert (Hwf2 : wf s2) by (eapply same_shape_wf; [apply shape_emit|exact Hwf1]).
  destruct (key_repetitions cfg).
  - exists s2. split; [reflexivity|]. split; [reflexivity|].
    repeat (split; [assumption|]). split; [discriminate|].
    intros _. split; [exact Hk1|]. split; assumption.
  - cbn [bind]. unfold unpressed_numpad_key.
    change (cur_key s2) with (cur_key s1). rewrite Hk1. cbn [truthy].
    eexists. split; [reflexivity|]. split; [reflexivity|].
    split; [eapply same_shape_wf; [apply shape_set_none|exact Hwf2]|].
    repeat (split; [assumption|]).
    split; [intros _; now apply cur_key_set_none|discriminate].
Qed.

Lemma literal_contact_up t c rest s :
  wf s -> unsupported_abs_mt_slot s = false -> numlock s = true ->
  Qis0 (top_left_icon_touch_start_time s) = true ->
  Qis0 (top_right_icon_touch_start_time s) = true ->
  cur_key s = Some (Unicode (c :: rest)) ->
  cur_x s = tap_x t -> cur_y s = tap_y t -> tap_on_literal cfg t c rest ->
  exists s1,
    on_btn_tool cfg (tap_world t) 0 s = Ok s1 /\ out s1 = out s /\ cur_key s1 = None.
Proof.
  intros Hwf Hu Hn Hl Hr Hk Hx Hy Htap.
  destruct (tap_on_literal_at t c rest s Hx Hy Htap)
    as (Hri & Hli & Hrect & col & row & Ecol & Erow & Hneg & Hcell).
  unfold on_btn_tool. rewrite Hri, Hli.
  rewrite (not_slided_left_unarmed cfg 0 s Hl), (not_slided_right_unarmed cfg 0 s Hr).
  unfold on_btn_tool_grid. rewrite Hn. cbn [negb]. rewrite Hrect, Ecol, Erow.
  cbn [bind]. rewrite Hneg, Hk, Hcell. cbn [option_key_eqb andb Z.eqb].
  set (s1 := set_cur_key (Some (Unicode (c :: rest))) s).
  assert (Hwf1 : wf s1) by (eapply same_shape_wf; [apply shape_set_cur_key|exact Hwf]).
  assert (Hk1 : cur_key s1 = Some (Unicode (c :: rest)))
    by now apply cur_key_set_cur_key.
  unfold unpressed_numpad_key. rewrite Hk1. cbn [truthy].
  eexists. split; [reflexivity|]. split; [reflexivity|].
  now apply cur_key_set_none.
Qed.

End LiteralTap.

(** While the numpad is active and no icon gesture is pending, a
    contact-down followed by a contact-up on a cell that holds a
    literal writes one thing in all: the compose sequence of the
    literal's first character, at the contact-down, in both key
    repetition modes; the contact-up writes nothing and leaves nothing
    assigned. *)
Theorem tap_on_literal_writes_its_compose_sequence_once :
  forall (cfg : config) (t : tap) (c : N) (rest : list N) (s : state),
    idle s -> cur_x s = tap_x t -> cur_y s = tap_y t ->
    tap_on_literal cfg t c rest ->
    exists s1 s2,
      listen_touchpad_events cfg (tap_world t) (ev BTN_TOOL_FINGER 1) s = Ok s1
      /\ out s1 = out s ++ [send_events (spec_compose_sequence_of_char c)]
      /\ listen_touchpad_events cfg (tap_world t) (ev BTN_TOOL_FINGER 0) s1 = Ok s2
      /\ out s2 = out s1
      /\ cur_key s2 = None.
Proof.
  intros cfg t c rest s Hidle Hx Hy Htap.
  set (w := tap_world t).
  assert (Hw : Qis0 (col_width cfg) = false /\ Qis0 (row_height cfg) = false).
  { destruct Htap as (_ & _ & _ & _ & H). apply get_touched_key_Some_inv in H.
    destruct H as (col & row & H1 & H2 & _).
    split; eapply floor_div_Ok_width; eassumption. }
  destruct Hw as [Hcw Hrh].
  assert (Hu : unsupported_abs_mt_slot s = false) by (destruct Hidle as (_ & H & _); exact H).
  pose proof (listen_btn_tool cfg w (ev BTN_TOOL_FINGER 1) s eq_refl Hu) as L1.
  change (ev_value (ev BTN_TOOL_FINGER 1)) with 1 in L1.
  destruct (literal_contact_down cfg t c rest (set_last_event_time (time w) s)
              Hidle Hx Hy Htap)
    as (s1 & E1 & O1 & Hwf1 & Hu1 & Hn1 & Hl1 & Hr1 & Hnr & Hrep).
  fold w in E1. rewrite E1 in L1.
  pose proof (listen_btn_tool cfg w (ev BTN_TOOL_FINGER 0) s1 eq_refl Hu1) as L2.
  change (ev_value (ev BTN_TOOL_FINGER 0)) with 0 in L2.
  exists s1.
  destruct (key_repetitions cfg).
  - destruct (Hrep eq_refl) as (Hk1 & X1 & Y1).
    destruct (literal_contact_up cfg t c rest (set_last_event_time (time w) s1)
                Hwf1 Hu1 Hn1 Hl1 Hr1 Hk1 X1 Y1 Htap) as (s2 & E2 & O2 & K2).
    fold w in E2. rewrite E2 in L2.
    exists s2. repeat (split; [assumption|]). exact K2.
  - assert (I1 : idle s1) by (repeat split; try assumption; apply Hwf1 || now apply Hnr).
    destruct (on_btn_tool_up_idle cfg w (set_last_event_time (time w) s1) I1 Hcw Hrh)
      as (s2 & E2 & I2 & O2).
    rewrite E2 in L2.
    exists s2. repeat (split; [assumption|]).
    destruct I2 as (_ & _ & _ & H & _). exact H.
Qed.

(** A tap on the percent sign (U+0025) of [percent_layout]. *)
Lemma tap_on_literal_writes_its_compose_sequence_once_witness :
  exists s1 s2,
    listen_touchpad_events (percent_layout true) (calm 14 true)
      (ev BTN_TOOL_FINGER 1) (at_position 150 250 numpad_switched_on) = Ok s1
    /\ out s1 = out (at_position 150 250 numpad_switched_on)
                ++ [send_events (spec_compose_sequence_of_char 37)]
    /\ listen_touchpad_events (percent_layout true) (calm 14 true)
         (ev BTN_TOOL_FINGER 0) s1 = Ok s2
    /\ out s2 = out s1
    /\ cur_key s2 = None.
Proof.
  apply (tap_on_literal_writes_its_compose_sequence_once (percent_layout true)
           (mkTap 150 250 (calm 14 true)) 37 []).
  - unfold idle, wf. cbv. repeat split; try reflexivity; repeat constructor.
  - reflexivity.
  - reflexivity.
  - unfold tap_on_literal. repeat split; reflexivity.
Defined.

(** ** The host numlock monitor *)

(** One poll of the host numlock monitor never writes to the virtual
    device and never leaves the numpad active while the host numlock
    is off (or unknown); an inactive numpad follows the host numlock
    on exactly when sys_numlock_enables_numpad is set. *)
Theorem host_numlock_poll :
  forall (cfg : config) (w : world) (s : state),
    emitted (out (check_system_numlock_vs_local cfg w s)) = emitted (out s)
    /\ (numlock (check_system_numlock_vs_local cfg w s) = true -> sys_numlock w = true)
    /\ (numlock s = false ->
        numlock (check_system_numlock_vs_local cfg w s)
        = sys_numlock w && sys_numlock_enables_numpad cfg).
Proof.
  intros cfg w s.
  assert (Ha : forall s0, emitted (out (activate_numpad cfg w s0)) = emitted (out s0)).
  { intros s0. unfold activate_numpad.
    destruct (grab_raises w); [reflexivity|].
    destruct (call_raises w);
      [cbn [out emit]; now rewrite emitted_app, app_nil_r|].
    destruct (String.eqb (default_backlight_level cfg) "0x01");
      destruct (list_index _ _); cbn [out set_brightness emit];
      rewrite !emitted_app; cbn [emitted flat_map]; now rewrite ?app_nil_r. }
  assert (Hd : forall s0, emitted (out (deactivate_numpad w s0)) = emitted (out s0)).
  { intros s0. unfold deactivate_numpad.
    destruct (ungrab_raises w); [reflexivity|].
    destruct (call_raises w); cbn [out set_brightness emit];
      rewrite !emitted_app; cbn [emitted flat_map]; now rewrite ?app_nil_r. }
  unfold check_system_numlock_vs_local.
  destruct (sys_numlock w) eqn:Hsys, (numlock s) eqn:Hn,
    (sys_numlock_enables_numpad cfg); cbn [negb andb];
    rewrite ?Ha, ?Hd, ?numlock_activate, ?numlock_deactivate, ?Hn;
    cbn [numlock set_numlock out]; repeat split; auto; discriminate.
Qed.

(** ** A hold shorter than the activation time *)

Section ShortHold.

Variable cfg : config.

Lemma short_hold_step w e s :
  unsupported_abs_mt_slot s = false ->
  cur_key s = Some (KeyCode KEY_NUMLOCK) ->
  within_activation_time cfg (top_right_icon_touch_start_time s) (w, e) ->
  listen_touchpad_events cfg w e s = Ok (set_last_event_time (time w) s).
Proof.
  intros Hu Hk [Hm Ht]. cbn [fst snd] in Hm, Ht.
  destruct e as [c v]. destruct c; try discriminate Hm.
  pose proof (listen_timestamp cfg w v s Hu) as E. unfold ev in E. rewrite E.
  set (s0 := set_last_event_time (time w) s).
  assert (Hright : takes_top_right_icon_touch_longer_then_set_up_activation_time cfg w s0
                   = (false, s0)).
  { unfold takes_top_right_icon_touch_longer_then_set_up_activation_time.
    change (top_right_icon_touch_start_time s0) with (top_right_icon_touch_start_time s).
    destruct (Qis0 (top_right_icon_touch_start_time s)); [reflexivity|].
    rewrite Ht, andb_false_r. reflexivity. }
  assert (Hleft : on_timestamp_top_left cfg w s0 = Ok (Next s0)).
  { unfold on_timestamp_top_left.
    destruct (numlock s0 && is_pressed_touchpad_top_left_icon cfg s0); [|reflexivity].
    unfold takes_top_left_icon_touch_longer_then_set_up_activation_time.
    change (cur_key s0) with (cur_key s). rewrite Hk.
    destruct (Qis0 (top_left_icon_touch_start_time s0)); reflexivity. }
  unfold on_timestamp.
  destruct (is_pressed_touchpad_top_right_icon cfg s0);
    rewrite ?Hright, Hleft; reflexivity.
Qed.

End ShortHold.

(** While a slot holds the numlock pseudo-key, timestamp events whose
    clock is within the activation time of the start of the hold run
    no toggle and write nothing, however many they are: the hold fires
    only after the activation time. *)
Theorem short_hold_does_not_toggle :
  forall (cfg : config) (evs : list (world * raw_event)) (s : state),
    unsupported_abs_mt_slot s = false ->
    cur_key s = Some (KeyCode KEY_NUMLOCK) ->
    Forall (within_activation_time cfg (top_right_icon_touch_start_time s)) evs ->
    exists s',
      run cfg evs s = Ok s'
      /\ numlock s' = numlock s
      /\ out s' = out s
      /\ cur_key s' = Some (KeyCode KEY_NUMLOCK)
      /\ top_right_icon_touch_start_time s' = top_right_icon_touch_start_time s.
Proof.
  intros cfg evs. induction evs as [|[w e] evs IH]; intros s Hu Hk Hall.
  - exists s. repeat split; auto.
  - inversion Hall as [|? ? Hwe Hrest]; subst.
    cbn [run]. rewrite (short_hold_step cfg w e s Hu Hk Hwe). cbn [bind].
    destruct (IH (set_last_event_time (time w) s) Hu Hk Hrest)
      as (s' & E & H1 & H2 & H3 & H4).
    exists s'. repeat split; assumption.
Qed.

(** The finger holds the numlock icon since clock 10; timestamps at
    clocks 10.5 and 11 do not toggle. *)
Lemma short_hold_does_not_toggle_witness :
  exists s',
    run (sample_layout false false)
      [ (calm (21 # 2) false, ev MSC_TIMESTAMP 0);
        (calm 11 false, ev MSC_TIMESTAMP 0) ] holding_numlock_icon = Ok s'
    /\ numlock s' = numlock holding_numlock_icon
    /\ out s' = out holding_numlock_icon
    /\ cur_key s' = Some (KeyCode KEY_NUMLOCK)
    /\ top_right_icon_touch_start_time s'
       = top_right_icon_touch_start_time holding_numlock_icon.
Proof.
  apply short_hold_does_not_toggle.
  - reflexivity.
  - reflexivity.
  - repeat constructor.
Defined.

(** The host numlock goes on while the numpad of the sample layout is
    inactive: the numpad follows. *)
Lemma host_numlock_poll_witness :
  numlock (check_system_numlock_vs_local (sample_layout false false) (calm 1 true)
             initial_state) = true
  /\ emitted (out (check_system_numlock_vs_local (sample_layout false false)
                     (calm 1 true) initial_state)) = [].
Proof.
  destruct (host_numlock_poll (sample_layout false false) (calm 1 true) initial_state)
    as (H1 & _ & H3).
  split; [exact (H3 eq_refl)|exact H1].
Defined.

(** ** Lifting inside the numlock icon *)

(** A contact-up inside the numlock icon changes nothing but the event
    time: the slot keeps the numlock pseudo-key and the hold timer
    keeps running.  So a tap on the icon shorter than the activation
    time still toggles the numpad at the first timestamp event that
    comes after the activation time, the finger long lifted, provided
    the slot's position was not moved and touchpad_disables_numpad is
    false or the touchpad is reported enabled. *)
Theorem lift_inside_the_numlock_icon_keeps_the_hold_armed :
  forall (cfg : config) (w1 w2 : world) (e : raw_event) (v : Z) (s : state),
    is_btn_tool e = true -> ev_value e <> 1 ->
    unsupported_abs_mt_slot s = false ->
    is_pressed_touchpad_top_right_icon cfg s = true ->
    listen_touchpad_events cfg w1 e s = Ok (set_last_event_time (time w1) s)
    /\ (Qis0 (top_right_icon_touch_start_time s) = false ->
        cur_key s = Some (KeyCode KEY_NUMLOCK) ->
        Qltb (top_right_icon_activation_time cfg)
             (time w2 - top_right_icon_touch_start_time s) = true ->
        touchpad_disables_numpad cfg = false \/ fst (is_device_enabled w2 s) = true ->
        exists s2,
          listen_touchpad_events cfg w2 (ev MSC_TIMESTAMP v)
            (set_last_event_time (time w1) s) = Ok s2
          /\ numlock s2 = negb (numlock s)).
Proof.
  intros cfg w1 w2 e v s He Hv Hu Hicon. split.
  - rewrite listen_btn_tool by assumption. unfold on_btn_tool.
    change (is_pressed_touchpad_top_right_icon cfg (set_last_event_time (time w1) s))
      with (is_pressed_touchpad_top_right_icon cfg s).
    rewrite Hicon. unfold pressed_touchpad_top_right_icon.
    destruct (Z.eqb_spec (ev_value e) 1) as [E|_]; [contradiction|reflexivity].
  - intros Harmed Hkey Hlong Hen.
    set (s0 := set_last_event_time (time w1) s).
    rewrite listen_timestamp by exact Hu.
    unfold on_timestamp.
    change (is_pressed_touchpad_top_right_icon cfg (set_last_event_time (time w2) s0))
      with (is_pressed_touchpad_top_right_icon cfg s).
    rewrite Hicon.
    rewrite (hold_fires cfg w2 (set_last_event_time (time w2) s0) Harmed Hkey Hlong).
    pose proof (fst_is_device_enabled w2
                  (set_top_right_icon_touch_start_time 0
                     (set_last_event_time (time w2) s0)) s) as Hfst.
    pose proof (numlock_is_device_enabled w2
                  (set_top_right_icon_touch_start_time 0
                     (set_last_event_time (time w2) s0))) as Hq.
    destruct (is_device_enabled w2
                (set_top_right_icon_touch_start_time 0
                   (set_last_event_time (time w2) s0))) as [en s2].
    cbn [fst snd] in Hfst, Hq.
    assert (Hgo : (en && touchpad_disables_numpad cfg)
                  || negb (touchpad_disables_numpad cfg) = true).
    { destruct Hen as [H|H].
      - rewrite H. apply orb_true_r.
      - rewrite Hfst, H. destruct (touchpad_disables_numpad cfg); reflexivity. }
    rewrite Hgo. cbn [bind]. eexists. split; [reflexivity|].
    rewrite numlock_local_numlock_pressed, Hq. reflexivity.
Qed.

(** The finger touches the numlock icon of the sample layout at clock
    10 and lifts at clock 10.5; the timestamp event at clock 30
    switches the numpad on. *)
Lemma lift_inside_the_numlock_icon_keeps_the_hold_armed_witness :
  listen_touchpad_events (sample_layout false false) (calm (21 # 2) false)
    (ev BTN_TOOL_FINGER 0) holding_numlock_icon
  = Ok (set_last_event_time (21 # 2) holding_numlock_icon)
  /\ exists s2,
       listen_touchpad_events (sample_layout false false) (calm 30 false)
         (ev MSC_TIMESTAMP 0) (set_last_event_time (21 # 2) holding_numlock_icon)
       = Ok s2
       /\ numlock s2 = negb (numlock holding_numlock_icon).
Proof.
  assert (Hne : 0 <> 1) by discriminate.
  destruct (lift_inside_the_numlock_icon_keeps_the_hold_armed
              (sample_layout false false) (calm (21 # 2) false) (calm 30 false)
              (ev BTN_TOOL_FINGER 0) 0 holding_numlock_icon
              eq_refl Hne eq_refl eq_refl) as [H1 H2].
  split; [exact H1|].
  apply H2; [reflexivity|reflexivity|reflexivity|right; reflexivity].
Defined.
